(** * Library Management API: the catalogue handlers of both storage variants

    Shallow embedding of [library-api-server.js] (in-memory array store) and
    of its SQLite twin (the file whose header reads "LIBRARY MANAGEMENT API -
    WITH SQLITE DATABASE"), followed by the theorems that settle the
    properties stated for the query pipeline and the catalogue store.

    Conventions of the model.
    - Strings are sequences of 8-bit characters; [toLowerCase] and
      [toUpperCase] act on the ASCII letters, which is what JavaScript and
      SQLite's LIKE agree on.
    - JavaScript numbers that the handlers compute with are integers, kept
      exact in [Z], together with [NaN] and the two infinities.  A
      JavaScript number holds an integer exactly up to [MAX_SAFE_INTEGER]
      (2^53 - 1); the theorems whose conclusion depends on a number that a
      request can push beyond that carry the bound as a hypothesis.
    - A response is what leaves the server: the numbers of the pagination
      block are given as [res.json] writes them ([json_number]).
    - The clock ([new Date()], [CURRENT_TIMESTAMP]) is an argument of the
      handlers that read it.
    - [console.log] calls are left out. *)

From Stdlib Require Import ZArith List String Ascii Bool Lia.
From Stdlib Require Import Permutation Sorted OrderedTypeEx DecimalString.
From Stdlib Require DecimalPos.
Import ListNotations.

Local Open Scope string_scope.
Local Open Scope list_scope.
Local Open Scope Z_scope.

(* ========================================================================= *)
(** ** JavaScript builtins used by the handlers *)
(* ========================================================================= *)

Module JS.

(** Numbers: an exact integer, NaN, or an infinity ([Inf true] is -Infinity).
    The sign of a zero is not kept.  The handlers' arithmetic can tell the
    two zeros apart in one place only, the sign of the infinity that
    [ceil_div] gives for a zero divisor, and [json_number] sends both
    infinities, like both zeros, as the same text. *)
Inductive number : Type :=
| NaN
| Inf (negative : bool)
| Num (z : Z).

(** [Number.MAX_SAFE_INTEGER]: up to here a JavaScript number and the
    integer it stands for are the same thing. *)
Definition MAX_SAFE_INTEGER : Z := 9007199254740991.

(** A number as [JSON.stringify] writes it, hence as [res.json] sends it:
    an integer by its digits, NaN and both infinities as [null]. *)
Definition json_number (n : number) : option Z :=
  match n with
  | Num z => Some z
  | _ => None
  end.

Definition nadd (a b : number) : number :=
  match a, b with
  | NaN, _ | _, NaN => NaN
  | Inf s, Inf t => if Bool.eqb s t then Inf s else NaN
  | Inf s, Num _ => Inf s
  | Num _, Inf t => Inf t
  | Num x, Num y => Num (x + y)
  end.

Definition nneg (a : number) : number :=
  match a with
  | NaN => NaN
  | Inf s => Inf (negb s)
  | Num x => Num (- x)
  end.

Definition nsub (a b : number) : number := nadd a (nneg b).

Definition nmul (a b : number) : number :=
  match a, b with
  | NaN, _ | _, NaN => NaN
  | Inf s, Inf t => Inf (xorb s t)
  | Inf s, Num y => if y =? 0 then NaN else Inf (xorb s (y <? 0))
  | Num x, Inf t => if x =? 0 then NaN else Inf (xorb (x <? 0) t)
  | Num x, Num y => Num (x * y)
  end.

(** [Math.ceil(a / b)] for an integer [a].  For a zero divisor the result
    is an infinity (NaN for 0 / 0), given here with the sign it has for the
    positive zero. *)
Definition ceil_div (a : Z) (b : number) : number :=
  match b with
  | NaN => NaN
  | Inf _ => Num 0
  | Num y =>
      if y =? 0 then
        (if a =? 0 then NaN else Inf (a <? 0))
      else Num (- ((- a) / y))
  end.

(** *** Strings *)

Definition lower_char (c : ascii) : ascii :=
  let n := nat_of_ascii c in
  if (Nat.leb 65 n && Nat.leb n 90)%bool then ascii_of_nat (n + 32) else c.

Definition upper_char (c : ascii) : ascii :=
  let n := nat_of_ascii c in
  if (Nat.leb 97 n && Nat.leb n 122)%bool then ascii_of_nat (n - 32) else c.

Fixpoint toLowerCase (s : string) : string :=
  match s with
  | EmptyString => EmptyString
  | String c r => String (lower_char c) (toLowerCase r)
  end.

Fixpoint toUpperCase (s : string) : string :=
  match s with
  | EmptyString => EmptyString
  | String c r => String (upper_char c) (toUpperCase r)
  end.

(** [s.includes(sub)] *)
Fixpoint includes (s sub : string) : bool :=
  String.prefix sub s ||
  match s with
  | EmptyString => false
  | String _ r => includes r sub
  end.

(** Truthiness of a value that is a string or undefined:
    [if (x)] holds for a non-empty string only. *)
Definition truthy (x : option string) : bool :=
  match x with
  | Some s => negb (String.eqb s "")
  | None => false
  end.

(** *** parseInt *)

Definition is_space (c : ascii) : bool :=
  let n := nat_of_ascii c in
  (Nat.eqb n 9 || Nat.eqb n 10 || Nat.eqb n 11 || Nat.eqb n 12
   || Nat.eqb n 13 || Nat.eqb n 32 || Nat.eqb n 160)%bool.

Fixpoint skip_space (s : string) : string :=
  match s with
  | EmptyString => EmptyString
  | String c r => if is_space c then skip_space r else s
  end.

Definition digit_val (radix : Z) (c : ascii) : option Z :=
  let n := Z.of_nat (nat_of_ascii c) in
  let v :=
    if (48 <=? n) && (n <=? 57) then n - 48
    else if (97 <=? n) && (n <=? 122) then n - 87
    else if (65 <=? n) && (n <=? 90) then n - 55
    else radix in
  if v <? radix then Some v else None.

(** Value of the longest prefix of digits; [None] when there is none. *)
Fixpoint digits (radix : Z) (s : string) (acc : option Z) : option Z :=
  match s with
  | EmptyString => acc
  | String c r =>
      match digit_val radix c with
      | Some d =>
          digits radix r
            (Some (match acc with Some a => a * radix + d | None => d end))
      | None => acc
      end
  end.

Definition parseInt (s : string) : number :=
  let s1 := skip_space s in
  let '(neg, s2) :=
    match s1 with
    | String "-" r => (true, r)
    | String "+" r => (false, r)
    | _ => (false, s1)
    end in
  let '(radix, s3) :=
    match s2 with
    | String "0" (String "x" r) => (16, r)
    | String "0" (String "X" r) => (16, r)
    | _ => (10, s2)
    end in
  match digits radix s3 None with
  | None => NaN
  | Some v => Num (if neg then - v else v)
  end.

(** *** Arrays *)

(** Index computation of [Array.prototype.slice]: a negative index counts
    from the end, and the result is clamped to [0, len]. *)
Definition rel_index (len : Z) (n : number) : Z :=
  match n with
  | NaN => 0
  | Inf true => 0
  | Inf false => len
  | Num z => if z <? 0 then Z.max (len + z) 0 else Z.min z len
  end.

Definition slice {A : Type} (l : list A) (start stop : number) : list A :=
  let len := Z.of_nat (List.length l) in
  let k := rel_index len start in
  let final := rel_index len stop in
  firstn (Z.to_nat (final - k)) (skipn (Z.to_nat k) l).

(** [Array.prototype.sort(cmp)]: a stable insertion sort; [cmp a b > 0]
    puts [a] after [b].  The language fixes the result only for a consistent
    comparator; for the others this is one admissible behaviour. *)
Fixpoint insert {A : Type} (cmp : A -> A -> Z) (x : A) (l : list A) : list A :=
  match l with
  | [] => [x]
  | y :: r => if 0 <? cmp x y then y :: insert cmp x r else x :: l
  end.

Fixpoint sort {A : Type} (cmp : A -> A -> Z) (l : list A) : list A :=
  match l with
  | [] => []
  | x :: r => insert cmp x (sort cmp r)
  end.

(** [Array.prototype.find] and [findIndex] *)
Fixpoint findIndex {A : Type} (p : A -> bool) (l : list A) : Z :=
  match l with
  | [] => -1
  | x :: r => if p x then 0 else
                let i := findIndex p r in if i <? 0 then -1 else i + 1
  end.

(** [splice(i, 1)] for an index [i] inside the array. *)
Definition splice1 {A : Type} (i : Z) (l : list A) : list A :=
  firstn (Z.to_nat i) l ++ skipn (S (Z.to_nat i)) l.

(** Values read out of a record by a computed key. *)
Inductive value : Type :=
| VUndefined
| VNull
| VNum (z : Z)
| VStr (s : string).

(** [a < b] on values.  Two strings compare by code units; otherwise both
    sides are converted to numbers, [null] to 0 and [undefined] to NaN.  The
    handlers never compare a string with a non-string: both operands are the
    same field of two records; that case is given [false]. *)
Definition lt (a b : value) : bool :=
  match a, b with
  | VStr s, VStr t => String.ltb s t
  | VStr _, _ | _, VStr _ => false
  | VUndefined, _ | _, VUndefined => false
  | VNull, VNull => false
  | VNull, VNum y => 0 <? y
  | VNum x, VNull => x <? 0
  | VNum x, VNum y => x <? y
  end.

Definition gt (a b : value) : bool := lt b a.

End JS.

Import JS.

(* ========================================================================= *)
(** ** Data model and HTTP surface *)
(* ========================================================================= *)

Record Book : Type := mkBook {
  id : Z;
  title : string;
  author : string;
  isbn : string;
  published_year : option Z;
  category : option string;
  copies_available : Z;
  copies_total : Z;
  created_at : string;
  updated_at : string
}.

(** [req.query] of GET /books: every parameter is a string or absent.  (A
    repeated or bracketed parameter, which Express parses to an array or an
    object, is outside the model.) *)
Record Query : Type := mkQuery {
  q_category : option string;
  q_author : option string;
  q_available : option string;
  q_sort_by : option string;
  q_order : option string;
  q_page : option string;
  q_limit : option string
}.

(** [req.body] of POST and PUT /books, each field of the type the data
    model gives it, or absent. *)
Record Draft : Type := mkDraft {
  d_title : option string;
  d_author : option string;
  d_isbn : option string;
  d_published_year : option Z;
  d_category : option string;
  d_copies_total : option Z
}.

Inductive ErrorCode : Type :=
| INVALID_PARAMETER
| VALIDATION_ERROR
| DUPLICATE_ISBN
| RESOURCE_NOT_FOUND
| DATABASE_ERROR.

Inductive Message : Type :=
| Text (s : string)
| BookNotFound (bookId : number).   (* `Book with ID ${bookId} not found` *)

Inductive Details : Type :=
| NoDetails
| Fields (fields : list string)
| ExistingBook (existing_book_id : Z).

(** The pagination block of a list response, as sent: [None] is [null]. *)
Record Pagination : Type := mkPagination {
  current_page : option Z;
  total_pages : option Z;
  total_items : Z;
  items_per_page : option Z
}.

Inductive Body : Type :=
| ListBody (data : list Book) (pagination : Pagination)
| BookBody (b : Book)
| ErrorBody (code : ErrorCode) (message : Message) (details : Details)
| EmptyBody
| HtmlPage.     (* Express's own page: no matching route, uncaught exception *)

Record Response : Type := mkResponse {
  status : Z;
  location : option Z;       (* Location: /books/<id> *)
  body : Body
}.

Definition json (st : Z) (b : Body) : Response := mkResponse st None b.

Inductive Method : Type := GET | POST | PUT | DELETE.

(** A request after routing on the path:
    [/books] or [/books/:id] with the raw [:id] segment. *)
Inductive Path : Type :=
| Books
| BooksId (id_segment : string).

Definition validSortFields : list string := ["title"; "published_year"; "author"].

Definition member (s : string) (l : list string) : bool :=
  existsb (String.eqb s) l.

Definition default {A : Type} (d : A) (x : option A) : A :=
  match x with
  | Some v => v
  | None => d
  end.

Definition invalid_sort_by : Response :=
  json 400 (ErrorBody INVALID_PARAMETER (Text "Invalid sort_by parameter")
              (Fields ["sort_by"])).

Definition invalid_order : Response :=
  json 400 (ErrorBody INVALID_PARAMETER (Text "Invalid order parameter")
              (Fields ["order"])).

(** The `details` array of the VALIDATION_ERROR envelope. *)
Definition missing_fields (d : Draft) : list string :=
  (if truthy (d_title d) then [] else ["title"]) ++
  (if truthy (d_author d) then [] else ["author"]) ++
  (if truthy (d_isbn d) then [] else ["isbn"]).

Definition validation_error (d : Draft) : Response :=
  json 400 (ErrorBody VALIDATION_ERROR (Text "Missing required fields")
              (Fields (missing_fields d))).

Definition required_present (d : Draft) : bool :=
  truthy (d_title d) && truthy (d_author d) && truthy (d_isbn d).

Definition duplicate_isbn (existing : Z) : Response :=
  json 409 (ErrorBody DUPLICATE_ISBN (Text "A book with this ISBN already exists")
              (ExistingBook existing)).

Definition not_found (bookId : number) : Response :=
  json 404 (ErrorBody RESOURCE_NOT_FOUND (BookNotFound bookId) NoDetails).

(** [parseInt(x)] where [x] is a query string or the numeric default. *)
Definition parse_or (d : Z) (x : option string) : number :=
  match x with
  | Some s => parseInt s
  | None => Num d
  end.

(** The five seed records (the same in both variants; the SQLite table
    fills the timestamps itself). *)
Definition seed : list Book :=
  [ mkBook 1 "The Hobbit" "J.R.R. Tolkien" "978-0547928227" (Some 1937)
      (Some "fiction") 3 5 "2025-01-01T00:00:00Z" "2025-01-05T10:30:00Z";
    mkBook 2 "Clean Code" "Robert C. Martin" "978-0132350884" (Some 2008)
      (Some "technology") 2 2 "2025-01-02T00:00:00Z" "2025-01-02T00:00:00Z";
    mkBook 3 "1984" "George Orwell" "978-0451524935" (Some 1949)
      (Some "fiction") 0 4 "2025-01-03T00:00:00Z" "2025-01-10T14:20:00Z";
    mkBook 4 "Introduction to Algorithms" "Thomas H. Cormen" "978-0262033848"
      (Some 2009) (Some "technology") 1 3
      "2025-01-04T00:00:00Z" "2025-01-04T00:00:00Z";
    mkBook 5 "The Lord of the Rings" "J.R.R. Tolkien" "978-0544003415"
      (Some 1954) (Some "fiction") 2 6
      "2025-01-05T00:00:00Z" "2025-01-12T09:15:00Z" ].

(* ========================================================================= *)
(** ** Variant 1: the in-memory array store ([library-api-server.js]) *)
(* ========================================================================= *)

Module Memory.

(** Arrays are objects on the heap: [filter], [slice] and the spread
    [[...xs]] allocate a new array, while [sort], [push] and [splice] update
    the array they are called on.  A reference is either the array bound to
    the global [books] (never reassigned by any handler) or an array
    allocated while a handler runs, named by its allocation index.  No
    handler of this variant writes to a record once it is stored, so an
    array is the list of its records. *)
Inductive ref : Type :=
| Global
| Local (n : nat).

Record Heap : Type := mkHeap {
  global : list Book;
  locals : list (list Book)
}.

Inductive Result (A : Type) : Type :=
| Ok (a : A)
| TypeError.        (* e.g. reading [toLowerCase] of [null] *)
Arguments Ok {A} a.
Arguments TypeError {A}.

Definition M (A : Type) : Type := Heap -> Result A * Heap.

Definition ret {A : Type} (a : A) : M A := fun h => (Ok a, h).

Definition throw {A : Type} : M A := fun h => (TypeError, h).

Definition bind {A B : Type} (c : M A) (k : A -> M B) : M B :=
  fun h =>
    match c h with
    | (Ok a, h') => k a h'
    | (TypeError, h') => (TypeError, h')
    end.

Notation "x <- c ;; k" := (bind c (fun x => k))
  (at level 61, c at next level, right associativity).
Notation "c ;;; k" := (bind c (fun _ => k))
  (at level 61, right associativity).

Definition read (r : ref) : M (list Book) :=
  fun h =>
    (Ok (match r with
         | Global => global h
         | Local n => nth n (locals h) []
         end), h).

Definition alloc (l : list Book) : M ref :=
  fun h => (Ok (Local (List.length (locals h))), mkHeap (global h) (locals h ++ [l])).

Fixpoint set_cell (n : nat) (l : list Book) (cells : list (list Book))
  : list (list Book) :=
  match n, cells with
  | _, [] => []
  | O, _ :: t => l :: t
  | S n', c :: t => c :: set_cell n' l t
  end.

Definition write (r : ref) (l : list Book) : M unit :=
  fun h =>
    (Ok tt, match r with
            | Global => mkHeap l (locals h)
            | Local n => mkHeap (global h) (set_cell n l (locals h))
            end).

Definition books : ref := Global.

Definition initial : Heap := mkHeap seed [].

(** The records held by the store, in storage order. *)
Definition store (h : Heap) : list Book := global h.

(** [[...xs]] *)
Definition spread (r : ref) : M ref :=
  l <- read r ;; alloc l.

(** [xs.filter(p)], where evaluating [p] may throw. *)
Fixpoint filter_throw (p : Book -> Result bool) (l : list Book)
  : Result (list Book) :=
  match l with
  | [] => Ok []
  | x :: r =>
      match p x with
      | TypeError => TypeError
      | Ok keep =>
          match filter_throw p r with
          | TypeError => TypeError
          | Ok r' => Ok (if keep then x :: r' else r')
          end
      end
  end.

Definition arr_filter (r : ref) (p : Book -> Result bool) : M ref :=
  l <- read r ;;
  match filter_throw p l with
  | Ok l' => alloc l'
  | TypeError => throw
  end.

(** [xs.sort(cmp)] sorts [xs] itself. *)
Definition arr_sort (r : ref) (cmp : Book -> Book -> Z) : M unit :=
  l <- read r ;; write r (sort cmp l).

Definition arr_slice (r : ref) (start stop : number) : M ref :=
  l <- read r ;; alloc (slice l start stop).

Definition arr_length (r : ref) : M Z :=
  l <- read r ;; ret (Z.of_nat (List.length l)).

Definition arr_find (r : ref) (p : Book -> bool) : M (option Book) :=
  l <- read r ;; ret (List.find p l).

Definition arr_findIndex (r : ref) (p : Book -> bool) : M Z :=
  l <- read r ;; ret (findIndex p l).

Definition arr_push (r : ref) (b : Book) : M unit :=
  l <- read r ;; write r (l ++ [b]).

Definition arr_splice1 (r : ref) (i : Z) : M unit :=
  l <- read r ;; write r (splice1 i l).

(** [a[key]] for a record [a]. *)
Definition prop (a : Book) (key : string) : value :=
  if String.eqb key "id" then VNum (id a)
  else if String.eqb key "title" then VStr (title a)
  else if String.eqb key "author" then VStr (author a)
  else if String.eqb key "isbn" then VStr (isbn a)
  else if String.eqb key "published_year" then
    match published_year a with Some y => VNum y | None => VNull end
  else if String.eqb key "category" then
    match category a with Some c => VStr c | None => VNull end
  else if String.eqb key "copies_available" then VNum (copies_available a)
  else if String.eqb key "copies_total" then VNum (copies_total a)
  else if String.eqb key "created_at" then VStr (created_at a)
  else if String.eqb key "updated_at" then VStr (updated_at a)
  else VUndefined.

Definition lower_value (v : value) : value :=
  match v with
  | VStr s => VStr (toLowerCase s)
  | _ => v
  end.

(** The comparator handed to [sort] (STEP 5). *)
Definition compare_books (sort_by order : string) (a b : Book) : Z :=
  let aVal := prop a sort_by in
  let bVal := prop b sort_by in
  let '(aVal, bVal) :=
    match aVal with
    | VStr _ => (lower_value aVal, lower_value bVal)
    | _ => (aVal, bVal)
    end in
  if String.eqb order "asc" then
    (if JS.gt aVal bVal then 1 else -1)
  else
    (if JS.lt aVal bVal then 1 else -1).

(** [book.category.toLowerCase() === category.toLowerCase()] *)
Definition category_matches (wanted : string) (book : Book) : Result bool :=
  match category book with
  | Some c => Ok (String.eqb (toLowerCase c) (toLowerCase wanted))
  | None => TypeError
  end.

(** [book.author.toLowerCase().includes(author.toLowerCase())] *)
Definition author_matches (wanted : string) (book : Book) : Result bool :=
  Ok (includes (toLowerCase (author book)) (toLowerCase wanted)).

(** [isAvailable ? book.copies_available > 0 : book.copies_available === 0] *)
Definition availability (isAvailable : bool) (book : Book) : bool :=
  if isAvailable then 0 <? copies_available book
  else copies_available book =? 0.

(** [b.id === bookId] *)
Definition id_is (bookId : number) (b : Book) : bool :=
  match bookId with
  | Num z => id b =? z
  | _ => false
  end.

(** GET /books *)
Definition get_books (q : Query) : M Response :=
  (* STEP 1 *)
  let sort_by := default "title" (q_sort_by q) in
  let order := default "asc" (q_order q) in
  (* STEP 2 *)
  if negb (member sort_by validSortFields) then ret invalid_sort_by
  else if negb (member order ["asc"; "desc"]) then ret invalid_order
  else
    (* STEP 3 *)
    filteredBooks <- spread books ;;
    (* STEP 4 *)
    filteredBooks <-
      (if truthy (q_category q)
       then arr_filter filteredBooks (category_matches (default "" (q_category q)))
       else ret filteredBooks) ;;
    filteredBooks <-
      (if truthy (q_author q)
       then arr_filter filteredBooks (author_matches (default "" (q_author q)))
       else ret filteredBooks) ;;
    filteredBooks <-
      (match q_available q with
       | Some available =>
           let isAvailable := String.eqb available "true" in
           arr_filter filteredBooks (fun book => Ok (availability isAvailable book))
       | None => ret filteredBooks
       end) ;;
    (* STEP 5 *)
    arr_sort filteredBooks (compare_books sort_by order) ;;;
    (* STEP 6 *)
    let pageNum := parse_or 1 (q_page q) in
    let limitNum := parse_or 20 (q_limit q) in
    let startIndex := nmul (nsub pageNum (Num 1)) limitNum in
    let endIndex := nadd startIndex limitNum in
    paginatedBooks <- arr_slice filteredBooks startIndex endIndex ;;
    totalItems <- arr_length filteredBooks ;;
    let totalPages := ceil_div totalItems limitNum in
    (* STEP 7, 8 *)
    data <- read paginatedBooks ;;
    ret (json 200 (ListBody data
                     (mkPagination (json_number pageNum) (json_number totalPages)
                        totalItems (json_number limitNum)))).

(** [x || null] *)
Definition year_or_null (y : option Z) : option Z :=
  match y with
  | Some 0 => None
  | _ => y
  end.

Definition string_or_null (s : option string) : option string :=
  if truthy s then s else None.

(** POST /books; [t1] and [t2] are the two readings of the clock. *)
Definition post_books (t1 t2 : string) (d : Draft) : M Response :=
  let copies := default 1 (d_copies_total d) in
  (* STEP 1 *)
  if negb (required_present d) then ret (validation_error d)
  else
    (* STEP 2 *)
    existingBook <-
      arr_find books (fun book => String.eqb (isbn book) (default "" (d_isbn d))) ;;
    match existingBook with
    | Some e => ret (duplicate_isbn (id e))
    | None =>
        (* STEP 3 *)
        len <- arr_length books ;;
        let newBook :=
          mkBook (len + 1) (default "" (d_title d)) (default "" (d_author d))
            (default "" (d_isbn d)) (year_or_null (d_published_year d))
            (string_or_null (d_category d)) copies copies t1 t2 in
        arr_push books newBook ;;;
        (* STEP 4 *)
        ret (mkResponse 201 (Some (id newBook)) (BookBody newBook))
    end.

(** GET /books/:id *)
Definition get_book (id_segment : string) : M Response :=
  let bookId := parseInt id_segment in
  book <- arr_find books (id_is bookId) ;;
  match book with
  | None => ret (not_found bookId)
  | Some b => ret (json 200 (BookBody b))
  end.

(** DELETE /books/:id *)
Definition delete_book (id_segment : string) : M Response :=
  let bookId := parseInt id_segment in
  bookIndex <- arr_findIndex books (id_is bookId) ;;
  if bookIndex =? -1 then ret (not_found bookId)
  else
    arr_splice1 books bookIndex ;;;
    ret (json 204 EmptyBody).

(** The routes registered on [app]; there is no [app.put].  A request that
    matches no route, or whose handler throws, is answered by Express. *)
Definition route (t1 t2 : string) (m : Method) (p : Path) (q : Query) (d : Draft)
  : option (M Response) :=
  match m, p with
  | GET, Books => Some (get_books q)
  | POST, Books => Some (post_books t1 t2 d)
  | GET, BooksId s => Some (get_book s)
  | DELETE, BooksId s => Some (delete_book s)
  | _, _ => None
  end.

Definition respond (handler : M Response) (h : Heap) : Response * Heap :=
  match handler h with
  | (Ok r, h') => (r, h')
  | (TypeError, h') => (json 500 HtmlPage, h')
  end.

Definition serve (t1 t2 : string) (m : Method) (p : Path) (q : Query) (d : Draft)
  (h : Heap) : Response * Heap :=
  match route t1 t2 m p q d with
  | None => (json 404 HtmlPage, h)
  | Some handler => respond handler h
  end.

(** Vocabulary for the statements: the stages of GET /books as functions of
    the array they start from. *)

(** The query passes STEP 2. *)
Definition valid (q : Query) : bool :=
  member (default "title" (q_sort_by q)) validSortFields
  && member (default "asc" (q_order q)) ["asc"; "desc"].

(** STEP 4 up to and including the author filter. *)
Definition filtered_by_text (q : Query) (l : list Book) : Result (list Book) :=
  match (if truthy (q_category q)
         then filter_throw (category_matches (default "" (q_category q))) l
         else Ok l) with
  | TypeError => TypeError
  | Ok l1 =>
      if truthy (q_author q)
      then filter_throw (author_matches (default "" (q_author q))) l1
      else Ok l1
  end.

(** The whole of STEP 4: what [filteredBooks] holds before sorting. *)
Definition filtered (q : Query) (l : list Book) : Result (list Book) :=
  match filtered_by_text q l with
  | TypeError => TypeError
  | Ok l2 =>
      match q_available q with
      | Some available =>
          filter_throw
            (fun book => Ok (availability (String.eqb available "true") book)) l2
      | None => Ok l2
      end
  end.

(** STEP 5 applied to a filtered set. *)
Definition sorted (q : Query) (l : list Book) : list Book :=
  sort (compare_books (default "title" (q_sort_by q)) (default "asc" (q_order q))) l.

(** The response to a query that fails STEP 2. *)
Definition rejection (q : Query) : Response :=
  if member (default "title" (q_sort_by q)) validSortFields
  then invalid_order else invalid_sort_by.

(** The response of GET /books for a set [f] left by the filters. *)
Definition list_response (q : Query) (f : list Book) : Response :=
  let pageNum := parse_or 1 (q_page q) in
  let limitNum := parse_or 20 (q_limit q) in
  let startIndex := nmul (nsub pageNum (Num 1)) limitNum in
  json 200
    (ListBody (slice (sorted q f) startIndex (nadd startIndex limitNum))
       (mkPagination (json_number pageNum)
          (json_number (ceil_div (Z.of_nat (List.length f)) limitNum))
          (Z.of_nat (List.length f)) (json_number limitNum))).

(** The response of GET /books as a function of the query and the store. *)
Definition list_result (q : Query) (l : list Book) : Response :=
  if valid q then
    match filtered q l with
    | Ok f => list_response q f
    | TypeError => json 500 HtmlPage
    end
  else rejection q.

(** [r] is a handler-local array holding [l]. *)
Definition holds (h : Heap) (r : ref) (l : list Book) : Prop :=
  exists n, r = Local n /\ nth_error (locals h) n = Some l.

(** The key the comparator orders by: the field, lower-cased when it is a
    string, and [null] as the number 0 it is converted to. *)
Definition sort_key (sort_by : string) (b : Book) : value :=
  match lower_value (prop b sort_by) with
  | VNull => VNum 0
  | v => v
  end.

End Memory.

(* ========================================================================= *)
(** ** Variant 2: the SQLite store *)
(* ========================================================================= *)

Module Sqlite.

(** The [books] table in rowid order, and the [sqlite_sequence] entry that
    AUTOINCREMENT keeps for it: the largest rowid ever handed out. *)
Record DB : Type := mkDB {
  rows : list Book;
  seq : Z
}.

(** SQL values: bound parameters and column contents. *)
Inductive sqlval : Type :=
| SNull
| SInt (z : Z)
| SText (s : string).

(** Binding a JavaScript number to a [?]: NaN is stored as NULL.  (An
    infinity does not come out of [parseInt] on the inputs modelled.)  The
    driver binds a number as an INTEGER when it is a 32-bit integer and as a
    REAL otherwise; against the INTEGER column [id] both compare by value,
    so the value is all that is kept here, and the one place where the
    difference shows is [limit_offset]. *)
Definition bind_number (n : number) : sqlval :=
  match n with
  | Num z => SInt z
  | _ => SNull
  end.

(** [id = ?]: a comparison with NULL is never true. *)
Definition id_eq (v : sqlval) (r : Book) : bool :=
  match v with
  | SInt z => id r =? z
  | _ => false
  end.

(** [x LIKE pattern]: [%] matches any run of characters, [_] exactly one,
    and letters match without regard to ASCII case. *)
Fixpoint like_list (pattern : list ascii) (x : list ascii) {struct pattern} : bool :=
  match pattern with
  | [] => match x with [] => true | _ => false end
  | p :: pattern' =>
      if Ascii.eqb p "%" then
        (fix star (y : list ascii) : bool :=
           like_list pattern' y ||
           match y with
           | [] => false
           | _ :: y' => star y'
           end) x
      else
        match x with
        | [] => false
        | c :: x' =>
            (Ascii.eqb p "_" || Ascii.eqb (lower_char p) (lower_char c))
            && like_list pattern' x'
        end
  end.

Definition like (x pattern : string) : bool :=
  like_list (list_ascii_of_string pattern) (list_ascii_of_string x).

(** The conditions pushed on [whereConditions], with their parameters. *)
Inductive Cond : Type :=
| CategoryEq (param : string)          (* category = ? *)
| AuthorLike (param : string)          (* author LIKE ? *)
| AvailableGt0                         (* copies_available > 0 *)
| AvailableEq0.                        (* copies_available = 0 *)

(** The [category] column is declared TEXT with the default BINARY
    collation: [=] is equality of the bytes, and NULL equals nothing. *)
Definition eval_cond (c : Cond) (r : Book) : bool :=
  match c with
  | CategoryEq param =>
      match category r with
      | Some v => String.eqb v param
      | None => false
      end
  | AuthorLike param => like (author r) param
  | AvailableGt0 => 0 <? copies_available r
  | AvailableEq0 => copies_available r =? 0
  end.

(** [WHERE c1 AND c2 AND ...]; no WHERE clause for the empty list. *)
Definition where_ (conds : list Cond) (l : list Book) : list Book :=
  filter (fun r => forallb (fun c => eval_cond c r) conds) l.

(** Column values for ORDER BY. *)
Definition column (name : string) (r : Book) : sqlval :=
  if String.eqb name "title" then SText (title r)
  else if String.eqb name "author" then SText (author r)
  else if String.eqb name "published_year" then
    match published_year r with Some y => SInt y | None => SNull end
  else SNull.

(** SQLite's ordering of values: NULL first, then integers, then text
    compared bytewise. *)
Definition sql_lt (a b : sqlval) : bool :=
  match a, b with
  | SNull, SNull => false
  | SNull, _ => true
  | _, SNull => false
  | SInt x, SInt y => x <? y
  | SInt _, SText _ => true
  | SText _, SInt _ => false
  | SText s, SText t => String.ltb s t
  end.

(** [ORDER BY name dir], [dir] being ASC or DESC; rows with equal keys stay
    in table order. *)
Definition order_by (name dir : string) (l : list Book) : list Book :=
  sort (fun a b =>
          if String.eqb dir "DESC"
          then (if sql_lt (column name a) (column name b) then 1 else -1)
          else (if sql_lt (column name b) (column name a) then 1 else -1)) l.

(** LIMIT and OFFSET want a 64-bit integer.  A bound number beyond 32 bits
    arrives as a REAL, which SQLite takes only if it converts to an integer
    strictly between the least and the greatest 64-bit integer. *)
Definition fits_int64 (z : Z) : bool :=
  (- 9223372036854775808 <? z) && (z <? 9223372036854775808).

(** [LIMIT ? OFFSET ?]: a parameter that is not an integer, or not one of
    64 bits, is a datatype mismatch; a negative LIMIT means no limit, a
    negative OFFSET means 0. *)
Definition limit_offset (lim off : sqlval) (l : list Book) : option (list Book) :=
  match lim, off with
  | SInt n, SInt k =>
      if fits_int64 n && fits_int64 k then
        let rest := skipn (Z.to_nat k) l in
        Some (if n <? 0 then rest else firstn (Z.to_nat n) rest)
      else None
  | _, _ => None
  end.

(** [SELECT COUNT( * ) as total FROM books WHERE ...] *)
Definition count_query (conds : list Cond) (db : DB) : Z :=
  Z.of_nat (List.length (where_ conds (rows db))).

(** [SELECT * FROM books WHERE ... ORDER BY ... LIMIT ? OFFSET ?] *)
Definition data_query (conds : list Cond) (name dir : string) (lim off : sqlval)
  (db : DB) : option (list Book) :=
  limit_offset lim off (order_by name dir (where_ conds (rows db))).

(** [SELECT * FROM books WHERE id = ?] through [db.get]: the first row. *)
Definition select_by_id (v : sqlval) (db : DB) : option Book :=
  List.find (id_eq v) (rows db).

(** [SELECT id FROM books WHERE isbn = ?] *)
Definition select_by_isbn (param : string) (db : DB) : option Book :=
  List.find (fun r => String.eqb (isbn r) param) (rows db).

(** [SELECT id FROM books WHERE isbn = ? AND id != ?] *)
Definition select_isbn_other (param : string) (v : sqlval) (db : DB) : option Book :=
  List.find (fun r => String.eqb (isbn r) param
                      && match v with SInt z => negb (id r =? z) | _ => false end)
            (rows db).

Definition max_id (l : list Book) : Z :=
  fold_right (fun r m => Z.max (id r) m) 0 l.

(** [INSERT INTO books (title, ..., copies_total) VALUES (?, ...)].
    The rowid is one more than the largest ever used (AUTOINCREMENT); both
    timestamps default to CURRENT_TIMESTAMP, here [now].  [None] is the
    UNIQUE(isbn) constraint failing.  The result carries [lastID]. *)
Definition insert_book (now : string) (ti au isb : string)
  (year : option Z) (cat : option string) (avail total : Z) (db : DB)
  : option (Z * DB) :=
  if existsb (fun r => String.eqb (isbn r) isb) (rows db) then None
  else
    let newid := Z.max (seq db) (max_id (rows db)) + 1 in
    Some (newid,
          mkDB (rows db ++ [mkBook newid ti au isb year cat avail total now now])
               newid).

(** [UPDATE books SET title = ?, ..., updated_at = CURRENT_TIMESTAMP WHERE id = ?];
    [None] is the UNIQUE(isbn) constraint failing. *)
Definition update_book (now : string) (ti au isb : string)
  (year : option Z) (cat : option string) (total avail : Z) (v : sqlval) (db : DB)
  : option DB :=
  if existsb (fun r => id_eq v r
                       && existsb (fun o => negb (id o =? id r)
                                            && String.eqb (isbn o) isb) (rows db))
             (rows db)
  then None
  else
    Some (mkDB (map (fun r =>
                       if id_eq v r
                       then mkBook (id r) ti au isb year cat avail total
                                   (created_at r) now
                       else r) (rows db))
               (seq db)).

(** [DELETE FROM books WHERE id = ?] *)
Definition delete_by_id (v : sqlval) (db : DB) : DB :=
  mkDB (filter (fun r => negb (id_eq v r)) (rows db)) (seq db).

Definition database_error (msg : string) : Response :=
  json 500 (ErrorBody DATABASE_ERROR (Text msg) NoDetails).

(** [initializeDatabase] on a fresh file: the table is empty, so the five
    seed rows are inserted in turn. *)
Definition initial (now : string) : DB :=
  fold_left
    (fun db b =>
       match insert_book now (title b) (author b) (isbn b) (published_year b)
               (category b) (copies_available b) (copies_total b) db with
       | Some (_, db') => db'
       | None => db
       end)
    seed (mkDB [] 0).

(** STEP 2 of GET /books: the WHERE conditions, in the order pushed. *)
Definition where_conditions (q : Query) : list Cond :=
  (if truthy (q_category q) then [CategoryEq (default "" (q_category q))] else [])
  ++ (if truthy (q_author q)
      then [AuthorLike ("%" ++ default "" (q_author q) ++ "%")%string] else [])
  ++ (match q_available q with
      | Some available =>
          let isAvailable := String.eqb available "true" in
          if isAvailable then [AvailableGt0] else [AvailableEq0]
      | None => []
      end).

(** GET /books *)
Definition get_books (q : Query) (db : DB) : Response * DB :=
  (* STEP 1 *)
  let sort_by := default "title" (q_sort_by q) in
  let order := default "asc" (q_order q) in
  if negb (member sort_by validSortFields) then (invalid_sort_by, db)
  else if negb (member (toLowerCase order) ["asc"; "desc"]) then (invalid_order, db)
  else
    (* STEP 2 *)
    let whereConditions := where_conditions q in
    (* STEP 3 *)
    let total := count_query whereConditions db in
    (* STEP 4 *)
    let pageNum := parse_or 1 (q_page q) in
    let limitNum := parse_or 20 (q_limit q) in
    let offset := nmul (nsub pageNum (Num 1)) limitNum in
    let totalPages := ceil_div total limitNum in
    (* STEP 5 *)
    match data_query whereConditions sort_by (toUpperCase order)
            (bind_number limitNum) (bind_number offset) db with
    | Some data =>
        (* STEP 6 *)
        (json 200 (ListBody data
                     (mkPagination (json_number pageNum) (json_number totalPages)
                        total (json_number limitNum))),
         db)
    | None => (database_error "An error occurred while fetching books", db)
    end.

(** POST /books *)
Definition post_books (now : string) (d : Draft) (db : DB) : Response * DB :=
  let copies := default 1 (d_copies_total d) in
  (* STEP 1 *)
  if negb (required_present d) then (validation_error d, db)
  else
    (* STEP 2 *)
    match select_by_isbn (default "" (d_isbn d)) db with
    | Some existingBook => (duplicate_isbn (id existingBook), db)
    | None =>
        (* STEP 3 *)
        match insert_book now (default "" (d_title d)) (default "" (d_author d))
                (default "" (d_isbn d)) (d_published_year d) (d_category d)
                copies copies db with
        | None => (database_error "An error occurred while creating the book", db)
        | Some (lastID, db') =>
            (* STEP 4, 5 *)
            match select_by_id (SInt lastID) db' with
            | Some newBook =>
                (mkResponse 201 (Some (id newBook)) (BookBody newBook), db')
            | None =>
                (database_error "An error occurred while creating the book", db')
            end
        end
    end.

(** GET /books/:id *)
Definition get_book (id_segment : string) (db : DB) : Response * DB :=
  let bookId := parseInt id_segment in
  match select_by_id (bind_number bookId) db with
  | None => (not_found bookId, db)
  | Some book => (json 200 (BookBody book), db)
  end.

(** PUT /books/:id *)
Definition put_book (now : string) (id_segment : string) (d : Draft) (db : DB)
  : Response * DB :=
  let bookId := parseInt id_segment in
  if negb (required_present d) then (validation_error d, db)
  else
    match select_by_id (bind_number bookId) db with
    | None => (not_found bookId, db)
    | Some existingBook =>
        let isb := default "" (d_isbn d) in
        let conflict :=
          if negb (String.eqb isb (isbn existingBook))
          then select_isbn_other isb (bind_number bookId) db
          else None in
        match conflict with
        | Some duplicateISBN => (duplicate_isbn (id duplicateISBN), db)
        | None =>
            let availableDifference := copies_available existingBook in
            let newCopiesTotal :=
              match d_copies_total d with
              | Some 0 | None => copies_total existingBook
              | Some n => n
              end in
            match update_book now (default "" (d_title d)) (default "" (d_author d))
                    isb (d_published_year d) (d_category d)
                    newCopiesTotal availableDifference (bind_number bookId) db with
            | None =>
                (database_error "An error occurred while updating the book", db)
            | Some db' =>
                match select_by_id (bind_number bookId) db' with
                | Some updatedBook => (json 200 (BookBody updatedBook), db')
                | None =>
                    (database_error "An error occurred while updating the book", db')
                end
            end
        end
    end.

(** DELETE /books/:id *)
Definition delete_book (id_segment : string) (db : DB) : Response * DB :=
  let bookId := parseInt id_segment in
  match select_by_id (bind_number bookId) db with
  | None => (not_found bookId, db)
  | Some _ => (json 204 EmptyBody, delete_by_id (bind_number bookId) db)
  end.

(** The query passes the validation of STEP 1. *)
Definition valid (q : Query) : bool :=
  member (default "title" (q_sort_by q)) validSortFields
  && member (toLowerCase (default "asc" (q_order q))) ["asc"; "desc"].

(** The rows selected and ordered by the data query, before LIMIT/OFFSET. *)
Definition sorted (q : Query) (db : DB) : list Book :=
  order_by (default "title" (q_sort_by q)) (toUpperCase (default "asc" (q_order q)))
    (where_ (where_conditions q) (rows db)).

(** The table constraints PRIMARY KEY(id) and UNIQUE(isbn). *)
Definition constraints (db : DB) : Prop :=
  NoDup (map id (rows db)) /\ NoDup (map isbn (rows db)).

(** The row written by the UPDATE statement of PUT /books/:id. *)
Definition updated_row (now : string) (d : Draft) (e : Book) : Book :=
  mkBook (id e) (default "" (d_title d)) (default "" (d_author d))
    (default "" (d_isbn d)) (d_published_year d) (d_category d)
    (copies_available e)
    (match d_copies_total d with
     | Some 0 | None => copies_total e
     | Some n => n
     end)
    (created_at e) now.

(** The routes registered on [app]. *)
Definition serve (now : string) (m : Method) (p : Path) (q : Query) (d : Draft)
  (db : DB) : Response * DB :=
  match m, p with
  | GET, Books => get_books q db
  | POST, Books => post_books now d db
  | GET, BooksId s => get_book s db
  | PUT, BooksId s => put_book now s d db
  | DELETE, BooksId s => delete_book s db
  | _, _ => (json 404 HtmlPage, db)
  end.

(** [initializeDatabase] on the table as it stands: the table is kept when
    [SELECT COUNT( * )] finds rows in it, and the five seed rows are inserted
    in turn when it finds none.  [None]: an INSERT failed, and the server
    does not start. *)
Definition initializeDatabase (now : string) (db : DB) : option DB :=
  if Z.of_nat (List.length (rows db)) =? 0 then
    fold_left
      (fun acc b =>
         match acc with
         | None => None
         | Some db1 =>
             match insert_book now (title b) (author b) (isbn b) (published_year b)
                     (category b) (copies_available b) (copies_total b) db1 with
             | Some (_, db2) => Some db2
             | None => None
             end
         end)
      seed (Some db)
  else Some db.

End Sqlite.

(* ========================================================================= *)
(** ** Vocabulary of the specification *)
(* ========================================================================= *)

Definition data_of (r : Response) : list Book :=
  match body r with
  | ListBody d _ => d
  | _ => []
  end.

Definition pagination_of (r : Response) : option Pagination :=
  match body r with
  | ListBody _ p => Some p
  | _ => None
  end.

Definition is_invalid_parameter (r : Response) : bool :=
  match body r with
  | ErrorBody INVALID_PARAMETER _ _ => true
  | _ => false
  end.

Definition has_page (r : Response) : bool :=
  match body r with
  | ListBody _ _ => true
  | _ => false
  end.

Definition set_page (q : Query) (s : string) : Query :=
  mkQuery (q_category q) (q_author q) (q_available q) (q_sort_by q) (q_order q)
    (Some s) (q_limit q).


Definition without_available (q : Query) : Query :=
  mkQuery (q_category q) (q_author q) None (q_sort_by q) (q_order q)
    (q_page q) (q_limit q).

(** Sample requests. *)
Definition no_query : Query := mkQuery None None None None None None None.

Definition no_draft : Draft := mkDraft None None None None None None.

Definition with_category (c : string) : Query :=
  mkQuery (Some c) None None None None None None.

Definition dune : Draft :=
  mkDraft (Some "Dune") (Some "Frank Herbert") (Some "978-0441013593")
    (Some 1965) (Some "fiction") None.

Definition hobbit_revised : Draft :=
  mkDraft (Some "The Hobbit (revised)") (Some "J.R.R. Tolkien")
    (Some "978-0547928227") (Some 1951) (Some "fiction") (Some 7).

(** The records selected by [available = v] in the words of the
    specification: "true" selects copies_available > 0, any other value
    selects copies_available = 0. *)
Definition available_selects (v : string) (b : Book) : bool :=
  if String.eqb v "true" then 0 <? copies_available b else copies_available b =? 0.

(** A request with the clock readings its handler takes. *)
Record Request : Type := mkRequest {
  r_clock : string;
  r_method : Method;
  r_path : Path;
  r_query : Query;
  r_body : Draft
}.

(** Serving a sequence of requests, one after the other. *)
Fixpoint sqlite_run (reqs : list Request) (db : Sqlite.DB)
  : list Response * Sqlite.DB :=
  match reqs with
  | [] => ([], db)
  | r :: rest =>
      let '(resp, db1) :=
        Sqlite.serve (r_clock r) (r_method r) (r_path r) (r_query r) (r_body r) db in
      let '(resps, db2) := sqlite_run rest db1 in
      (resp :: resps, db2)
  end.

(** The ids handed out by the successful creations among the responses. *)
Definition created_ids (resps : list Response) : list Z :=
  flat_map (fun r =>
              if status r =? 201
              then match location r with Some i => [i] | None => [] end
              else []) resps.

(** Serving a sequence of requests on the array store; each request comes
    with the second reading of the clock that POST takes. *)
Fixpoint memory_run (reqs : list (Request * string)) (h : Memory.Heap)
  : list Response * Memory.Heap :=
  match reqs with
  | [] => ([], h)
  | (r, t2) :: rest =>
      let '(resp, h1) :=
        Memory.serve (r_clock r) t2 (r_method r) (r_path r) (r_query r) (r_body r) h in
      let '(resps, h2) := memory_run rest h1 in
      (resp :: resps, h2)
  end.

(** The text of an integer in a template literal, as in
    [`/books/${newBook.id}`]: its decimal digits, with a minus sign when
    negative. *)
Definition id_to_string (z : Z) : string :=
  NilZero.string_of_int (Z.to_int z).

(** The record built by STEP 3 of POST /books in the array store. *)
Definition memory_new_book (t1 t2 : string) (d : Draft) (l : list Book) : Book :=
  mkBook (Z.of_nat (List.length l) + 1) (default "" (d_title d))
    (default "" (d_author d)) (default "" (d_isbn d))
    (Memory.year_or_null (d_published_year d))
    (Memory.string_or_null (d_category d))
    (default 1 (d_copies_total d)) (default 1 (d_copies_total d)) t1 t2.

(** The row inserted by STEP 3 of POST /books in the SQLite variant. *)
Definition sqlite_new_book (now : string) (d : Draft) (db : Sqlite.DB) : Book :=
  mkBook (Z.max (Sqlite.seq db) (Sqlite.max_id (Sqlite.rows db)) + 1)
    (default "" (d_title d)) (default "" (d_author d)) (default "" (d_isbn d))
    (d_published_year d) (d_category d)
    (default 1 (d_copies_total d)) (default 1 (d_copies_total d)) now now.

(** All characters are ASCII. *)
Definition ascii_only (s : string) : bool :=
  forallb (fun c => Nat.ltb (nat_of_ascii c) 128) (list_ascii_of_string s).

(** No character is one of the LIKE wildcards [%] and [_]. *)
Definition wildcard_free (s : string) : bool :=
  forallb (fun c => negb (Ascii.eqb c "%" || Ascii.eqb c "_"))
          (list_ascii_of_string s).

(** The rows that seeding writes into an empty table whose AUTOINCREMENT
    counter stands at [s]: the five sample books in order, with the ids
    [s + 1 .. s + 5] and both timestamps [now]. *)
Definition seeded_rows (now : string) (s : Z) : list Book :=
  map (fun '(k, b) =>
         mkBook (s + k) (title b) (author b) (isbn b) (published_year b)
           (category b) (copies_available b) (copies_total b) now now)
      (combine [1; 2; 3; 4; 5] seed).

(** The page numbers [1..n]. *)
Definition page_numbers (n : Z) : list Z :=
  map Z.of_nat (seq 1 (Z.to_nat n)).

(** The page in the words of the specification: the slice
    [[start, stop)] of the sorted set with [start = (page - 1) * limit] and
    [stop = start + limit], both clamped to the bounds of the set. *)
Definition clamp (len x : Z) : Z := Z.max 0 (Z.min x len).

Definition spec_page (l : list Book) (page limit : Z) : list Book :=
  let len := Z.of_nat (List.length l) in
  let start := (page - 1) * limit in
  let stop := start + limit in
  firstn (Z.to_nat (clamp len stop - clamp len start))
         (skipn (Z.to_nat (clamp len start)) l).

(** [n = ceil(a / b)] for [b > 0]: the least [n] with [a <= n * b]. *)
Definition is_ceil (n a b : Z) : Prop := (n - 1) * b < a <= n * b.

(* ========================================================================= *)
(** ** Running the in-memory list handler *)
(* ========================================================================= *)

Section MemoryRun.

Import Memory.

Lemma holds_read h r l :
  holds h r l -> read r h = (Ok l, h).
Proof.
  intros (n & -> & Hn). unfold read.
  now rewrite (nth_error_nth _ _ [] Hn).
Qed.

Lemma holds_alloc_new h l :
  holds (mkHeap (global h) (locals h ++ [l])) (Local (List.length (locals h))) l.
Proof.
  exists (List.length (locals h)). split; [reflexivity|]. simpl.
  rewrite nth_error_app2 by lia. now rewrite Nat.sub_diag.
Qed.

Lemma holds_alloc_old h r l l' :
  holds h r l -> holds (mkHeap (global h) (locals h ++ [l'])) r l.
Proof.
  intros (n & -> & Hn). exists n. split; [reflexivity|]. simpl.
  rewrite nth_error_app1; [assumption|].
  apply nth_error_Some. congruence.
Qed.

Lemma set_cell_hit n l cells old :
  nth_error cells n = Some old -> nth_error (set_cell n l cells) n = Some l.
Proof.
  revert cells. induction n as [|n IH]; intros [|c t] H; simpl in *;
    try discriminate; auto.
Qed.

Lemma spread_global h :
  exists r h', spread Global h = (Ok r, h') /\
               global h' = global h /\ holds h' r (global h).
Proof.
  eexists _, _. split; [reflexivity|]. split; [reflexivity|].
  apply holds_alloc_new.
Qed.

Lemma arr_filter_run h r l p :
  holds h r l ->
  exists res h',
    arr_filter r p h = (res, h') /\ global h' = global h /\
    match filter_throw p l with
    | Ok l' => exists r', res = Ok r' /\ holds h' r' l'
    | TypeError => res = TypeError
    end.
Proof.
  intros H. unfold arr_filter, bind. rewrite (holds_read _ _ _ H).
  destruct (filter_throw p l) as [l'|].
  - eexists _, _. split; [reflexivity|]. split; [reflexivity|].
    eexists. split; [reflexivity|]. apply holds_alloc_new.
  - eexists _, _. split; [reflexivity|]. split; reflexivity.
Qed.

Lemma arr_sort_run h r l cmp :
  holds h r l ->
  exists h', arr_sort r cmp h = (Ok tt, h') /\ global h' = global h /\
             holds h' r (sort cmp l).
Proof.
  intros H. unfold arr_sort, bind. rewrite (holds_read _ _ _ H).
  destruct H as (n & -> & Hn).
  eexists. split; [reflexivity|]. split; [reflexivity|].
  exists n. split; [reflexivity|]. simpl. eapply set_cell_hit; eassumption.
Qed.

Lemma arr_slice_run h r l a b :
  holds h r l ->
  exists r' h', arr_slice r a b h = (Ok r', h') /\ global h' = global h /\
                holds h' r l /\ holds h' r' (slice l a b).
Proof.
  intros H. unfold arr_slice, bind. rewrite (holds_read _ _ _ H).
  eexists _, _. split; [reflexivity|]. split; [reflexivity|]. split.
  - now apply holds_alloc_old.
  - apply holds_alloc_new.
Qed.

Lemma arr_length_run h r l :
  holds h r l -> arr_length r h = (Ok (Z.of_nat (List.length l)), h).
Proof.
  intros H. unfold arr_length, bind. now rewrite (holds_read _ _ _ H).
Qed.

Lemma valid_split q :
  valid q = true ->
  member (default "title" (q_sort_by q)) validSortFields = true /\
  member (default "asc" (q_order q)) ["asc"; "desc"] = true.
Proof. unfold valid. now rewrite andb_true_iff. Qed.

Lemma JS_sort_length {A} (cmp : A -> A -> Z) l :
  List.length (sort cmp l) = List.length l.
Proof.
  induction l as [|x l IH]; simpl; [reflexivity|].
  rewrite <- IH. generalize (sort cmp l). intros s.
  induction s as [|y s IHs]; simpl; [reflexivity|].
  destruct (0 <? cmp x y); simpl; congruence.
Qed.

(** GET /books with a valid query: the response is a function of the store,
    and the store is left as it was. *)
Lemma get_books_run q h :
  valid q = true ->
  exists h',
    global h' = global h /\
    get_books q h =
      (match filtered q (global h) with
       | Ok f => Ok (list_response q f)
       | TypeError => TypeError
       end, h').
Proof.
  intros Hv. destruct (valid_split q Hv) as [Hs Ho].
  unfold get_books. rewrite Hs, Ho. cbn [negb].
  unfold bind at 1.
  destruct (spread_global h) as (r0 & h0 & E0 & G0 & H0).
  unfold books. rewrite E0.
  unfold filtered, filtered_by_text.
  (* category *)
  unfold bind at 1.
  assert (S1 : exists res h1,
             (if truthy (q_category q)
              then arr_filter r0 (category_matches (default "" (q_category q)))
              else ret r0) h0 = (res, h1) /\ global h1 = global h /\
             match (if truthy (q_category q)
                    then filter_throw (category_matches (default "" (q_category q)))
                           (global h)
                    else Ok (global h)) with
             | Ok l' => exists r', res = Ok r' /\ holds h1 r' l'
             | TypeError => res = TypeError
             end).
  { destruct (truthy (q_category q)).
    - destruct (arr_filter_run h0 r0 _ (category_matches (default "" (q_category q))) H0)
        as (res & h1 & E & G & R).
      exists res, h1. repeat split; [assumption | congruence | assumption].
    - exists (Ok r0), h0. repeat split; [assumption|]. now exists r0. }
  destruct S1 as (res1 & h1 & E1 & G1 & R1). rewrite E1.
  destruct (if truthy (q_category q) then filter_throw _ _ else _) as [l1|];
    [destruct R1 as (r1 & -> & H1) | subst res1; now exists h1].
  (* author *)
  unfold bind at 1.
  assert (S2 : exists res h2,
             (if truthy (q_author q)
              then arr_filter r1 (author_matches (default "" (q_author q)))
              else ret r1) h1 = (res, h2) /\ global h2 = global h /\
             match (if truthy (q_author q)
                    then filter_throw (author_matches (default "" (q_author q))) l1
                    else Ok l1) with
             | Ok l' => exists r', res = Ok r' /\ holds h2 r' l'
             | TypeError => res = TypeError
             end).
  { destruct (truthy (q_author q)).
    - destruct (arr_filter_run h1 r1 _ (author_matches (default "" (q_author q))) H1)
        as (res & h2 & E & G & R).
      exists res, h2. repeat split; [assumption | congruence | assumption].
    - exists (Ok r1), h1. repeat split; [assumption|]. now exists r1. }
  destruct S2 as (res2 & h2 & E2 & G2 & R2). rewrite E2.
  destruct (if truthy (q_author q) then filter_throw _ _ else _) as [l2|];
    [destruct R2 as (r2 & -> & H2) | subst res2; now exists h2].
  (* availability *)
  unfold bind at 1.
  assert (S3 : exists res h3,
             (match q_available q with
              | Some available =>
                  arr_filter r2
                    (fun book => Ok (availability (String.eqb available "true") book))
              | None => ret r2
              end) h2 = (res, h3) /\ global h3 = global h /\
             match (match q_available q with
                    | Some available =>
                        filter_throw
                          (fun book =>
                             Ok (availability (String.eqb available "true") book)) l2
                    | None => Ok l2
                    end) with
             | Ok l' => exists r', res = Ok r' /\ holds h3 r' l'
             | TypeError => res = TypeError
             end).
  { destruct (q_available q) as [a|].
    - destruct (arr_filter_run h2 r2 _
                  (fun book => Ok (availability (String.eqb a "true") book)) H2)
        as (res & h3 & E & G & R).
      exists res, h3. repeat split; [assumption | congruence | assumption].
    - exists (Ok r2), h2. repeat split; [assumption|]. now exists r2. }
  destruct S3 as (res3 & h3 & E3 & G3 & R3). rewrite E3.
  destruct (match q_available q with Some _ => filter_throw _ _ | None => _ end)
    as [f|];
    [destruct R3 as (r3 & -> & H3) | subst res3; now exists h3].
  (* sort, slice, respond *)
  unfold bind at 1.
  destruct (arr_sort_run h3 r3 f
              (compare_books (default "title" (q_sort_by q))
                 (default "asc" (q_order q))) H3) as (h4 & E4 & G4 & H4).
  rewrite E4.
  unfold bind at 1.
  match goal with
  | |- context [arr_slice r3 ?a ?b h4] =>
      destruct (arr_slice_run h4 r3 _ a b H4) as (r5 & h5 & E5 & G5 & H5 & H5')
  end.
  rewrite E5.
  unfold bind at 1. rewrite (arr_length_run _ _ _ H5).
  unfold bind at 1. rewrite (holds_read _ _ _ H5').
  exists h5. split; [congruence|].
  unfold ret, list_response, sorted. now rewrite JS_sort_length.
Qed.

End MemoryRun.

(* ========================================================================= *)
(** ** Pages of a list *)
(* ========================================================================= *)

Section Pages.

Context {A : Type}.

Lemma firstn_then_firstn (a b : nat) (l : list A) :
  firstn a l ++ firstn b (skipn a l) = firstn (a + b) l.
Proof.
  revert l. induction a as [|a IH]; intros [|x l]; simpl; try reflexivity.
  - now rewrite firstn_nil.
  - now rewrite IH.
Qed.

(** Consecutive windows of width [n] concatenate to a prefix. *)
Lemma concat_windows (n m : nat) (l : list A) :
  List.concat (map (fun k => firstn n (skipn (k * n) l)) (seq 0 m)) = firstn (m * n) l.
Proof.
  induction m as [|m IH].
  - reflexivity.
  - rewrite seq_S, map_app, List.concat_app, IH. simpl.
    rewrite app_nil_r, firstn_then_firstn. f_equal. lia.
Qed.

End Pages.

Lemma ceil_div_is_ceil (a L : Z) :
  0 < L -> exists n, ceil_div a (Num L) = Num n /\ is_ceil n a L.
Proof.
  intros HL. unfold ceil_div.
  destruct (Z.eqb_spec L 0) as [->|_]; [lia|].
  eexists. split; [reflexivity|]. unfold is_ceil.
  pose proof (Z.div_mod (- a) L ltac:(lia)) as E.
  pose proof (Z.mod_pos_bound (- a) L HL) as B. nia.
Qed.

Lemma is_ceil_unique (n m a L : Z) :
  0 < L -> is_ceil n a L -> is_ceil m a L -> n = m.
Proof. unfold is_ceil. intros. nia. Qed.

(** From page 1 on, the clamped slice of the specification is a plain
    window of the list. *)
Lemma spec_page_window (l : list Book) (p L : Z) :
  1 <= p -> 0 < L ->
  spec_page l p L = firstn (Z.to_nat L) (skipn (Z.to_nat ((p - 1) * L)) l).
Proof.
  intros Hp HL. unfold spec_page, clamp.
  set (len := Z.of_nat (List.length l)).
  set (s := (p - 1) * L).
  assert (Hs : 0 <= s) by (unfold s; nia).
  destruct (Z_lt_le_dec s len) as [Hlt|Hge].
  - replace (Z.max 0 (Z.min s len)) with s by lia.
    destruct (Z_le_gt_dec (s + L) len) as [Hin|Hout].
    + replace (Z.max 0 (Z.min (s + L) len) - s) with L by lia. reflexivity.
    + replace (Z.max 0 (Z.min (s + L) len) - s) with (len - s) by lia.
      rewrite !firstn_all2; [reflexivity | | ]; rewrite length_skipn;
        unfold len in *; lia.
  - replace (Z.max 0 (Z.min s len)) with len by lia.
    rewrite !skipn_all2 by (unfold len in *; lia).
    now rewrite !firstn_nil.
Qed.

(** A page after the last one is empty. *)
Lemma spec_page_beyond (l : list Book) (p L n : Z) :
  0 < L -> is_ceil n (Z.of_nat (List.length l)) L -> n < p ->
  spec_page l p L = [].
Proof.
  intros HL [Hlo Hhi] Hp.
  assert (Hn : 0 <= n) by nia.
  rewrite spec_page_window by lia.
  rewrite skipn_all2 by nia. apply firstn_nil.
Qed.

(** What [slice] returns for the indices of STEP 6. *)
Lemma slice_is_spec_page (l : list Book) (p L : Z) :
  1 <= p -> 0 < L ->
  slice l (nmul (nsub (Num p) (Num 1)) (Num L))
          (nadd (nmul (nsub (Num p) (Num 1)) (Num L)) (Num L))
  = spec_page l p L.
Proof.
  intros Hp HL. unfold slice, spec_page, clamp. cbn [nmul nsub nadd nneg rel_index].
  rewrite !Z.add_opp_r.
  assert (Hs : 0 <= (p - 1) * L) by nia.
  destruct (Z.ltb_spec ((p - 1) * L) 0); [lia|].
  destruct (Z.ltb_spec ((p - 1) * L + L) 0); [lia|].
  set (len := Z.of_nat (List.length l)).
  assert (0 <= len) by (unfold len; lia).
  replace (Z.max 0 (Z.min ((p - 1) * L + L) len)) with (Z.min ((p - 1) * L + L) len)
    by lia.
  replace (Z.max 0 (Z.min ((p - 1) * L) len)) with (Z.min ((p - 1) * L) len) by lia.
  reflexivity.
Qed.

(** The windows for pages [1..n] cover the list once [n * L] reaches its end. *)
Lemma pages_partition (l : list Book) (L n : Z) :
  0 < L -> is_ceil n (Z.of_nat (List.length l)) L ->
  List.concat (map (fun k => spec_page l k L) (page_numbers n)) = l.
Proof.
  intros HL [Hlo Hhi]. unfold page_numbers.
  assert (Hn : 0 <= n) by nia.
  rewrite map_map.
  transitivity (firstn (Z.to_nat n * Z.to_nat L) l); [|apply firstn_all2; nia].
  rewrite <- concat_windows. f_equal.
  rewrite <- seq_shift, map_map.
  apply map_ext_in. intros k _.
  rewrite spec_page_window by lia.
  do 2 f_equal. nia.
Qed.

(* ========================================================================= *)
(** ** Pagination (C1) *)
(* ========================================================================= *)

Lemma filtered_set_page q s l :
  Memory.filtered (set_page q s) l = Memory.filtered q l.
Proof. reflexivity. Qed.

Lemma memory_page (q : Query) (h : Memory.Heap) (f : list Book) (p L : Z) :
  Memory.valid q = true ->
  Memory.filtered q (Memory.store h) = Memory.Ok f ->
  parse_or 1 (q_page q) = Num p ->
  parse_or 20 (q_limit q) = Num L ->
  1 <= p -> 0 < L ->
  exists n,
    is_ceil n (Z.of_nat (List.length f)) L /\
    fst (Memory.respond (Memory.get_books q) h) =
      json 200 (ListBody (spec_page (Memory.sorted q f) p L)
                  (mkPagination (Some p) (Some n) (Z.of_nat (List.length f)) (Some L)))
    /\ (n < p -> spec_page (Memory.sorted q f) p L = []).
Proof.
  intros Hv Hf Hp HL Hp1 HL0.
  destruct (get_books_run q h Hv) as (h' & _ & E).
  unfold Memory.store in Hf. rewrite Hf in E.
  unfold Memory.respond. rewrite E. cbn [fst].
  unfold Memory.list_response. rewrite Hp, HL.
  rewrite slice_is_spec_page by assumption.
  destruct (ceil_div_is_ceil (Z.of_nat (List.length f)) L HL0) as (n & En & Hn).
  exists n. rewrite En. split; [assumption|]. split; [reflexivity|].
  apply spec_page_beyond; [assumption|].
  unfold Memory.sorted. now rewrite JS_sort_length.
Qed.

(** A data query that succeeds had 64-bit integers for LIMIT and OFFSET,
    and returns a window of the ordered selection. *)
Lemma data_query_window conds name dir lim off db data :
  Sqlite.data_query conds name dir lim off db = Some data ->
  exists n k,
    lim = Sqlite.SInt n /\ off = Sqlite.SInt k /\
    Sqlite.fits_int64 n = true /\ Sqlite.fits_int64 k = true /\
    let rest := skipn (Z.to_nat k)
                  (Sqlite.order_by name dir (Sqlite.where_ conds (Sqlite.rows db))) in
    data = if n <? 0 then rest else firstn (Z.to_nat n) rest.
Proof.
  unfold Sqlite.data_query, Sqlite.limit_offset. intros E.
  destruct lim as [|n|]; try discriminate.
  destruct off as [|k|]; try discriminate.
  destruct (Sqlite.fits_int64 n) eqn:Fn; [|discriminate].
  destruct (Sqlite.fits_int64 k) eqn:Fk; [|discriminate].
  cbn [andb] in E. injection E as <-. exists n, k.
  split; [reflexivity|]. split; [reflexivity|]. split; [exact Fn|].
  split; [exact Fk | reflexivity].
Qed.

(** Within the safe integers, LIMIT and OFFSET are 64-bit integers. *)
Lemma safe_page_fits (p L : Z) :
  1 <= p -> 0 < L -> p * L <= MAX_SAFE_INTEGER ->
  Sqlite.fits_int64 L = true /\ Sqlite.fits_int64 ((p - 1) * L) = true.
Proof.
  unfold MAX_SAFE_INTEGER, Sqlite.fits_int64. intros Hp HL Hb.
  assert (L <= p * L) by nia.
  assert (0 <= (p - 1) * L <= p * L) by nia.
  split; apply andb_true_iff; split; apply Z.ltb_lt; lia.
Qed.

Lemma sqlite_page (q : Query) (db : Sqlite.DB) (p L : Z) :
  Sqlite.valid q = true ->
  parse_or 1 (q_page q) = Num p ->
  parse_or 20 (q_limit q) = Num L ->
  1 <= p -> 0 < L -> p * L <= MAX_SAFE_INTEGER ->
  let total :=
    Z.of_nat (List.length (Sqlite.where_ (Sqlite.where_conditions q) (Sqlite.rows db))) in
  exists n,
    is_ceil n total L /\
    Sqlite.get_books q db =
      (json 200 (ListBody (spec_page (Sqlite.sorted q db) p L)
                   (mkPagination (Some p) (Some n) total (Some L))), db)
    /\ (n < p -> spec_page (Sqlite.sorted q db) p L = []).
Proof.
  intros Hv Hp HL Hp1 HL0 Hsafe total.
  unfold Sqlite.valid in Hv. apply andb_true_iff in Hv as [Hs Ho].
  unfold Sqlite.get_books. rewrite Hs, Ho. cbn [negb].
  rewrite Hp, HL. unfold Sqlite.count_query. fold total.
  destruct (ceil_div_is_ceil total L HL0) as (n & En & Hn).
  exists n. split; [assumption|]. rewrite En. split.
  - unfold Sqlite.data_query, Sqlite.limit_offset.
    cbn [nmul nsub nadd nneg Sqlite.bind_number].
    rewrite Z.add_opp_r.
    destruct (safe_page_fits p L Hp1 HL0 Hsafe) as [-> ->]. cbn [andb].
    destruct (Z.ltb_spec L 0); [lia|].
    rewrite <- spec_page_window by assumption.
    reflexivity.
  - apply spec_page_beyond; [assumption|].
    unfold Sqlite.sorted, Sqlite.order_by. now rewrite JS_sort_length.
Qed.

(** The pages requested by [pages], numbered [ks], are the windows of the
    sorted set. *)
Lemma data_of_pages (resp : string -> Response) (S : list Book) (L n : Z)
  (pages : list string) (ks : list Z) :
  (forall s k, parseInt s = Num k -> 1 <= k <= n ->
               data_of (resp s) = spec_page S k L) ->
  Forall (fun k => 1 <= k <= n) ks ->
  map parseInt pages = map Num ks ->
  map (fun s => data_of (resp s)) pages = map (fun k => spec_page S k L) ks.
Proof.
  intros Hr. revert ks. induction pages as [|s pages IH]; intros [|k ks] Hk E;
    simpl in *; try discriminate; [reflexivity|].
  inversion Hk; subst. injection E as E1 E2.
  f_equal; [now apply Hr | now apply IH].
Qed.

Lemma page_numbers_range n : Forall (fun k => 1 <= k <= n) (page_numbers n).
Proof.
  unfold page_numbers. apply Forall_forall. intros k Hk.
  apply in_map_iff in Hk as (j & <- & Hj). apply in_seq in Hj. lia.
Qed.

Lemma memory_partition (q : Query) (h : Memory.Heap) (f : list Book) (L n : Z)
  (pages : list string) :
  Memory.valid q = true ->
  Memory.filtered q (Memory.store h) = Memory.Ok f ->
  parse_or 20 (q_limit q) = Num L -> 0 < L ->
  is_ceil n (Z.of_nat (List.length f)) L ->
  map parseInt pages = map Num (page_numbers n) ->
  List.concat
    (map (fun s => data_of (fst (Memory.respond (Memory.get_books (set_page q s)) h)))
         pages)
  = Memory.sorted q f.
Proof.
  intros Hv Hf HL HL0 Hn Hpages.
  rewrite (data_of_pages _ (Memory.sorted q f) L n pages (page_numbers n)).
  - apply pages_partition; [assumption|].
    unfold Memory.sorted. now rewrite JS_sort_length.
  - intros s k Hs [Hk _].
    destruct (memory_page (set_page q s) h f k L) as (m & _ & E & _); try assumption.
    now rewrite E.
  - apply page_numbers_range.
  - assumption.
Qed.

Lemma sqlite_partition (q : Query) (db : Sqlite.DB) (L n : Z) (pages : list string) :
  Sqlite.valid q = true ->
  parse_or 20 (q_limit q) = Num L -> 0 < L ->
  is_ceil n
    (Z.of_nat (List.length (Sqlite.where_ (Sqlite.where_conditions q) (Sqlite.rows db))))
    L ->
  n * L <= MAX_SAFE_INTEGER ->
  map parseInt pages = map Num (page_numbers n) ->
  List.concat
    (map (fun s => data_of (fst (Sqlite.get_books (set_page q s) db))) pages)
  = Sqlite.sorted q db.
Proof.
  intros Hv HL HL0 Hn Hsafe Hpages.
  rewrite (data_of_pages _ (Sqlite.sorted q db) L n pages (page_numbers n)).
  - apply pages_partition; [assumption|].
    unfold Sqlite.sorted, Sqlite.order_by. now rewrite JS_sort_length.
  - intros s k Hs [Hk Hkn].
    destruct (sqlite_page (set_page q s) db k L) as (m & _ & E & _); try assumption.
    + nia.
    + now rewrite E.
  - apply page_numbers_range.
  - assumption.
Qed.

(** C1, as stated.  At page -1 and at page 0: in the array store the slice
    indices of page -1 are negative and [slice] counts them from the end of
    the array: with five records and limit 2 the page holds the second and
    third record of the sorted set, where the clamped slice is empty; in the
    SQLite store page 0 gives a negative OFFSET, which SQLite reads as 0: the
    page holds the first two records.  And at limit 2^63, page 1: LIMIT is no
    64-bit integer, the data query fails, and the SQLite store answers 500
    where the clamped slice is the whole set. *)
Lemma C1_counterexample_page_below_one :
  let q1 := mkQuery None None None None None (Some "-1") (Some "2") in
  let q0 := mkQuery None None None None None (Some "0") (Some "2") in
  let qL := mkQuery None None None None None None (Some "9223372036854775808") in
  (parse_or 1 (q_page q1) = Num (-1) /\ parse_or 20 (q_limit q1) = Num 2 /\
   Memory.filtered q1 (Memory.store Memory.initial) = Memory.Ok seed /\
   map id (data_of (fst (Memory.respond (Memory.get_books q1) Memory.initial))) = [2; 4] /\
   spec_page (Memory.sorted q1 seed) (-1) 2 = [])
  /\
  (parse_or 1 (q_page q0) = Num 0 /\ parse_or 20 (q_limit q0) = Num 2 /\
   map id (data_of (fst (Sqlite.get_books q0 (Sqlite.initial "t0")))) = [3; 2] /\
   spec_page (Sqlite.sorted q0 (Sqlite.initial "t0")) 0 2 = [])
  /\
  (parse_or 1 (q_page qL) = Num 1 /\
   parse_or 20 (q_limit qL) = Num 9223372036854775808 /\
   fst (Sqlite.get_books qL (Sqlite.initial "t0"))
   = Sqlite.database_error "An error occurred while fetching books" /\
   List.length (spec_page (Sqlite.sorted qL (Sqlite.initial "t0")) 1 9223372036854775808)
   = 5%nat).
Proof. vm_compute. repeat split; reflexivity. Qed.

(** C1 (amended: for page >= 1 and page * limit within the safe integers).
    For a valid query with limit L > 0 whose filters have left a filtered
    set, in both variants: total_items is the size of the filtered set,
    total_pages is ceil(total_items / L), the page for page number p >= 1
    with p * L <= 2^53 - 1 is the slice [(p-1)*L, (p-1)*L + L) of the sorted
    filtered set clamped to its bounds (so a page beyond the last one is
    empty, with status 200), and the pages numbered 1..total_pages,
    concatenated in order, are exactly the sorted filtered set (for
    total_pages * L <= 2^53 - 1). *)
Theorem C1_pagination_from_page_one :
  forall (q : Query) (L : Z),
    parse_or 20 (q_limit q) = Num L -> 0 < L ->
    (forall (h : Memory.Heap) (f : list Book),
        Memory.valid q = true ->
        Memory.filtered q (Memory.store h) = Memory.Ok f ->
        (forall p, parse_or 1 (q_page q) = Num p -> 1 <= p ->
           p * L <= MAX_SAFE_INTEGER ->
           exists n,
             is_ceil n (Z.of_nat (List.length f)) L /\
             fst (Memory.respond (Memory.get_books q) h) =
               json 200
                 (ListBody (spec_page (Memory.sorted q f) p L)
                    (mkPagination (Some p) (Some n) (Z.of_nat (List.length f))
                       (Some L)))
             /\ (n < p -> spec_page (Memory.sorted q f) p L = []))
        /\
        (forall n pages,
           is_ceil n (Z.of_nat (List.length f)) L ->
           n * L <= MAX_SAFE_INTEGER ->
           map parseInt pages = map Num (page_numbers n) ->
           List.concat
             (map (fun s =>
                     data_of (fst (Memory.respond (Memory.get_books (set_page q s)) h)))
                  pages)
           = Memory.sorted q f))
    /\
    (forall (db : Sqlite.DB),
        Sqlite.valid q = true ->
        let total :=
          Z.of_nat (List.length
                      (Sqlite.where_ (Sqlite.where_conditions q) (Sqlite.rows db))) in
        (forall p, parse_or 1 (q_page q) = Num p -> 1 <= p ->
           p * L <= MAX_SAFE_INTEGER ->
           exists n,
             is_ceil n total L /\
             Sqlite.get_books q db =
               (json 200
                  (ListBody (spec_page (Sqlite.sorted q db) p L)
                     (mkPagination (Some p) (Some n) total (Some L))), db)
             /\ (n < p -> spec_page (Sqlite.sorted q db) p L = []))
        /\
        (forall n pages,
           is_ceil n total L ->
           n * L <= MAX_SAFE_INTEGER ->
           map parseInt pages = map Num (page_numbers n) ->
           List.concat
             (map (fun s => data_of (fst (Sqlite.get_books (set_page q s) db))) pages)
           = Sqlite.sorted q db)).
Proof.
  intros q L HL HL0. split.
  - intros h f Hv Hf. split.
    + intros p Hp Hp1 _. now apply memory_page.
    + intros n pages Hn _ Hpages. now apply memory_partition with (L := L) (n := n).
  - intros db Hv total. split.
    + intros p Hp Hp1 Hsafe. now apply sqlite_page.
    + intros n pages Hn Hsafe Hpages.
      now apply sqlite_partition with (L := L) (n := n).
Qed.

(** C1 on the seed data with limit 2: page 2, and pages 1 to 3 together. *)
Lemma C1_pagination_witness :
  let q := mkQuery None None None None None (Some "2") (Some "2") in
  (exists n,
      is_ceil n 5 2 /\
      fst (Memory.respond (Memory.get_books q) Memory.initial) =
        json 200 (ListBody (spec_page (Memory.sorted q seed) 2 2)
                    (mkPagination (Some 2) (Some n) 5 (Some 2)))
      /\ (n < 2 -> spec_page (Memory.sorted q seed) 2 2 = []))
  /\ List.concat
       (map (fun s =>
               data_of (fst (Memory.respond (Memory.get_books (set_page q s))
                               Memory.initial)))
            ["1"; "2"; "3"])
     = Memory.sorted q seed
  /\ List.concat
       (map (fun s => data_of (fst (Sqlite.get_books (set_page q s) (Sqlite.initial "t0"))))
            ["1"; "2"; "3"])
     = Sqlite.sorted q (Sqlite.initial "t0").
Proof.
  intros q.
  destruct (C1_pagination_from_page_one q 2 eq_refl eq_refl) as [Hm Hs].
  destruct (Hm Memory.initial seed eq_refl eq_refl) as [Hpage Hpart].
  destruct (Hs (Sqlite.initial "t0") eq_refl) as [_ Hspart].
  split; [exact (Hpage 2 eq_refl ltac:(lia) ltac:(unfold MAX_SAFE_INTEGER; lia))|].
  split.
  - apply (Hpart 3); [unfold is_ceil; simpl; lia | unfold MAX_SAFE_INTEGER; lia
                     | reflexivity].
  - apply (Hspart 3); [unfold is_ceil; simpl; lia | unfold MAX_SAFE_INTEGER; lia
                      | reflexivity].
Defined.

(* ========================================================================= *)
(** ** Validation of sort_by and order (C2) *)
(* ========================================================================= *)

Lemma member_In (s : string) (l : list string) : member s l = true <-> In s l.
Proof.
  unfold member. rewrite existsb_exists. split.
  - intros (x & Hx & E). apply String.eqb_eq in E. now subst.
  - intros H. exists s. split; [assumption | apply String.eqb_refl].
Qed.

Lemma member_not_In (s : string) (l : list string) : member s l = false <-> ~ In s l.
Proof.
  rewrite <- member_In. destruct (member s l); split; intros; congruence.
Qed.

(** A query that fails STEP 2 is answered before the store is read: the
    response does not depend on the heap, and nothing is allocated. *)
Lemma memory_invalid_run (q : Query) (h : Memory.Heap) :
  Memory.valid q = false ->
  Memory.get_books q h =
    (Memory.Ok (if member (default "title" (q_sort_by q)) validSortFields
                then invalid_order else invalid_sort_by), h).
Proof.
  unfold Memory.valid, Memory.get_books. intros Hv.
  destruct (member (default "title" (q_sort_by q)) validSortFields); cbn [negb].
  - cbn [andb] in Hv. rewrite Hv. reflexivity.
  - reflexivity.
Qed.

Lemma sqlite_invalid_run (q : Query) (db : Sqlite.DB) :
  Sqlite.valid q = false ->
  Sqlite.get_books q db =
    (if member (default "title" (q_sort_by q)) validSortFields
     then invalid_order else invalid_sort_by, db).
Proof.
  unfold Sqlite.valid, Sqlite.get_books. intros Hv.
  destruct (member (default "title" (q_sort_by q)) validSortFields); cbn [negb].
  - cbn [andb] in Hv. rewrite Hv. reflexivity.
  - reflexivity.
Qed.

Lemma memory_valid_not_rejected (q : Query) (h : Memory.Heap) :
  Memory.valid q = true ->
  is_invalid_parameter (fst (Memory.respond (Memory.get_books q) h)) = false.
Proof.
  intros Hv. destruct (get_books_run q h Hv) as (h' & _ & E).
  unfold Memory.respond. rewrite E.
  now destruct (Memory.filtered q (Memory.global h)).
Qed.

Lemma sqlite_valid_not_rejected (q : Query) (db : Sqlite.DB) :
  Sqlite.valid q = true ->
  is_invalid_parameter (fst (Sqlite.get_books q db)) = false.
Proof.
  intros Hv. unfold Sqlite.valid in Hv. apply andb_true_iff in Hv as [Hs Ho].
  unfold Sqlite.get_books. rewrite Hs, Ho. cbn [negb].
  now destruct (Sqlite.data_query _ _ _ _ _ _).
Qed.

Lemma invalid_choice_rejected (b : bool) :
  is_invalid_parameter (if b then invalid_order else invalid_sort_by) = true /\
  has_page (if b then invalid_order else invalid_sort_by) = false.
Proof. now destruct b. Qed.

(** C2, as stated, in the SQLite variant: order=DESC is not one of asc and
    desc, yet the request is served with a page, because that variant
    lower-cases [order] before checking it. *)
Lemma C2_counterexample_sqlite_order_case :
  let q := mkQuery None None None None (Some "DESC") None None in
  ~ In (default "asc" (q_order q)) ["asc"; "desc"] /\
  is_invalid_parameter (fst (Sqlite.get_books q (Sqlite.initial "t0"))) = false /\
  has_page (fst (Sqlite.get_books q (Sqlite.initial "t0"))) = true.
Proof.
  split; [|split; reflexivity].
  intros [H|[H|[]]]; discriminate.
Qed.

(** C2 (amended: the SQLite variant compares [order] without regard to
    case).  GET /books signals INVALID_PARAMETER exactly when sort_by is not
    one of title, published_year, author, or order is not one of asc, desc
    (in the SQLite variant: order lower-cased is not one of them).  When it
    does, the response is fixed by the query alone and carries no page, and
    the handler returns with the heap (resp. the database) untouched:
    nothing was copied, filtered or sorted. *)
Theorem C2_validation_first :
  forall q : Query,
    let sort_by := default "title" (q_sort_by q) in
    let order := default "asc" (q_order q) in
    let rejection := if member sort_by validSortFields
                     then invalid_order else invalid_sort_by in
    (forall h : Memory.Heap,
        (is_invalid_parameter (fst (Memory.respond (Memory.get_books q) h)) = true
         <-> ~ In sort_by validSortFields \/ ~ In order ["asc"; "desc"])
        /\ (~ In sort_by validSortFields \/ ~ In order ["asc"; "desc"] ->
            Memory.get_books q h = (Memory.Ok rejection, h) /\
            has_page rejection = false))
    /\
    (forall db : Sqlite.DB,
        (is_invalid_parameter (fst (Sqlite.get_books q db)) = true
         <-> ~ In sort_by validSortFields \/ ~ In (toLowerCase order) ["asc"; "desc"])
        /\ (~ In sort_by validSortFields \/ ~ In (toLowerCase order) ["asc"; "desc"] ->
            Sqlite.get_books q db = (rejection, db) /\
            has_page rejection = false)).
Proof.
  intros q sort_by order rejection.
  assert (Hm : Memory.valid q = false <->
               ~ In sort_by validSortFields \/ ~ In order ["asc"; "desc"]).
  { unfold Memory.valid. rewrite andb_false_iff, !member_not_In. reflexivity. }
  assert (Hs : Sqlite.valid q = false <->
               ~ In sort_by validSortFields \/ ~ In (toLowerCase order) ["asc"; "desc"]).
  { unfold Sqlite.valid. rewrite andb_false_iff, !member_not_In. reflexivity. }
  split.
  - intros h. split; [split|].
    + intros Hr. apply Hm. destruct (Memory.valid q) eqn:Hv; [|reflexivity].
      rewrite (memory_valid_not_rejected q h Hv) in Hr. discriminate.
    + intros Hbad. apply Hm in Hbad. unfold Memory.respond.
      rewrite (memory_invalid_run q h Hbad). apply invalid_choice_rejected.
    + intros Hbad. apply Hm in Hbad. split.
      * apply memory_invalid_run; assumption.
      * apply invalid_choice_rejected.
  - intros db. split; [split|].
    + intros Hr. apply Hs. destruct (Sqlite.valid q) eqn:Hv; [|reflexivity].
      rewrite (sqlite_valid_not_rejected q db Hv) in Hr. discriminate.
    + intros Hbad. apply Hs in Hbad.
      rewrite (sqlite_invalid_run q db Hbad). apply invalid_choice_rejected.
    + intros Hbad. apply Hs in Hbad. split.
      * apply sqlite_invalid_run; assumption.
      * apply invalid_choice_rejected.
Qed.

(** C2 on the seed data with sort_by=price. *)
Lemma C2_validation_first_witness :
  let q := mkQuery None None None (Some "price") (Some "asc") None None in
  Memory.get_books q Memory.initial = (Memory.Ok invalid_sort_by, Memory.initial) /\
  Sqlite.get_books q (Sqlite.initial "t0") = (invalid_sort_by, Sqlite.initial "t0").
Proof.
  intros q.
  assert (Hbad : ~ In "price" validSortFields).
  { intros [H|[H|[H|[]]]]; discriminate. }
  destruct (C2_validation_first q) as [Hm Hs].
  split.
  - exact (proj1 (proj2 (Hm Memory.initial) (or_introl Hbad))).
  - exact (proj1 (proj2 (Hs (Sqlite.initial "t0")) (or_introl Hbad))).
Defined.

(* ========================================================================= *)
(** ** The category filter (C3) *)
(* ========================================================================= *)

(** In the array store, over records that all have a category, the filter
    keeps the records whose lower-cased category is the lower-cased value. *)
Lemma memory_category_filter (wanted : string) (l : list Book) :
  Forall (fun b => category b <> None) l ->
  Memory.filter_throw (Memory.category_matches wanted) l =
    Memory.Ok
      (filter (fun b =>
                 match category b with
                 | Some c => String.eqb (toLowerCase c) (toLowerCase wanted)
                 | None => false
                 end) l).
Proof.
  induction 1 as [|b l Hb _ IH]; simpl; [reflexivity|].
  unfold Memory.category_matches at 1.
  destruct (category b) as [c|]; [|congruence].
  rewrite IH. now destruct (String.eqb _ _).
Qed.

Lemma memory_category_filter_case (w1 w2 : string) (l : list Book) :
  toLowerCase w1 = toLowerCase w2 ->
  Memory.filter_throw (Memory.category_matches w1) l =
  Memory.filter_throw (Memory.category_matches w2) l.
Proof.
  intros E. induction l as [|b l IH]; simpl; [reflexivity|].
  unfold Memory.category_matches at 1 3. rewrite E, IH. reflexivity.
Qed.

(** A record created without a category holds [null] there, and the array
    store's filter then throws: the request ends in Express's error page. *)
Example memory_category_filter_null :
  let d := mkDraft (Some "Dune") (Some "Frank Herbert") (Some "978-0441013593")
             None None None in
  let h := snd (Memory.serve "t1" "t2" POST Books no_query d Memory.initial) in
  fst (Memory.serve "t1" "t2" GET Books (with_category "fiction") no_draft h)
  = json 500 HtmlPage.
Proof. reflexivity. Qed.

(** C3 at category=Fiction on the seeded stores.  The SQLite variant
    compares [category = ?] bytewise: "fiction" selects the three fiction
    records, "Fiction" selects none.  The array store returns the same three
    records for both. *)
Theorem C3_sqlite_category_filter_is_case_sensitive :
  let db := Sqlite.initial "t0" in
  map id (data_of (fst (Sqlite.get_books (with_category "fiction") db))) = [3; 1; 5] /\
  data_of (fst (Sqlite.get_books (with_category "Fiction") db)) = [] /\
  map id (data_of (fst (Memory.respond (Memory.get_books (with_category "fiction"))
                          Memory.initial))) = [3; 1; 5] /\
  map id (data_of (fst (Memory.respond (Memory.get_books (with_category "Fiction"))
                          Memory.initial))) = [3; 1; 5].
Proof. vm_compute. repeat split; reflexivity. Qed.

(* ========================================================================= *)
(** ** Identifiers handed out by create (C4) *)
(* ========================================================================= *)

(** C4 in the array store, which numbers a new record [books.length + 1].
    After DELETE /books/5 the next created record is given id 5 again; after
    DELETE /books/1 it is given id 5 while the old record 5 is still there. *)
Theorem C4_memory_id_assigned_twice :
  let h1 := snd (Memory.serve "t1" "t2" DELETE (BooksId "5") no_query no_draft
                   Memory.initial) in
  let r1 := fst (Memory.serve "t1" "t2" POST Books no_query dune h1) in
  let h2 := snd (Memory.serve "t1" "t2" DELETE (BooksId "1") no_query no_draft
                   Memory.initial) in
  let r2 := Memory.serve "t1" "t2" POST Books no_query dune h2 in
  In 5 (map id (Memory.store Memory.initial)) /\
  (status r1 = 201 /\ location r1 = Some 5) /\
  (status (fst r2) = 201 /\ location (fst r2) = Some 5 /\
   map id (Memory.store (snd r2)) = [2; 3; 4; 5; 5]).
Proof. vm_compute. intuition. Qed.

(** In the SQLite variant an insertion takes an id above the sequence
    counter, which no statement lowers. *)
Lemma sqlite_insert_fresh now ti au isb y c a t db newid db' :
  Sqlite.insert_book now ti au isb y c a t db = Some (newid, db') ->
  Sqlite.seq db < newid /\ Sqlite.seq db' = newid /\
  Forall (fun r => id r < newid) (Sqlite.rows db).
Proof.
  unfold Sqlite.insert_book.
  destruct (existsb _ _); [discriminate|]. intros E. injection E as <- <-.
  split; [lia|]. split; [reflexivity|].
  generalize (Sqlite.seq db). intros s.
  induction (Sqlite.rows db) as [|r l IH]; constructor.
  - simpl. lia.
  - eapply Forall_impl; [|exact IH]. simpl. intros; lia.
Qed.

Lemma sqlite_seq_monotone now m p q d db :
  Sqlite.seq db <= Sqlite.seq (snd (Sqlite.serve now m p q d db)).
Proof.
  destruct m, p; simpl; try lia.
  - unfold Sqlite.get_books.
    repeat match goal with |- context [if ?b then _ else _] => destruct b end;
      simpl; try lia.
    destruct (Sqlite.data_query _ _ _ _ _ _); simpl; lia.
  - unfold Sqlite.get_book. destruct (Sqlite.select_by_id _ _); simpl; lia.
  - unfold Sqlite.post_books.
    destruct (negb (required_present d)); simpl; try lia.
    destruct (Sqlite.select_by_isbn _ _); simpl; try lia.
    destruct (Sqlite.insert_book _ _ _ _ _ _ _ _ _) as [[newid db']|] eqn:E;
      simpl; try lia.
    apply sqlite_insert_fresh in E as (H1 & H2 & _).
    destruct (Sqlite.select_by_id _ _); simpl; lia.
  - unfold Sqlite.put_book.
    destruct (negb (required_present d)); simpl; try lia.
    destruct (Sqlite.select_by_id _ _); simpl; try lia.
    destruct (if negb _ then _ else _); simpl; try lia.
    unfold Sqlite.update_book. destruct (existsb _ _); simpl; try lia.
    destruct (Sqlite.select_by_id _ _); simpl; lia.
  - unfold Sqlite.delete_book. destruct (Sqlite.select_by_id _ _); simpl; lia.
Qed.

Lemma sqlite_created_above_seq now m p q d db :
  let '(resp, db') := Sqlite.serve now m p q d db in
  Forall (fun i => Sqlite.seq db < i <= Sqlite.seq db') (created_ids [resp]).
Proof.
  destruct (Sqlite.serve now m p q d db) as [resp db'] eqn:E.
  unfold created_ids. simpl. rewrite app_nil_r.
  destruct (status resp =? 201) eqn:Hst; [|constructor].
  destruct (location resp) as [i|] eqn:Hloc; [|constructor].
  constructor; [|constructor].
  destruct m, p; simpl in E;
    try (injection E as <- <-; simpl in Hloc; discriminate).
  - unfold Sqlite.get_books in E.
    repeat match type of E with
           | context [if ?b then _ else _] => destruct b
           | context [match Sqlite.data_query ?a ?b ?c ?d ?e ?f with _ => _ end] =>
               destruct (Sqlite.data_query a b c d e f)
           end; injection E as <- <-; discriminate.
  - unfold Sqlite.get_book in E.
    destruct (Sqlite.select_by_id _ _); injection E as <- <-; discriminate.
  - unfold Sqlite.post_books in E.
    destruct (negb (required_present d)); [injection E as <- <-; discriminate|].
    destruct (Sqlite.select_by_isbn _ _); [injection E as <- <-; discriminate|].
    destruct (Sqlite.insert_book _ _ _ _ _ _ _ _ _) as [[newid db1]|] eqn:Ei;
      [|injection E as <- <-; discriminate].
    pose proof Ei as Hfresh. apply sqlite_insert_fresh in Hfresh as (H1 & H2 & H3).
    destruct (Sqlite.select_by_id _ _) as [nb|] eqn:Hsel;
      [|injection E as <- <-; discriminate].
    injection E as <- <-. simpl in Hloc. injection Hloc as <-.
    apply find_some in Hsel as [_ Hid]. simpl in Hid.
    apply Z.eqb_eq in Hid. lia.
  - unfold Sqlite.put_book in E.
    repeat match type of E with
           | context [if negb (required_present d) then _ else _] =>
               destruct (negb (required_present d))
           | context [match Sqlite.select_by_id ?a ?b with _ => _ end] =>
               destruct (Sqlite.select_by_id a b)
           | context [match (if ?c then ?x else ?y) with _ => _ end] =>
               destruct (if c then x else y)
           | context [match Sqlite.update_book ?a ?b ?c ?d ?e ?f ?g ?h ?i ?j with _ => _ end] =>
               destruct (Sqlite.update_book a b c d e f g h i j)
           end; injection E as <- <-; discriminate.
  - unfold Sqlite.delete_book in E.
    destruct (Sqlite.select_by_id _ _); injection E as <- <-; discriminate.
Qed.

(** Over any sequence of requests to the SQLite variant, the ids handed
    out by create increase strictly: none is handed out twice, whatever was
    deleted in between. *)
Lemma sqlite_created_ids_increase (reqs : list Request) (db : Sqlite.DB) :
  StronglySorted Z.lt (created_ids (fst (sqlite_run reqs db))) /\
  Forall (fun i => Sqlite.seq db < i) (created_ids (fst (sqlite_run reqs db))).
Proof.
  revert db. induction reqs as [|r reqs IH]; intros db; simpl.
  - split; constructor.
  - pose proof (sqlite_created_above_seq (r_clock r) (r_method r) (r_path r)
                  (r_query r) (r_body r) db) as Hc.
    pose proof (sqlite_seq_monotone (r_clock r) (r_method r) (r_path r)
                  (r_query r) (r_body r) db) as Hm.
    destruct (Sqlite.serve _ _ _ _ _ db) as [resp db1].
    destruct (IH db1) as [IH1 IH2].
    destruct (sqlite_run reqs db1) as [resps db2]. simpl in *.
    unfold created_ids in *. simpl in *. rewrite app_nil_r in Hc.
    set (here := if status resp =? 201
                 then match location resp with Some i => [i] | None => [] end
                 else []) in *.
    set (later := flat_map _ resps) in *.
    assert (Hlater : Forall (fun i => Sqlite.seq db < i) later).
    { eapply Forall_impl; [|exact IH2]. simpl. intros; lia. }
    split.
    + assert (Hhere : here = [] \/ exists i, here = [i]).
      { unfold here. destruct (status resp =? 201); [|now left].
        destruct (location resp); [right; eauto | now left]. }
      destruct Hhere as [->|(i & ->)]; simpl; [assumption|].
      constructor; [assumption|].
      inversion Hc; subst.
      eapply Forall_impl; [|exact IH2]. simpl. intros; lia.
    + apply Forall_app. split; [|assumption].
      eapply Forall_impl; [|exact Hc]. simpl. intros; lia.
Qed.

(* ========================================================================= *)
(** ** Creating a record whose isbn is taken (C5) *)
(* ========================================================================= *)

Lemma find_isbn (X : string) (l : list Book) :
  In X (map isbn l) ->
  exists e, List.find (fun b => String.eqb (isbn b) X) l = Some e /\
            In e l /\ isbn e = X.
Proof.
  induction l as [|b l IH]; simpl; [intros []|].
  intros H. destruct (String.eqb_spec (isbn b) X) as [E|N].
  - exists b. auto.
  - destruct H as [H|H]; [contradiction|].
    destruct (IH H) as (e & Hf & Hin & He). exists e. auto.
Qed.

(** C5, as stated, at a draft that carries a taken isbn and no title: both
    variants check the required fields first and answer 400
    VALIDATION_ERROR, not 409. *)
Lemma C5_counterexample_missing_title :
  let d := mkDraft None (Some "J.R.R. Tolkien") (Some "978-0547928227")
             None None None in
  In "978-0547928227" (map isbn seed) /\
  Memory.post_books "t1" "t2" d Memory.initial
    = (Memory.Ok (json 400 (ErrorBody VALIDATION_ERROR
                              (Text "Missing required fields") (Fields ["title"]))),
       Memory.initial) /\
  Sqlite.post_books "t1" d (Sqlite.initial "t0")
    = (json 400 (ErrorBody VALIDATION_ERROR
                   (Text "Missing required fields") (Fields ["title"])),
       Sqlite.initial "t0").
Proof. vm_compute. intuition. Qed.

(** C5 (amended: for a draft that passes the required-field check).  When
    the store holds a record with isbn X, POST /books with a draft carrying
    isbn X leaves the store exactly as it was, in both variants; the response
    is 409 DUPLICATE_ISBN, naming the record that holds X, when title, author
    and isbn of the draft are all non-empty, and 400 VALIDATION_ERROR
    otherwise. *)
Theorem C5_duplicate_isbn_rejected :
  forall (d : Draft) (X : string),
    d_isbn d = Some X ->
    (forall (t1 t2 : string) (h : Memory.Heap),
        In X (map isbn (Memory.store h)) ->
        exists e,
          In e (Memory.store h) /\ isbn e = X /\
          Memory.post_books t1 t2 d h =
            (Memory.Ok (if required_present d
                        then duplicate_isbn (id e) else validation_error d), h))
    /\
    (forall (now : string) (db : Sqlite.DB),
        In X (map isbn (Sqlite.rows db)) ->
        exists e,
          In e (Sqlite.rows db) /\ isbn e = X /\
          Sqlite.post_books now d db =
            (if required_present d
             then duplicate_isbn (id e) else validation_error d, db)).
Proof.
  intros d X HX. split.
  - intros t1 t2 h Hin.
    destruct (find_isbn X _ Hin) as (e & Hf & He & HeX).
    exists e. split; [assumption|]. split; [assumption|].
    unfold Memory.post_books. destruct (required_present d); cbn [negb]; [|reflexivity].
    unfold Memory.bind, Memory.arr_find, Memory.read, Memory.books, Memory.ret.
    cbn [Memory.bind]. rewrite HX. cbn [default].
    unfold Memory.store in Hf. rewrite Hf. reflexivity.
  - intros now db Hin.
    destruct (find_isbn X _ Hin) as (e & Hf & He & HeX).
    exists e. split; [assumption|]. split; [assumption|].
    unfold Sqlite.post_books. destruct (required_present d); cbn [negb]; [|reflexivity].
    unfold Sqlite.select_by_isbn. rewrite HX. cbn [default]. rewrite Hf. reflexivity.
Qed.

(** C5 on the seed data with the isbn of record 1 and a complete draft. *)
Lemma C5_duplicate_isbn_witness :
  let d := mkDraft (Some "The Hobbit, again") (Some "J.R.R. Tolkien")
             (Some "978-0547928227") None None None in
  (exists e, In e seed /\ isbn e = "978-0547928227" /\
             Memory.post_books "t1" "t2" d Memory.initial
             = (Memory.Ok (duplicate_isbn (id e)), Memory.initial))
  /\
  (exists e, In e (Sqlite.rows (Sqlite.initial "t0")) /\ isbn e = "978-0547928227" /\
             Sqlite.post_books "t1" d (Sqlite.initial "t0")
             = (duplicate_isbn (id e), Sqlite.initial "t0")).
Proof.
  intros d.
  destruct (C5_duplicate_isbn_rejected d "978-0547928227" eq_refl) as [Hm Hs].
  split.
  - apply (Hm "t1" "t2" Memory.initial). simpl. auto.
  - apply (Hs "t1" (Sqlite.initial "t0")). simpl. auto.
Defined.

(* ========================================================================= *)
(** ** Ascending against descending order (C6) *)
(* ========================================================================= *)

Section SortedByKey.

Context {A K : Type}.
Variable key : A -> K.
Variable klt : K -> K -> Prop.
Hypothesis klt_trans : forall x y z, klt x y -> klt y z -> klt x z.
Hypothesis klt_irrefl : forall x, ~ klt x x.

Let before (a b : A) : Prop := klt (key a) (key b).


Variable cmp : A -> A -> Z.
Hypothesis cmp_after : forall x y, 0 < cmp x y -> before y x.
Hypothesis cmp_before : forall x y, ~ 0 < cmp x y -> key x <> key y -> before x y.

Lemma insert_permutation (x : A) (l : list A) : Permutation (insert cmp x l) (x :: l).
Proof.
  induction l as [|y l IH]; simpl; [reflexivity|].
  destruct (0 <? cmp x y); [|reflexivity].
  rewrite IH. apply perm_swap.
Qed.

Lemma sort_permutation (l : list A) : Permutation (sort cmp l) l.
Proof.
  induction l as [|x l IH]; simpl; [reflexivity|].
  rewrite insert_permutation. now constructor.
Qed.

Lemma insert_keeps_sorted (x : A) (l : list A) :
  StronglySorted before l ->
  Forall (fun y => key x <> key y) l ->
  StronglySorted before (insert cmp x l).
Proof.
  induction 1 as [|y l S IH Hy]; intros Hx; simpl.
  - repeat constructor.
  - inversion Hx as [|? ? Hxy Hxl]; subst.
    destruct (Z.ltb_spec 0 (cmp x y)) as [Hgt|Hle].
    + constructor; [now apply IH|].
      rewrite (insert_permutation x l). constructor; [now apply cmp_after | assumption].
    + assert (Hb : before x y) by (apply cmp_before; [lia | assumption]).
      constructor; [now constructor|].
      constructor; [assumption|].
      eapply Forall_impl; [|exact Hy]. intros z Hz.
      unfold before in *. eapply klt_trans; eassumption.
Qed.

(** With pairwise distinct keys, [sort] returns the records in strictly
    increasing key order. *)
Lemma sort_strongly_sorted (l : list A) :
  NoDup (map key l) -> StronglySorted before (sort cmp l).
Proof.
  induction l as [|x l IH]; simpl; intros Hnd; [constructor|].
  inversion Hnd as [|? ? Hx Hl]; subst.
  apply insert_keeps_sorted; [now apply IH|].
  rewrite (sort_permutation l). apply Forall_forall. intros y Hy E.
  apply Hx. rewrite E. now apply in_map.
Qed.

End SortedByKey.



(** The order of strings by character codes. *)
Lemma string_ltb_trans (x y z : string) :
  String.ltb x y = true -> String.ltb y z = true -> String.ltb x z = true.
Proof.
  unfold String.ltb. intros Hxy Hyz.
  destruct (String.compare x y) eqn:Exy; try discriminate.
  destruct (String.compare y z) eqn:Eyz; try discriminate.
  apply String_as_OT.cmp_lt in Exy, Eyz.
  pose proof (String_as_OT.lt_trans _ _ _ Exy Eyz) as H.
  apply String_as_OT.cmp_lt in H. unfold String_as_OT.cmp in H. now rewrite H.
Qed.

Lemma string_ltb_irrefl (x : string) : String.ltb x x <> true.
Proof.
  unfold String.ltb. pose proof (String.compare_antisym x x) as H.
  destruct (String.compare x x); simpl in H; congruence.
Qed.

Lemma string_ltb_total (x y : string) :
  String.ltb x y <> true -> x <> y -> String.ltb y x = true.
Proof.
  unfold String.ltb. intros H N. rewrite String.compare_antisym.
  destruct (String.compare x y) eqn:E; simpl.
  - apply String.compare_eq_iff in E. contradiction.
  - now contradiction H.
  - reflexivity.
Qed.

(** SQLite's order of values is a strict total order. *)
Lemma sql_lt_trans (x y z : Sqlite.sqlval) :
  Sqlite.sql_lt x y = true -> Sqlite.sql_lt y z = true -> Sqlite.sql_lt x z = true.
Proof.
  destruct x, y, z; simpl; try congruence; try reflexivity.
  - rewrite !Z.ltb_lt. lia.
  - apply string_ltb_trans.
Qed.

Lemma sql_lt_irrefl (x : Sqlite.sqlval) : Sqlite.sql_lt x x <> true.
Proof.
  destruct x; simpl; [discriminate | | apply string_ltb_irrefl].
  rewrite Z.ltb_irrefl. discriminate.
Qed.

Lemma sql_lt_total (x y : Sqlite.sqlval) :
  Sqlite.sql_lt x y <> true -> x <> y -> Sqlite.sql_lt y x = true.
Proof.
  destruct x, y; simpl; intros H N; try congruence.
  - apply Z.ltb_lt. destruct (Z.ltb_spec z z0); [congruence|].
    assert (z <> z0) by congruence. lia.
  - apply string_ltb_total; congruence.
Qed.

(** The comparator of the array store on the three sort fields. *)
Lemma compare_books_title (order : string) (a b : Book) :
  Memory.compare_books "title" order a b =
    if String.eqb order "asc"
    then (if String.ltb (toLowerCase (title b)) (toLowerCase (title a)) then 1 else -1)
    else (if String.ltb (toLowerCase (title a)) (toLowerCase (title b)) then 1 else -1).
Proof. reflexivity. Qed.

Lemma compare_books_author (order : string) (a b : Book) :
  Memory.compare_books "author" order a b =
    if String.eqb order "asc"
    then (if String.ltb (toLowerCase (author b)) (toLowerCase (author a)) then 1 else -1)
    else (if String.ltb (toLowerCase (author a)) (toLowerCase (author b)) then 1 else -1).
Proof. reflexivity. Qed.

Lemma compare_books_year (order : string) (a b : Book) :
  Memory.compare_books "published_year" order a b =
    if String.eqb order "asc"
    then (if default 0 (published_year b) <? default 0 (published_year a) then 1 else -1)
    else (if default 0 (published_year a) <? default 0 (published_year b) then 1 else -1).
Proof.
  unfold Memory.compare_books. cbn [Memory.prop String.eqb Ascii.eqb Bool.eqb].
  destruct (published_year a), (published_year b); reflexivity.
Qed.

Lemma sort_key_title (b : Book) :
  Memory.sort_key "title" b = VStr (toLowerCase (title b)).
Proof. reflexivity. Qed.

Lemma sort_key_author (b : Book) :
  Memory.sort_key "author" b = VStr (toLowerCase (author b)).
Proof. reflexivity. Qed.

Lemma sort_key_year (b : Book) :
  Memory.sort_key "published_year" b = VNum (default 0 (published_year b)).
Proof.
  unfold Memory.sort_key. cbn [Memory.prop String.eqb Ascii.eqb Bool.eqb].
  now destruct (published_year b).
Qed.


Lemma if_pos (c : bool) : 0 < (if c then 1 else -1) <-> c = true.
Proof. destruct c; split; intros; try lia; congruence. Qed.








(* ========================================================================= *)
(** ** Update (C7) *)
(* ========================================================================= *)

Lemma id_eq_true (v : Sqlite.sqlval) (r : Book) :
  Sqlite.id_eq v r = true <-> v = Sqlite.SInt (id r).
Proof.
  destruct v; simpl; split; try discriminate.
  - intros H. apply Z.eqb_eq in H. now subst.
  - intros H. injection H as ->. apply Z.eqb_refl.
Qed.

Lemma find_none_iff {A : Type} (p : A -> bool) (l : list A) :
  (forall x, In x l -> p x = false) -> List.find p l = None.
Proof.
  induction l as [|x l IH]; simpl; intros H; [reflexivity|].
  rewrite (H x (or_introl eq_refl)). apply IH. auto.
Qed.

(** Under PRIMARY KEY(id), the lookup by id of a row returns that row. *)
Lemma select_by_id_row (db : Sqlite.DB) (e : Book) :
  NoDup (map id (Sqlite.rows db)) -> In e (Sqlite.rows db) ->
  Sqlite.select_by_id (Sqlite.SInt (id e)) db = Some e.
Proof.
  unfold Sqlite.select_by_id. induction (Sqlite.rows db) as [|r l IH]; simpl;
    intros Hnd Hin; [contradiction|].
  inversion Hnd as [|? ? Hr Hl]; subst.
  destruct Hin as [->|Hin].
  - now rewrite Z.eqb_refl.
  - destruct (Z.eqb_spec (id r) (id e)) as [E|_]; [|now apply IH].
    exfalso. apply Hr. rewrite E. now apply in_map.
Qed.

Lemma find_map_same_test {A : Type} (p : A -> bool) (f : A -> A) (l : list A) :
  (forall x, p (f x) = p x) ->
  List.find p (map f l) = option_map f (List.find p l).
Proof.
  intros H. induction l as [|x l IH]; simpl; [reflexivity|].
  rewrite H. destruct (p x); [reflexivity | exact IH].
Qed.

Lemma put_book_absent now seg d db :
  required_present d = true ->
  (forall r, In r (Sqlite.rows db) ->
             Sqlite.bind_number (parseInt seg) <> Sqlite.SInt (id r)) ->
  Sqlite.put_book now seg d db = (not_found (parseInt seg), db).
Proof.
  intros Hreq Habs. unfold Sqlite.put_book. rewrite Hreq. cbn [negb].
  unfold Sqlite.select_by_id. rewrite find_none_iff; [reflexivity|].
  intros r Hr. destruct (Sqlite.id_eq _ r) eqn:E; [|reflexivity].
  apply id_eq_true in E. now apply Habs in Hr.
Qed.

Lemma put_book_conflict now seg d db e X o :
  Sqlite.constraints db -> required_present d = true ->
  In e (Sqlite.rows db) -> Sqlite.bind_number (parseInt seg) = Sqlite.SInt (id e) ->
  d_isbn d = Some X -> X <> isbn e ->
  In o (Sqlite.rows db) -> id o <> id e -> isbn o = X ->
  exists o', In o' (Sqlite.rows db) /\ id o' <> id e /\ isbn o' = X /\
             Sqlite.put_book now seg d db = (duplicate_isbn (id o'), db).
Proof.
  intros [Hid _] Hreq He Hv HX Hne Ho Hoid Hoisbn.
  unfold Sqlite.put_book. rewrite Hreq, Hv. cbn [negb].
  rewrite (select_by_id_row db e Hid He), HX. cbn [default].
  destruct (String.eqb_spec X (isbn e)) as [E|_]; [contradiction|]. cbn [negb].
  destruct (Sqlite.select_isbn_other X (Sqlite.SInt (id e)) db) as [o'|] eqn:Ef.
  - unfold Sqlite.select_isbn_other in Ef. apply find_some in Ef as [Hin Hp].
    apply andb_true_iff in Hp as [H1 H2].
    apply String.eqb_eq in H1. apply negb_true_iff, Z.eqb_neq in H2.
    exists o'. auto.
  - exfalso. unfold Sqlite.select_isbn_other in Ef.
    apply (find_none _ _ Ef) in Ho. rewrite Hoisbn, String.eqb_refl in Ho.
    apply Z.eqb_neq in Hoid. rewrite Hoid in Ho. discriminate.
Qed.

Lemma put_book_success now seg d db e X :
  Sqlite.constraints db -> required_present d = true ->
  In e (Sqlite.rows db) -> Sqlite.bind_number (parseInt seg) = Sqlite.SInt (id e) ->
  d_isbn d = Some X ->
  (forall o, In o (Sqlite.rows db) -> id o <> id e -> isbn o <> X) ->
  Sqlite.put_book now seg d db =
    (json 200 (BookBody (Sqlite.updated_row now d e)),
     Sqlite.mkDB
       (map (fun r => if id r =? id e then Sqlite.updated_row now d e else r) (Sqlite.rows db))
       (Sqlite.seq db)).
Proof.
  intros [Hid _] Hreq He Hv HX Hfree.
  unfold Sqlite.put_book. rewrite Hreq, Hv. cbn [negb].
  rewrite (select_by_id_row db e Hid He), HX. cbn [default].
  assert (Hother : Sqlite.select_isbn_other X (Sqlite.SInt (id e)) db = None).
  { unfold Sqlite.select_isbn_other. apply find_none_iff. intros o Ho.
    destruct (Z.eqb_spec (id o) (id e)) as [E|N]; simpl; [apply andb_false_r|].
    destruct (String.eqb_spec (isbn o) X) as [E|_]; [|reflexivity].
    now apply Hfree in Ho. }
  assert (Hconflict :
            (if negb (String.eqb X (isbn e))
             then Sqlite.select_isbn_other X (Sqlite.SInt (id e)) db
             else None) = None).
  { destruct (negb _); [assumption | reflexivity]. }
  rewrite Hconflict.
  assert (Hmap :
            map (fun r => if Sqlite.id_eq (Sqlite.SInt (id e)) r
                          then mkBook (id r) (default "" (d_title d))
                                 (default "" (d_author d)) X (d_published_year d)
                                 (d_category d) (copies_available e)
                                 (match d_copies_total d with
                                  | Some 0 | None => copies_total e
                                  | Some n => n
                                  end) (created_at r) now
                          else r) (Sqlite.rows db)
            = map (fun r => if id r =? id e then Sqlite.updated_row now d e else r)
                  (Sqlite.rows db)).
  { apply map_ext_in. intros r Hr. simpl.
    destruct (Z.eqb_spec (id r) (id e)) as [E|_]; [|reflexivity].
    assert (r = e).
    { pose proof (select_by_id_row db r Hid Hr) as H1.
      pose proof (select_by_id_row db e Hid He) as H2.
      rewrite E in H1. congruence. }
    subst r. unfold Sqlite.updated_row. now rewrite HX. }
  unfold Sqlite.update_book.
  assert (Hcheck :
            existsb (fun r => Sqlite.id_eq (Sqlite.SInt (id e)) r
                              && existsb (fun o => negb (id o =? id r)
                                                   && String.eqb (isbn o) X)
                                         (Sqlite.rows db))
                    (Sqlite.rows db) = false).
  { apply not_true_is_false. intros H. apply existsb_exists in H as (r & Hr & H).
    apply andb_true_iff in H as [H1 H2]. simpl in H1. apply Z.eqb_eq in H1.
    apply existsb_exists in H2 as (o & Ho & H2).
    apply andb_true_iff in H2 as [H2 H3].
    apply negb_true_iff, Z.eqb_neq in H2. apply String.eqb_eq in H3.
    apply (Hfree o Ho); congruence. }
  rewrite Hcheck, Hmap.
  unfold Sqlite.select_by_id. cbn [Sqlite.rows].
  rewrite find_map_same_test.
  - fold (Sqlite.select_by_id (Sqlite.SInt (id e)) db).
    rewrite (select_by_id_row db e Hid He). simpl. now rewrite Z.eqb_refl.
  - intros r. simpl. destruct (id r =? id e) eqn:E; simpl;
      rewrite ?Z.eqb_refl, ?E; reflexivity.
Qed.

(** C7, as stated.  The array store registers no PUT route: a well-formed
    update of record 1 is answered by Express's 404 page and the store keeps
    the old record.  And in the SQLite variant an update of an absent id with
    a draft lacking its required fields is answered 400 VALIDATION_ERROR, the
    required fields being checked before the lookup. *)
Lemma C7_counterexample_no_put_in_memory :
  (Memory.serve "t1" "t2" PUT (BooksId "1") no_query dune Memory.initial
   = (json 404 HtmlPage, Memory.initial))
  /\
  (Sqlite.select_by_id (Sqlite.bind_number (parseInt "99")) (Sqlite.initial "t0") = None /\
   Sqlite.serve "t1" PUT (BooksId "99") no_query no_draft (Sqlite.initial "t0")
   = (validation_error no_draft, Sqlite.initial "t0")).
Proof. vm_compute. intuition. Qed.

(** C7 (amended).  The array store has no update route.  In the SQLite
    variant, for a table satisfying its key constraints, PUT /books/:id
    - answers 400 VALIDATION_ERROR when title, author or isbn of the draft is
      missing or empty, whatever the id;
    and for a draft that passes this check
    - answers 404 RESOURCE_NOT_FOUND when no record has the id;
    - answers 409 DUPLICATE_ISBN when the record exists, the draft's isbn
      differs from the stored one and another record holds it;
    - otherwise answers 200 with the full updated record [u], which keeps id
      and created_at, has updated_at set to the current time, and has the
      title, author, isbn, published_year and category of the draft; the
      table afterwards holds [u] in the place of the old record and every
      other record as it was.
    Every rejected request leaves the table as it was. *)
Theorem C7_update :
  forall (now seg : string) (d : Draft) (db : Sqlite.DB),
    Sqlite.constraints db ->
    (forall t1 t2 q h,
        Memory.serve t1 t2 PUT (BooksId seg) q d h = (json 404 HtmlPage, h))
    /\
    (required_present d = false ->
     Sqlite.put_book now seg d db = (validation_error d, db))
    /\
    (required_present d = true ->
     ((forall r, In r (Sqlite.rows db) ->
                 Sqlite.bind_number (parseInt seg) <> Sqlite.SInt (id r)) ->
      Sqlite.put_book now seg d db = (not_found (parseInt seg), db))
     /\
     (forall e X,
         In e (Sqlite.rows db) ->
         Sqlite.bind_number (parseInt seg) = Sqlite.SInt (id e) ->
         d_isbn d = Some X ->
         (forall o, X <> isbn e -> In o (Sqlite.rows db) -> id o <> id e -> isbn o = X ->
            exists o', In o' (Sqlite.rows db) /\ id o' <> id e /\ isbn o' = X /\
                       Sqlite.put_book now seg d db = (duplicate_isbn (id o'), db))
         /\
         ((forall o, In o (Sqlite.rows db) -> id o <> id e -> isbn o <> X) ->
          let u := Sqlite.updated_row now d e in
          Sqlite.put_book now seg d db =
            (json 200 (BookBody u),
             Sqlite.mkDB (map (fun r => if id r =? id e then u else r) (Sqlite.rows db))
                         (Sqlite.seq db))
          /\ id u = id e /\ created_at u = created_at e /\ updated_at u = now
          /\ Some (title u) = d_title d /\ Some (author u) = d_author d
          /\ Some (isbn u) = d_isbn d
          /\ published_year u = d_published_year d
          /\ category u = d_category d))).
Proof.
  intros now seg d db Hc. split; [reflexivity|]. split.
  - intros Hreq. unfold Sqlite.put_book. now rewrite Hreq.
  - intros Hreq. split.
    + now apply put_book_absent.
    + intros e X He Hv HX. split.
      * intros o Hne Ho Hoid Hoisbn. now apply put_book_conflict with (o := o).
      * intros Hfree u. split; [now apply put_book_success with (X := X)|].
        unfold required_present in Hreq.
        apply andb_true_iff in Hreq as [Hreq _].
        apply andb_true_iff in Hreq as [Ht Ha].
        subst u. unfold Sqlite.updated_row. cbn [id created_at updated_at title author
          isbn published_year category].
        rewrite HX.
        destruct (d_title d); [|discriminate]. destruct (d_author d); [|discriminate].
        repeat split.
Qed.

(** C7 on the seeded table: an update of record 1, and of the absent id 99. *)
Lemma C7_update_witness :
  let db := Sqlite.initial "t0" in
  let e := mkBook 1 "The Hobbit" "J.R.R. Tolkien" "978-0547928227" (Some 1937)
             (Some "fiction") 3 5 "t0" "t0" in
  Sqlite.put_book "t9" "1" hobbit_revised db =
    (json 200 (BookBody (Sqlite.updated_row "t9" hobbit_revised e)),
     Sqlite.mkDB
       (map (fun r => if id r =? 1 then Sqlite.updated_row "t9" hobbit_revised e else r)
            (Sqlite.rows db))
       (Sqlite.seq db))
  /\ Sqlite.put_book "t9" "99" hobbit_revised db = (not_found (Num 99), db).
Proof.
  intros db e.
  assert (Hc : Sqlite.constraints db).
  { split; vm_compute;
      repeat (constructor; [simpl; intuition congruence|]); constructor. }
  split.
  - destruct (C7_update "t9" "1" hobbit_revised db Hc) as (_ & _ & H).
    destruct (H eq_refl) as [_ H2].
    destruct (H2 e "978-0547928227") as [_ H3];
      [vm_compute; auto | reflexivity | reflexivity |].
    apply H3. clear H3. intros o Ho Hid Hisbn.
    assert (Hall : forallb (fun o => (id o =? 1)
                                     || negb (String.eqb (isbn o) "978-0547928227"))
                           (Sqlite.rows db) = true) by (vm_compute; reflexivity).
    rewrite forallb_forall in Hall. specialize (Hall o Ho).
    apply orb_true_iff in Hall as [Hall|Hall].
    + apply Z.eqb_eq in Hall. exact (Hid Hall).
    + apply negb_true_iff, String.eqb_neq in Hall. exact (Hall Hisbn).
  - destruct (C7_update "t9" "99" hobbit_revised db Hc) as (_ & _ & H).
    destruct (H eq_refl) as [H1 _].
    apply H1. vm_compute. intros r Hr.
    repeat (destruct Hr as [<-|Hr]; [simpl; congruence|]). contradiction.
Defined.

(* ========================================================================= *)
(** ** The list operation reads the store and leaves it alone (C8) *)
(* ========================================================================= *)

Lemma memory_list_run (q : Query) (h : Memory.Heap) :
  exists h',
    Memory.store h' = Memory.store h /\
    Memory.respond (Memory.get_books q) h = (Memory.list_result q (Memory.store h), h').
Proof.
  unfold Memory.list_result, Memory.respond, Memory.store.
  destruct (Memory.valid q) eqn:Hv.
  - destruct (get_books_run q h Hv) as (h' & G & E).
    exists h'. split; [assumption|]. rewrite E.
    now destruct (Memory.filtered q (Memory.global h)).
  - exists h. split; [reflexivity|].
    now rewrite (memory_invalid_run q h Hv).
Qed.

(** C8.  GET /books on the array store: the response is a function of the
    query and of the records in the store, so a second run on the store left
    by the first gives the same response, as does a run on any heap holding
    the same records; and after each run the store holds the same records in
    the same order as before.  (The handler sorts and filters a copy.) *)
Theorem C8_list_is_deterministic_and_read_only :
  forall (q : Query) (h : Memory.Heap),
    let run1 := Memory.respond (Memory.get_books q) h in
    let run2 := Memory.respond (Memory.get_books q) (snd run1) in
    fst run2 = fst run1 /\
    Memory.store (snd run1) = Memory.store h /\
    Memory.store (snd run2) = Memory.store h /\
    (forall h', Memory.store h' = Memory.store h ->
                fst (Memory.respond (Memory.get_books q) h') = fst run1).
Proof.
  intros q h run1 run2.
  destruct (memory_list_run q h) as (h1 & G1 & E1).
  assert (R1 : run1 = (Memory.list_result q (Memory.store h), h1)) by exact E1.
  destruct (memory_list_run q h1) as (h2 & G2 & E2).
  assert (R2 : run2 = (Memory.list_result q (Memory.store h1), h2)).
  { unfold run2. rewrite R1. exact E2. }
  rewrite R1, R2. cbn [fst snd]. rewrite G1. repeat split; try congruence.
  intros h' Hh'. destruct (memory_list_run q h') as (h3 & _ & E3).
  rewrite E3. cbn [fst]. now rewrite Hh'.
Qed.

(** C8 on the seed data, from two heaps that hold the same store. *)
Lemma C8_list_witness :
  let q := mkQuery (Some "fiction") None (Some "true") (Some "author") (Some "desc")
             (Some "1") (Some "1") in
  let run1 := Memory.respond (Memory.get_books q) Memory.initial in
  fst (Memory.respond (Memory.get_books q) (Memory.mkHeap seed [[]; seed])) = fst run1 /\
  Memory.store (snd run1) = seed.
Proof.
  intros q run1.
  destruct (C8_list_is_deterministic_and_read_only q Memory.initial)
    as (_ & H1 & _ & H2).
  split; [apply H2; reflexivity | exact H1].
Defined.

(* ========================================================================= *)
(** ** An id segment that is not a number (C9) *)
(* ========================================================================= *)

Lemma findIndex_none {A : Type} (p : A -> bool) (l : list A) :
  (forall x, In x l -> p x = false) -> findIndex p l = -1.
Proof.
  induction l as [|x l IH]; simpl; intros H; [reflexivity|].
  rewrite (H x (or_introl eq_refl)), IH by auto. reflexivity.
Qed.

Lemma memory_lookup_absent t1 t2 seg q d h :
  (forall b, In b (Memory.store h) -> Memory.id_is (parseInt seg) b = false) ->
  Memory.serve t1 t2 GET (BooksId seg) q d h = (not_found (parseInt seg), h) /\
  Memory.serve t1 t2 DELETE (BooksId seg) q d h = (not_found (parseInt seg), h).
Proof.
  intros Habs. unfold Memory.store in Habs.
  unfold Memory.serve, Memory.route, Memory.respond. split.
  - unfold Memory.get_book, Memory.bind, Memory.arr_find, Memory.read, Memory.ret,
      Memory.books.
    cbn [Memory.bind]. now rewrite (find_none_iff _ _ Habs).
  - unfold Memory.delete_book, Memory.bind, Memory.arr_findIndex, Memory.read,
      Memory.ret, Memory.books.
    cbn [Memory.bind]. now rewrite (findIndex_none _ _ Habs).
Qed.

Lemma sqlite_lookup_absent now seg q d db :
  (forall r, In r (Sqlite.rows db) ->
             Sqlite.id_eq (Sqlite.bind_number (parseInt seg)) r = false) ->
  Sqlite.serve now GET (BooksId seg) q d db = (not_found (parseInt seg), db) /\
  Sqlite.serve now DELETE (BooksId seg) q d db = (not_found (parseInt seg), db).
Proof.
  intros Habs. unfold Sqlite.serve, Sqlite.get_book, Sqlite.delete_book,
    Sqlite.select_by_id.
  now rewrite (find_none_iff _ _ Habs).
Qed.

(** C9.  When the :id segment does not parse as an integer ([parseInt]
    gives NaN), GET and DELETE /books/:id match no record and answer 404
    RESOURCE_NOT_FOUND, leaving the store as it was, in both variants; this is
    the response given for a numeric id that no record has. *)
Theorem C9_non_numeric_id_is_not_found :
  forall (seg : string),
    parseInt seg = NaN ->
    (forall t1 t2 q d h,
        Memory.serve t1 t2 GET (BooksId seg) q d h = (not_found NaN, h) /\
        Memory.serve t1 t2 DELETE (BooksId seg) q d h = (not_found NaN, h))
    /\
    (forall now q d db,
        Sqlite.serve now GET (BooksId seg) q d db = (not_found NaN, db) /\
        Sqlite.serve now DELETE (BooksId seg) q d db = (not_found NaN, db))
    /\
    (forall (seg' : string) (n : Z),
        parseInt seg' = Num n ->
        (forall t1 t2 q d h,
            (forall b, In b (Memory.store h) -> id b <> n) ->
            Memory.serve t1 t2 GET (BooksId seg') q d h = (not_found (Num n), h) /\
            Memory.serve t1 t2 DELETE (BooksId seg') q d h = (not_found (Num n), h))
        /\
        (forall now q d db,
            (forall r, In r (Sqlite.rows db) -> id r <> n) ->
            Sqlite.serve now GET (BooksId seg') q d db = (not_found (Num n), db) /\
            Sqlite.serve now DELETE (BooksId seg') q d db = (not_found (Num n), db))).
Proof.
  intros seg Hnan. split; [|split].
  - intros t1 t2 q d h. rewrite <- Hnan. apply memory_lookup_absent.
    intros b _. now rewrite Hnan.
  - intros now q d db. rewrite <- Hnan. apply sqlite_lookup_absent.
    intros r _. now rewrite Hnan.
  - intros seg' n Hn. split.
    + intros t1 t2 q d h Habs. rewrite <- Hn. apply memory_lookup_absent.
      intros b Hb. rewrite Hn. simpl. apply Z.eqb_neq. now apply Habs.
    + intros now q d db Habs. rewrite <- Hn. apply sqlite_lookup_absent.
      intros r Hr. rewrite Hn. simpl. apply Z.eqb_neq. now apply Habs.
Qed.

(** C9 on the seed data with the id segment abc. *)
Lemma C9_non_numeric_id_witness :
  Memory.serve "t1" "t2" GET (BooksId "abc") no_query no_draft Memory.initial
  = (not_found NaN, Memory.initial) /\
  Memory.serve "t1" "t2" DELETE (BooksId "abc") no_query no_draft Memory.initial
  = (not_found NaN, Memory.initial) /\
  Sqlite.serve "t1" GET (BooksId "abc") no_query no_draft (Sqlite.initial "t0")
  = (not_found NaN, Sqlite.initial "t0").
Proof.
  destruct (C9_non_numeric_id_is_not_found "abc" eq_refl) as (Hm & Hs & _).
  destruct (Hm "t1" "t2" no_query no_draft Memory.initial) as [H1 H2].
  destruct (Hs "t1" no_query no_draft (Sqlite.initial "t0")) as [H3 _].
  auto.
Defined.

(* ========================================================================= *)
(** ** The available parameter (C10) *)
(* ========================================================================= *)

Lemma filter_throw_total (p : Book -> bool) (l : list Book) :
  Memory.filter_throw (fun b => Memory.Ok (p b)) l = Memory.Ok (filter p l).
Proof.
  induction l as [|x l IH]; simpl; [reflexivity|]. rewrite IH. now destruct (p x).
Qed.

Lemma filter_conj {A : Type} (p r : A -> bool) (l : list A) :
  filter (fun x => p x && r x) l = filter r (filter p l).
Proof.
  induction l as [|x l IH]; simpl; [reflexivity|].
  destruct (p x); simpl; [|exact IH]. destruct (r x); now rewrite IH.
Qed.

Lemma where_snoc (cs : list Sqlite.Cond) (c : Sqlite.Cond) (l : list Book) :
  Sqlite.where_ (cs ++ [c]) l = filter (Sqlite.eval_cond c) (Sqlite.where_ cs l).
Proof.
  unfold Sqlite.where_. rewrite <- filter_conj. apply filter_ext. intros r.
  rewrite forallb_app. simpl. now rewrite andb_true_r.
Qed.

Lemma in_window {A : Type} (n : nat) (l : list A) (x : A) :
  (In x (firstn n l) -> In x l) /\ (In x (skipn n l) -> In x l).
Proof.
  rewrite <- (firstn_skipn n l) at 2 4. split; intros H; apply in_or_app; auto.
Qed.

Lemma sort_incl {A : Type} (cmp : A -> A -> Z) (l : list A) : incl (sort cmp l) l.
Proof. intros x Hx. now apply (Permutation_in _ (sort_permutation cmp l)). Qed.

(** The page of the SQLite variant holds selected rows only, and the total
    it reports is their number. *)
Lemma sqlite_page_is_selected (q : Query) (db : Sqlite.DB) :
  let selected := Sqlite.where_ (Sqlite.where_conditions q) (Sqlite.rows db) in
  incl (data_of (fst (Sqlite.get_books q db))) selected /\
  (forall pg, pagination_of (fst (Sqlite.get_books q db)) = Some pg ->
              total_items pg = Z.of_nat (List.length selected)).
Proof.
  intros selected. unfold Sqlite.get_books.
  destruct (negb (member _ validSortFields)); [split; [intros x []|discriminate]|].
  destruct (negb (member _ _)); [split; [intros x []|discriminate]|].
  destruct (Sqlite.data_query _ _ _ _ _ _) as [data|] eqn:E;
    [|split; [intros x []|discriminate]].
  cbn [fst data_of pagination_of body json]. split.
  - apply data_query_window in E as (n & k & _ & _ & _ & _ & ->).
    fold selected.
    assert (I : forall m, incl (skipn m (Sqlite.order_by (default "title" (q_sort_by q))
                                           (toUpperCase (default "asc" (q_order q)))
                                           selected)) selected).
    { intros m x Hx. apply in_window in Hx. unfold Sqlite.order_by in Hx.
      now apply sort_incl in Hx. }
    destruct (n <? 0); [apply I|].
    intros x Hx. apply in_window in Hx. now apply I in Hx.
  - intros pg H. injection H as <-. reflexivity.
Qed.

(** C10.  When [available] is present with value [v], the records kept
    are, among those passing the other filters, the ones with
    copies_available > 0 if [v] is exactly "true" and the ones with
    copies_available = 0 for every other [v]; and [v] has no part in the
    request being rejected.  Both variants; in the array store the response
    is computed from this filtered set ([list_result]); in the SQLite
    variant every record of the page is one of the records kept, total_items
    is their number, and the page (for page >= 1, limit > 0 and
    page * limit within the safe integers) is the slice of the kept records
    in the order asked for. *)
Theorem C10_available_filter :
  forall (q : Query) (v : string),
    q_available q = Some v ->
    (forall l : list Book,
        Memory.filtered q l =
          match Memory.filtered (without_available q) l with
          | Memory.Ok f0 => Memory.Ok (filter (available_selects v) f0)
          | Memory.TypeError => Memory.TypeError
          end)
    /\
    (forall l : list Book,
        Sqlite.where_ (Sqlite.where_conditions q) l =
          filter (available_selects v)
                 (Sqlite.where_ (Sqlite.where_conditions (without_available q)) l))
    /\
    (forall h : Memory.Heap,
        fst (Memory.respond (Memory.get_books q) h)
        = Memory.list_result q (Memory.store h) /\
        is_invalid_parameter (fst (Memory.respond (Memory.get_books q) h)) =
        is_invalid_parameter
          (fst (Memory.respond (Memory.get_books (without_available q)) h)))
    /\
    (forall db : Sqlite.DB,
        is_invalid_parameter (fst (Sqlite.get_books q db)) =
        is_invalid_parameter (fst (Sqlite.get_books (without_available q) db)))
    /\
    (forall db : Sqlite.DB,
        let kept :=
          filter (available_selects v)
            (Sqlite.where_ (Sqlite.where_conditions (without_available q))
               (Sqlite.rows db)) in
        incl (data_of (fst (Sqlite.get_books q db))) kept /\
        (forall pg, pagination_of (fst (Sqlite.get_books q db)) = Some pg ->
                    total_items pg = Z.of_nat (List.length kept)) /\
        (forall p L,
            Sqlite.valid q = true ->
            parse_or 1 (q_page q) = Num p -> parse_or 20 (q_limit q) = Num L ->
            1 <= p -> 0 < L -> p * L <= MAX_SAFE_INTEGER ->
            status (fst (Sqlite.get_books q db)) = 200 /\
            data_of (fst (Sqlite.get_books q db)) =
              spec_page
                (Sqlite.order_by (default "title" (q_sort_by q))
                   (toUpperCase (default "asc" (q_order q))) kept)
                p L)).
Proof.
  intros q v Hv.
  assert (Hkept : forall l : list Book,
             Sqlite.where_ (Sqlite.where_conditions q) l =
             filter (available_selects v)
               (Sqlite.where_ (Sqlite.where_conditions (without_available q)) l)).
  { intros l. unfold Sqlite.where_conditions at 1. rewrite Hv.
    unfold Sqlite.where_conditions.
    cbn [q_available without_available q_category q_author].
    rewrite !app_nil_r.
    set (cs0 := (if truthy (q_category q) then _ else _) ++
                (if truthy (q_author q) then _ else _)).
    rewrite app_assoc. fold cs0.
    unfold available_selects.
    destruct (String.eqb v "true"); rewrite where_snoc; reflexivity. }
  split; [|split; [exact Hkept|split; [|split]]].
  - intros l. unfold Memory.filtered. rewrite Hv.
    change (Memory.filtered_by_text (without_available q) l)
      with (Memory.filtered_by_text q l).
    cbn [q_available without_available].
    destruct (Memory.filtered_by_text q l) as [l2|]; [|reflexivity].
    rewrite filter_throw_total. reflexivity.
  - intros h. split.
    { destruct (memory_list_run q h) as (h' & _ & E). now rewrite E. }
    destruct (Memory.valid q) eqn:Hq.
    + rewrite (memory_valid_not_rejected q h Hq).
      now rewrite (memory_valid_not_rejected (without_available q) h Hq).
    + unfold Memory.respond.
      rewrite (memory_invalid_run q h Hq).
      now rewrite (memory_invalid_run (without_available q) h Hq).
  - intros db.
    destruct (Sqlite.valid q) eqn:Hq.
    + rewrite (sqlite_valid_not_rejected q db Hq).
      now rewrite (sqlite_valid_not_rejected (without_available q) db Hq).
    + rewrite (sqlite_invalid_run q db Hq).
      now rewrite (sqlite_invalid_run (without_available q) db Hq).
  - intros db kept. unfold kept. rewrite <- Hkept.
    destruct (sqlite_page_is_selected q db) as [Hin Htotal].
    split; [exact Hin|]. split; [exact Htotal|].
    intros p L Hq Hp HL Hp1 HL0 Hsafe.
    destruct (sqlite_page q db p L Hq Hp HL Hp1 HL0 Hsafe) as (n & _ & E & _).
    rewrite E. split; reflexivity.
Qed.

(** C10 on the seed data with available=yes: record 3 alone has no copy,
    and it is the page of the SQLite variant. *)
Lemma C10_available_filter_witness :
  let q := mkQuery None None (Some "yes") None None None None in
  Memory.filtered q seed = Memory.Ok (filter (available_selects "yes") seed) /\
  map id (filter (available_selects "yes") seed) = [3] /\
  Sqlite.where_ (Sqlite.where_conditions q) seed = filter (available_selects "yes") seed /\
  map id (data_of (fst (Sqlite.get_books q (Sqlite.initial "t0")))) = [3].
Proof.
  intros q.
  destruct (C10_available_filter q "yes" eq_refl) as (Hm & Hs & _ & _ & Hd).
  split; [exact (Hm seed)|]. split; [reflexivity|]. split; [exact (Hs seed)|].
  destruct (Hd (Sqlite.initial "t0")) as (_ & _ & Hpage).
  destruct (Hpage 1 20 eq_refl eq_refl eq_refl ltac:(lia) ltac:(lia)
              ltac:(unfold MAX_SAFE_INTEGER; lia)) as [_ E].
  rewrite E. reflexivity.
Defined.

(* ========================================================================= *)
(** ** The key constraints are an invariant of the SQLite variant *)
(* ========================================================================= *)

Lemma constraints_initial (now : string) : Sqlite.constraints (Sqlite.initial now).
Proof.
  split; vm_compute;
    repeat (constructor; [simpl; intuition congruence|]); constructor.
Qed.

(** Deleting rows keeps a column free of duplicates. *)
Lemma delete_keeps_distinct {K : Type} (column : Book -> K) (v : Sqlite.sqlval)
  (table : list Book) :
  NoDup (map column table) ->
  NoDup (map column (filter (fun r => negb (Sqlite.id_eq v r)) table)).
Proof.
  induction table as [|r table IH]; intros Hnd; [exact Hnd|].
  apply NoDup_cons_iff in Hnd as [Hfresh Hrest]. cbn [filter].
  destruct (negb (Sqlite.id_eq v r)); [|now apply IH].
  cbn [map]. apply NoDup_cons; [|now apply IH].
  intros Hin. apply Hfresh.
  apply in_map_iff in Hin as (o & Heq & Ho). apply filter_In in Ho.
  rewrite <- Heq. apply in_map. tauto.
Qed.

Lemma constraints_insert now ti au isb y c a t db newid db' :
  Sqlite.constraints db ->
  Sqlite.insert_book now ti au isb y c a t db = Some (newid, db') ->
  Sqlite.constraints db'.
Proof.
  intros [Hid Hisbn] E.
  pose proof (sqlite_insert_fresh _ _ _ _ _ _ _ _ _ _ _ E) as (_ & _ & Hfresh).
  unfold Sqlite.insert_book in E.
  destruct (existsb _ _) eqn:Ex; [discriminate|].
  injection E as <- <-. unfold Sqlite.constraints. cbn [Sqlite.rows].
  rewrite !map_app. simpl. split.
  - apply NoDup_app; [assumption | repeat constructor; intros [] |].
    intros i Hi [<-|[]]. apply in_map_iff in Hi as (r & E & Hr).
    rewrite Forall_forall in Hfresh. apply Hfresh in Hr. lia.
  - apply NoDup_app; [assumption | repeat constructor; intros [] |].
    intros s Hs [<-|[]]. apply in_map_iff in Hs as (r & E & Hr).
    assert (H : existsb (fun r => String.eqb (isbn r) isb) (Sqlite.rows db) = true).
    { apply existsb_exists. exists r. split; [assumption|]. now apply String.eqb_eq. }
    congruence.
Qed.

Lemma NoDup_isbn_after_update (hit : Book -> bool) (upd : Book -> Book)
  (isb : string) (l : list Book) :
  NoDup (map id l) -> NoDup (map isbn l) ->
  (forall r, isbn (upd r) = isb) ->
  (forall r o, hit r = true -> hit o = true -> id r = id o) ->
  (forall r o, In r l -> In o l -> hit r = true -> id o <> id r -> isbn o <> isb) ->
  NoDup (map (fun r => isbn (if hit r then upd r else r)) l).
Proof.
  intros Hid Hisbn Hupd Hone Hfree.
  induction l as [|r l IH]; simpl; [constructor|].
  inversion Hid as [|? ? Hr Hl]; subst. inversion Hisbn as [|? ? Hr' Hl']; subst.
  constructor.
  - intros Hin. apply in_map_iff in Hin as (o & E & Ho).
    assert (Hne : id o <> id r).
    { intros Heq. apply Hr. rewrite <- Heq. now apply in_map. }
    destruct (hit r) eqn:Hvr; destruct (hit o) eqn:Hvo.
    + apply Hne. symmetry. now apply Hone.
    + rewrite Hupd in E. apply (Hfree r o); simpl; auto.
    + rewrite Hupd in E. apply (Hfree o r); simpl; auto.
    + apply Hr'. rewrite <- E. now apply in_map.
  - apply IH; try assumption.
    intros a b Ha Hb. apply Hfree; now right.
Qed.

Lemma constraints_update now ti au isb y c t a v db db' :
  Sqlite.constraints db ->
  Sqlite.update_book now ti au isb y c t a v db = Some db' ->
  Sqlite.constraints db'.
Proof.
  intros [Hid Hisbn] E. unfold Sqlite.update_book in E.
  destruct (existsb _ _) eqn:Ex; [discriminate|]. injection E as <-.
  unfold Sqlite.constraints. cbn [Sqlite.rows]. split.
  - rewrite map_map. erewrite map_ext; [exact Hid|].
    intros r. now destruct (Sqlite.id_eq v r).
  - rewrite map_map.
    apply (NoDup_isbn_after_update (Sqlite.id_eq v)
             (fun r => mkBook (id r) ti au isb y c a t (created_at r) now) isb);
      try assumption.
    + reflexivity.
    + intros r o Hr Ho. apply id_eq_true in Hr, Ho. congruence.
    + intros r o Hr Ho Hv Hne Heq.
      apply not_true_iff_false in Ex. apply Ex.
      apply existsb_exists. exists r. split; [assumption|]. rewrite Hv. simpl.
      apply existsb_exists. exists o. split; [assumption|].
      apply andb_true_iff. split.
      * now apply negb_true_iff, Z.eqb_neq.
      * now apply String.eqb_eq.
Qed.

(** Every request leaves a table that satisfies PRIMARY KEY(id) and
    UNIQUE(isbn); so does the seeded table. *)
Lemma constraints_preserved now m p q d db :
  Sqlite.constraints db ->
  Sqlite.constraints (snd (Sqlite.serve now m p q d db)).
Proof.
  intros Hc. destruct m, p; simpl; try assumption.
  - unfold Sqlite.get_books.
    repeat match goal with |- context [if ?b then _ else _] => destruct b end;
      simpl; try assumption.
    destruct (Sqlite.data_query _ _ _ _ _ _); simpl; assumption.
  - unfold Sqlite.get_book. destruct (Sqlite.select_by_id _ _); simpl; assumption.
  - unfold Sqlite.post_books.
    destruct (negb (required_present d)); simpl; try assumption.
    destruct (Sqlite.select_by_isbn _ _); simpl; try assumption.
    destruct (Sqlite.insert_book _ _ _ _ _ _ _ _ _) as [[newid db']|] eqn:E;
      simpl; try assumption.
    apply constraints_insert in E; [|assumption].
    destruct (Sqlite.select_by_id _ _); simpl; assumption.
  - unfold Sqlite.put_book.
    destruct (negb (required_present d)); simpl; try assumption.
    destruct (Sqlite.select_by_id _ _); simpl; try assumption.
    destruct (if negb _ then _ else _); simpl; try assumption.
    destruct (Sqlite.update_book _ _ _ _ _ _ _ _ _ _) as [db'|] eqn:E;
      simpl; try assumption.
    apply constraints_update in E; [|assumption].
    destruct (Sqlite.select_by_id _ _); simpl; assumption.
  - unfold Sqlite.delete_book. destruct (Sqlite.select_by_id _ _); simpl;
      try assumption.
    destruct Hc as [H1 H2]. split; simpl; now apply delete_keeps_distinct.
Qed.

Lemma constraints_reachable (now : string) (reqs : list Request) :
  Sqlite.constraints (snd (sqlite_run reqs (Sqlite.initial now))).
Proof.
  generalize (constraints_initial now). generalize (Sqlite.initial now).
  induction reqs as [|r reqs IH]; intros db Hc; simpl; [assumption|].
  pose proof (constraints_preserved (r_clock r) (r_method r) (r_path r)
                (r_query r) (r_body r) db Hc) as H.
  destruct (Sqlite.serve _ _ _ _ _ db) as [resp db1]. simpl in H.
  specialize (IH db1 H). now destruct (sqlite_run reqs db1).
Qed.

(* ========================================================================= *)
(** ** Further facts about the two stores *)
(* ========================================================================= *)

(** For a valid sort field, the comparator reads a string from both records
    or from neither: [toLowerCase] is never called on a non-string. *)
Lemma compared_values_same_kind (sort_by : string) (a b : Book) :
  In sort_by validSortFields ->
  match Memory.prop a sort_by, Memory.prop b sort_by with
  | VStr _, VStr _ => True
  | VStr _, _ | _, VStr _ => False
  | _, _ => True
  end.
Proof.
  intros [<-|[<-|[<-|[]]]]; cbn [Memory.prop String.eqb Ascii.eqb Bool.eqb];
    try exact I.
  destruct (published_year a), (published_year b); exact I.
Qed.

(** The array store numbers a created record by the length of the array. *)
Lemma memory_created_id (t1 t2 : string) (d : Draft) (h : Memory.Heap) :
  required_present d = true ->
  ~ In (default "" (d_isbn d)) (map isbn (Memory.store h)) ->
  location (fst (Memory.respond (Memory.post_books t1 t2 d) h))
  = Some (Z.of_nat (List.length (Memory.store h)) + 1).
Proof.
  intros Hreq Hnew. unfold Memory.respond, Memory.post_books. rewrite Hreq.
  cbn [negb]. unfold Memory.bind at 1.
  unfold Memory.arr_find, Memory.bind, Memory.read, Memory.ret, Memory.books.
  rewrite find_none_iff; [reflexivity|].
  intros b Hb. apply String.eqb_neq. intros E. apply Hnew.
  rewrite <- E. now apply in_map.
Qed.

(** The SQLite category filter keeps the rows whose category is the
    parameter itself, byte for byte. *)
Lemma sqlite_category_filter_exact (param : string) (l : list Book) (b : Book) :
  In b (Sqlite.where_ [Sqlite.CategoryEq param] l) <->
  In b l /\ category b = Some param.
Proof.
  unfold Sqlite.where_. rewrite filter_In. simpl. rewrite andb_true_r.
  destruct (category b) as [c|]; split; intros [H1 H2]; split; try assumption;
    try discriminate.
  - apply String.eqb_eq in H2. now subst.
  - injection H2 as ->. apply String.eqb_refl.
Qed.

(* ========================================================================= *)
(** ** Rendering an id and parsing it back *)
(* ========================================================================= *)

Lemma digits_after_positive (d : Decimal.uint) (p : positive) :
  digits 10 (NilEmpty.string_of_uint d) (Some (Z.pos p))
  = Some (Z.pos (Pos.of_uint_acc d p)).
Proof.
  revert p. induction d as [|d IH|d IH|d IH|d IH|d IH|d IH|d IH|d IH|d IH|d IH];
    intros p; cbn [NilEmpty.string_of_uint digits Pos.of_uint_acc];
    [reflexivity| | | | | | | | | | ];
    match goal with
    | |- context [digit_val 10 ?c] =>
        let v := eval vm_compute in (digit_val 10 c) in
        change (digit_val 10 c) with v
    end; cbv iota beta; rewrite <- IH; do 2 f_equal; lia.
Qed.

Lemma digits_after_zero (d : Decimal.uint) :
  digits 10 (NilEmpty.string_of_uint d) (Some 0) = Some (Z.of_N (Pos.of_uint d)).
Proof.
  induction d as [|d IH|d IH|d IH|d IH|d IH|d IH|d IH|d IH|d IH|d IH];
    cbn [NilEmpty.string_of_uint digits Pos.of_uint];
    [reflexivity| | | | | | | | | | ];
    match goal with
    | |- context [digit_val 10 ?c] =>
        let v := eval vm_compute in (digit_val 10 c) in
        change (digit_val 10 c) with v
    end; cbv iota beta; cbn [Z.mul Z.add];
    [exact IH | .. ]; apply digits_after_positive.
Qed.

Lemma digits_from_start (d : Decimal.uint) :
  d <> Decimal.Nil ->
  digits 10 (NilEmpty.string_of_uint d) None = Some (Z.of_N (Pos.of_uint d)).
Proof.
  intros Hd. rewrite <- digits_after_zero.
  destruct d; [contradiction| | | | | | | | | | ]; reflexivity.
Qed.

(** On a run of decimal digits, with or without a minus sign in front,
    [parseInt] has no white space to skip and no [0x] prefix to honour. *)
Lemma parseInt_digit_string (d : Decimal.uint) :
  d <> Decimal.Nil ->
  parseInt (NilEmpty.string_of_uint d) = Num (Z.of_N (Pos.of_uint d)) /\
  parseInt (String "-" (NilEmpty.string_of_uint d)) = Num (- Z.of_N (Pos.of_uint d)).
Proof.
  intros Hd. pose proof (digits_from_start d Hd) as E.
  destruct d as [|d|d|d|d|d|d|d|d|d|d]; [contradiction| | | | | | | | | | ];
    destruct d; unfold parseInt; cbn [NilEmpty.string_of_uint] in E |- *;
    cbn [skip_space];
    repeat match goal with
           | |- context [is_space ?c] =>
               let v := eval vm_compute in (is_space c) in
               change (is_space c) with v
           end;
    cbn -[digits Z.of_N Pos.of_uint Z.opp]; rewrite E; split; reflexivity.
Qed.

Lemma parseInt_id_to_string (z : Z) : parseInt (id_to_string z) = Num z.
Proof.
  unfold id_to_string. destruct z as [|p|p]; [reflexivity| | ];
    cbn [Z.to_int NilZero.string_of_int].
  - pose proof (DecimalPos.Unsigned.to_uint_nonnil p) as Hn.
    pose proof (DecimalPos.Unsigned.of_to p) as Hp.
    unfold NilZero.string_of_uint.
    destruct (Pos.to_uint p) eqn:E; [contradiction| | | | | | | | | | ];
      rewrite <- E in *;
      rewrite (proj1 (parseInt_digit_string _ Hn)), Hp; reflexivity.
  - pose proof (DecimalPos.Unsigned.to_uint_nonnil p) as Hn.
    pose proof (DecimalPos.Unsigned.of_to p) as Hp.
    unfold NilZero.string_of_uint.
    destruct (Pos.to_uint p) eqn:E; [contradiction| | | | | | | | | | ];
      rewrite <- E in *;
      rewrite (proj2 (parseInt_digit_string _ Hn)), Hp; reflexivity.
Qed.

(* ========================================================================= *)
(** ** Create, then follow the Location header *)
(* ========================================================================= *)

Lemma find_in_appended {A : Type} (p : A -> bool) (l : list A) (x : A) :
  List.find p (l ++ [x]) =
    match List.find p l with
    | Some y => Some y
    | None => if p x then Some x else None
    end.
Proof.
  induction l as [|y l IH]; simpl; [reflexivity|].
  destruct (p y); [reflexivity | exact IH].
Qed.

Lemma max_id_bounds (l : list Book) (r : Book) :
  In r l -> id r <= Sqlite.max_id l.
Proof.
  induction l as [|x l IH]; simpl; [intros []|].
  intros [->|H]; [lia|]. apply IH in H. lia.
Qed.

Lemma insert_book_fresh now ti au isb y c a t db :
  (forall r, In r (Sqlite.rows db) -> isbn r <> isb) ->
  Sqlite.insert_book now ti au isb y c a t db =
    let newid := Z.max (Sqlite.seq db) (Sqlite.max_id (Sqlite.rows db)) + 1 in
    Some (newid,
          Sqlite.mkDB (Sqlite.rows db ++ [mkBook newid ti au isb y c a t now now]) newid).
Proof.
  intros Hnew. unfold Sqlite.insert_book.
  replace (existsb _ (Sqlite.rows db)) with false; [reflexivity|].
  symmetry. apply not_true_is_false. intros H.
  apply existsb_exists in H as (r & Hr & E). apply String.eqb_eq in E.
  now apply (Hnew r Hr).
Qed.

(** POST /books in the SQLite variant with a complete draft and an isbn
    that no row holds. *)
Lemma sqlite_post_fresh (now : string) (d : Draft) (db : Sqlite.DB) :
  required_present d = true ->
  (forall r, In r (Sqlite.rows db) -> isbn r <> default "" (d_isbn d)) ->
  let nb := sqlite_new_book now d db in
  let db' := Sqlite.mkDB (Sqlite.rows db ++ [nb]) (id nb) in
  Sqlite.select_by_id (Sqlite.SInt (id nb)) db' = Some nb /\
  Sqlite.post_books now d db = (mkResponse 201 (Some (id nb)) (BookBody nb), db').
Proof.
  intros Hreq Hnew nb db'.
  assert (Hold : forall r, In r (Sqlite.rows db) -> id r < id nb).
  { intros r Hr. apply max_id_bounds in Hr. unfold nb, sqlite_new_book. cbn [id]. lia. }
  assert (Hsel : Sqlite.select_by_id (Sqlite.SInt (id nb)) db' = Some nb).
  { unfold Sqlite.select_by_id, db'. cbn [Sqlite.rows]. rewrite find_in_appended.
    rewrite find_none_iff.
    - simpl. now rewrite Z.eqb_refl.
    - intros r Hr. apply Hold in Hr. cbn [Sqlite.id_eq]. apply Z.eqb_neq. lia. }
  split; [exact Hsel|].
  unfold Sqlite.post_books. rewrite Hreq. cbn [negb].
  unfold Sqlite.select_by_isbn. rewrite find_none_iff
    by (intros r Hr; apply String.eqb_neq; now apply Hnew).
  rewrite (insert_book_fresh now _ _ _ _ _ _ _ db Hnew). cbv beta iota zeta.
  match goal with
  | |- context [Sqlite.select_by_id ?v ?x] =>
      change (Sqlite.select_by_id v x)
        with (Sqlite.select_by_id (Sqlite.SInt (id nb)) db')
  end.
  now rewrite Hsel.
Qed.

(** X1.  SQLite variant, POST /books with title, author and isbn present
    and an isbn that no row holds: the answer is 201 with the new row as body
    and its id in the Location header; the row is appended to the table with
    an id above every id in the table and above the sequence counter, both
    timestamps set to the current time and copies_available equal to
    copies_total (1 by default); and, the new id being a safe integer (at
    most 2^53 - 1, so that JavaScript holds it exactly), GET on the path of
    the Location header returns that row. *)
Theorem X1_sqlite_create_then_get :
  forall (now : string) (d : Draft) (db : Sqlite.DB),
    required_present d = true ->
    (forall r, In r (Sqlite.rows db) -> isbn r <> default "" (d_isbn d)) ->
    let nb := sqlite_new_book now d db in
    let db' := Sqlite.mkDB (Sqlite.rows db ++ [nb]) (id nb) in
    Sqlite.post_books now d db = (mkResponse 201 (Some (id nb)) (BookBody nb), db') /\
    Sqlite.seq db < id nb /\
    (forall r, In r (Sqlite.rows db) -> id r < id nb) /\
    (id nb <= MAX_SAFE_INTEGER ->
     Sqlite.get_book (id_to_string (id nb)) db' = (json 200 (BookBody nb), db')).
Proof.
  intros now d db Hreq Hnew nb db'.
  destruct (sqlite_post_fresh now d db Hreq Hnew) as [Hsel Hpost].
  split; [exact Hpost|]. split; [|split].
  - unfold nb, sqlite_new_book. cbn [id]. lia.
  - intros r Hr. apply max_id_bounds in Hr. unfold nb, sqlite_new_book. cbn [id]. lia.
  - intros _. unfold Sqlite.get_book. rewrite parseInt_id_to_string.
    cbn [Sqlite.bind_number]. fold nb db' in Hsel. now rewrite Hsel.
Qed.

(** X1 on the seeded table with a new book. *)
Lemma X1_sqlite_create_then_get_witness :
  let db := Sqlite.initial "t0" in
  let nb := sqlite_new_book "t1" dune db in
  id nb = 6 /\
  Sqlite.get_book "6" (Sqlite.mkDB (Sqlite.rows db ++ [nb]) 6) =
    (json 200 (BookBody nb), Sqlite.mkDB (Sqlite.rows db ++ [nb]) 6).
Proof.
  intros db nb. split; [reflexivity|].
  assert (Hnew : forall r, In r (Sqlite.rows db) -> isbn r <> default "" (d_isbn dune)).
  { intros r Hr E.
    assert (Hall : forallb (fun r => negb (String.eqb (isbn r) (default "" (d_isbn dune))))
                     (Sqlite.rows db) = true) by (vm_compute; reflexivity).
    rewrite forallb_forall in Hall. specialize (Hall r Hr).
    apply negb_true_iff, String.eqb_neq in Hall. exact (Hall E). }
  apply (proj2 (proj2 (proj2 (X1_sqlite_create_then_get "t1" dune db eq_refl Hnew)))).
  vm_compute. discriminate.
Defined.

(** X2.  Array store, POST /books with title, author and isbn present and
    an isbn that no record holds: the answer is 201; the new record is pushed
    at the end of the array with id = length + 1, copies_available equal to
    copies_total (1 by default), a published_year of 0 and an empty category
    stored as null.  GET on the path of the Location header returns the new
    record when no older record has that id, and otherwise returns the first
    older record that has it. *)
Theorem X2_memory_create_then_get :
  forall (t1 t2 : string) (d : Draft) (h : Memory.Heap),
    required_present d = true ->
    (forall b, In b (Memory.store h) -> isbn b <> default "" (d_isbn d)) ->
    let nb := memory_new_book t1 t2 d (Memory.store h) in
    let h' := Memory.mkHeap (Memory.store h ++ [nb]) (Memory.locals h) in
    Memory.post_books t1 t2 d h =
      (Memory.Ok (mkResponse 201 (Some (id nb)) (BookBody nb)), h') /\
    Memory.get_book (id_to_string (id nb)) h' =
      (Memory.Ok (json 200 (BookBody
                              match List.find (fun b => id b =? id nb) (Memory.store h) with
                              | Some older => older
                              | None => nb
                              end)), h').
Proof.
  intros t1 t2 d h Hreq Hnew nb h'. split.
  - unfold Memory.post_books. rewrite Hreq. cbn [negb].
    unfold Memory.bind at 1.
    unfold Memory.arr_find, Memory.bind, Memory.read, Memory.ret, Memory.books,
      Memory.arr_length, Memory.arr_push, Memory.write.
    unfold Memory.store in Hnew. rewrite find_none_iff; [reflexivity|].
    intros b Hb. apply String.eqb_neq. now apply Hnew.
  - unfold Memory.get_book. rewrite parseInt_id_to_string.
    unfold Memory.arr_find, Memory.read, Memory.ret, Memory.books, Memory.bind.
    unfold h'. cbn [Memory.global fst snd].
    rewrite find_in_appended. unfold Memory.id_is.
    destruct (List.find (fun b => id b =? id nb) (Memory.store h)); [reflexivity|].
    now rewrite Z.eqb_refl.
Qed.

(** X2 on the seed data: the sixth record is found under /books/6. *)
Lemma X2_memory_create_then_get_witness :
  let nb := memory_new_book "t1" "t2" dune seed in
  Memory.get_book "6" (Memory.mkHeap (seed ++ [nb]) []) =
    (Memory.Ok (json 200 (BookBody nb)), Memory.mkHeap (seed ++ [nb]) []).
Proof.
  intros nb.
  assert (Hnew : forall b, In b (Memory.store Memory.initial) ->
                           isbn b <> default "" (d_isbn dune)).
  { intros b Hb E.
    assert (Hall : forallb (fun r => negb (String.eqb (isbn r) (default "" (d_isbn dune))))
                     (Memory.store Memory.initial) = true) by (vm_compute; reflexivity).
    rewrite forallb_forall in Hall. specialize (Hall b Hb).
    apply negb_true_iff, String.eqb_neq in Hall. exact (Hall E). }
  exact (proj2 (X2_memory_create_then_get "t1" "t2" dune Memory.initial eq_refl Hnew)).
Defined.

(* ========================================================================= *)
(** ** Rejected requests *)
(* ========================================================================= *)

(** X3.  The required-field check of POST /books (both variants) and of
    PUT /books/:id: when title, author or isbn is missing or empty, the answer
    is 400 VALIDATION_ERROR, its details name exactly the fields that are
    missing or empty, in the order title, author, isbn, and the store is left
    as it was, whatever it holds and whatever the id. *)
Theorem X3_required_fields :
  forall (d : Draft),
    required_present d = false ->
    missing_fields d <> [] /\
    (forall f, In f (missing_fields d) <->
               (f = "title" /\ truthy (d_title d) = false) \/
               (f = "author" /\ truthy (d_author d) = false) \/
               (f = "isbn" /\ truthy (d_isbn d) = false)) /\
    missing_fields d = filter (fun f => member f (missing_fields d))
                         ["title"; "author"; "isbn"] /\
    (forall t1 t2 h,
        Memory.serve t1 t2 POST Books no_query d h = (validation_error d, h)) /\
    (forall now db,
        Sqlite.serve now POST Books no_query d db = (validation_error d, db)) /\
    (forall now seg db,
        Sqlite.serve now PUT (BooksId seg) no_query d db = (validation_error d, db)).
Proof.
  intros d Hreq. unfold required_present in Hreq. unfold missing_fields.
  split; [|split; [|split; [|split; [|split]]]].
  - destruct (truthy (d_title d)), (truthy (d_author d)), (truthy (d_isbn d));
      simpl in *; congruence.
  - intros f.
    destruct (truthy (d_title d)), (truthy (d_author d)), (truthy (d_isbn d));
      simpl; intuition (subst; auto; try discriminate).
  - destruct (truthy (d_title d)), (truthy (d_author d)), (truthy (d_isbn d));
      reflexivity.
  - intros t1 t2 h. unfold Memory.serve, Memory.route, Memory.respond,
      Memory.post_books, required_present. now rewrite Hreq.
  - intros now db. unfold Sqlite.serve, Sqlite.post_books, required_present.
    now rewrite Hreq.
  - intros now seg db. unfold Sqlite.serve, Sqlite.put_book, required_present.
    now rewrite Hreq.
Qed.

(** X3 on a draft without author. *)
Lemma X3_required_fields_witness :
  let d := mkDraft (Some "Dune") None (Some "978-0441013593") None None None in
  missing_fields d = ["author"] /\
  Memory.serve "t1" "t2" POST Books no_query d Memory.initial
  = (validation_error d, Memory.initial).
Proof.
  intros d.
  destruct (X3_required_fields d eq_refl) as (_ & _ & _ & Hm & _).
  split; [reflexivity | apply Hm].
Defined.

Lemma find_some_after_map {A : Type} (p : A -> bool) (f : A -> A) (l : list A) (x : A) :
  (forall y, p (f y) = p y) -> List.find p l = Some x ->
  List.find p (map f l) = Some (f x).
Proof.
  intros H E. rewrite find_map_same_test by exact H. now rewrite E.
Qed.

(** The outcomes of POST /books in the SQLite variant. *)
Lemma sqlite_post_outcomes (now : string) (d : Draft) (db : Sqlite.DB) :
  Sqlite.post_books now d db = (validation_error d, db) \/
  (exists e, Sqlite.post_books now d db = (duplicate_isbn (id e), db)) \/
  (exists nb db', Sqlite.post_books now d db =
                    (mkResponse 201 (Some (id nb)) (BookBody nb), db')).
Proof.
  destruct (required_present d) eqn:Hreq.
  - destruct (Sqlite.select_by_isbn (default "" (d_isbn d)) db) as [e|] eqn:E.
    + right. left. exists e. unfold Sqlite.post_books. now rewrite Hreq, E.
    + right. right. eexists _, _.
      apply (sqlite_post_fresh now d db Hreq).
      intros r Hr Heq. unfold Sqlite.select_by_isbn in E.
      apply (find_none _ _ E) in Hr. rewrite Heq, String.eqb_refl in Hr. discriminate.
  - left. unfold Sqlite.post_books. now rewrite Hreq.
Qed.

(** The outcomes of PUT /books/:id: either the table is left as it was, or
    the answer is 200. *)
Lemma sqlite_put_outcomes (now seg : string) (d : Draft) (db : Sqlite.DB) :
  snd (Sqlite.put_book now seg d db) = db \/
  exists u, fst (Sqlite.put_book now seg d db) = json 200 (BookBody u).
Proof.
  unfold Sqlite.put_book.
  destruct (negb (required_present d)); [now left|].
  destruct (Sqlite.select_by_id _ db) as [e|] eqn:Esel; [|now left].
  destruct (if negb _ then _ else _); [now left|].
  destruct (Sqlite.update_book _ _ _ _ _ _ _ _ _ _) as [db'|] eqn:Eupd; [|now left].
  unfold Sqlite.update_book in Eupd.
  destruct (existsb _ _); [discriminate|]. injection Eupd as <-.
  unfold Sqlite.select_by_id in *. cbn [Sqlite.rows].
  erewrite find_some_after_map; [right; eexists; reflexivity | | exact Esel].
  intros r. destruct (Sqlite.id_eq _ r) eqn:E; [|exact E].
  destruct (Sqlite.bind_number (parseInt seg)); simpl in *; congruence.
Qed.

(** The outcomes of POST /books in the array store. *)
Lemma memory_post_outcomes (t1 t2 : string) (d : Draft) (h : Memory.Heap) :
  Memory.post_books t1 t2 d h = (Memory.Ok (validation_error d), h) \/
  (exists e, Memory.post_books t1 t2 d h = (Memory.Ok (duplicate_isbn (id e)), h)) \/
  (let nb := memory_new_book t1 t2 d (Memory.store h) in
   List.find (fun b => String.eqb (isbn b) (default "" (d_isbn d))) (Memory.store h)
   = None /\
   Memory.post_books t1 t2 d h =
     (Memory.Ok (mkResponse 201 (Some (id nb)) (BookBody nb)),
      Memory.mkHeap (Memory.store h ++ [nb]) (Memory.locals h))).
Proof.
  unfold Memory.post_books, Memory.store.
  destruct (required_present d); cbn [negb]; [|now left].
  destruct (List.find (fun b => String.eqb (isbn b) (default "" (d_isbn d)))
              (Memory.global h)) as [e|] eqn:E.
  - right. left. exists e. unfold Memory.bind at 1.
    unfold Memory.arr_find, Memory.bind, Memory.read, Memory.ret, Memory.books.
    now rewrite E.
  - right. right. split; [reflexivity|]. unfold Memory.bind at 1.
    unfold Memory.arr_find, Memory.bind, Memory.read, Memory.ret, Memory.books,
      Memory.arr_length, Memory.arr_push, Memory.write.
    now rewrite E.
Qed.

Lemma memory_error_keeps_store t1 t2 m p q d h :
  400 <= status (fst (Memory.serve t1 t2 m p q d h)) ->
  Memory.store (snd (Memory.serve t1 t2 m p q d h)) = Memory.store h.
Proof.
  unfold Memory.serve, Memory.route.
  destruct m, p; try (intros _; reflexivity).
  - intros _. destruct (memory_list_run q h) as (h' & G & E). now rewrite E.
  - intros _. unfold Memory.respond, Memory.get_book, Memory.arr_find,
      Memory.read, Memory.ret, Memory.bind.
    now destruct (List.find _ _).
  - unfold Memory.respond.
    destruct (memory_post_outcomes t1 t2 d h) as [E|[(e & E)|(_ & E)]];
      rewrite E; cbn [fst snd status json]; try reflexivity. lia.
  - unfold Memory.respond, Memory.delete_book, Memory.arr_findIndex,
      Memory.read, Memory.ret, Memory.arr_splice1, Memory.write, Memory.books,
      Memory.bind.
    destruct (findIndex _ _ =? -1); [reflexivity|]. cbn. lia.
Qed.

Lemma sqlite_error_keeps_table now m p q d db :
  400 <= status (fst (Sqlite.serve now m p q d db)) ->
  snd (Sqlite.serve now m p q d db) = db.
Proof.
  unfold Sqlite.serve. destruct m, p; try (intros _; reflexivity).
  - intros _. unfold Sqlite.get_books.
    repeat match goal with |- context [if ?b then _ else _] => destruct b end;
      try reflexivity.
    now destruct (Sqlite.data_query _ _ _ _ _ _).
  - intros _. unfold Sqlite.get_book. now destruct (Sqlite.select_by_id _ _).
  - destruct (sqlite_post_outcomes now d db) as [E|[(e & E)|(nb & db' & E)]];
      rewrite E; cbn [fst snd status json]; try reflexivity. lia.
  - destruct (sqlite_put_outcomes now id_segment d db) as [E|(u & E)]; [now intros _|].
    rewrite E. cbn [status json]. lia.
  - unfold Sqlite.delete_book. destruct (Sqlite.select_by_id _ _); [|reflexivity].
    cbn [fst snd status json]. lia.
Qed.

(** X4.  A request that is answered with an error status (400 or above)
    has no effect on the stored records, in either variant and on every
    route: validation failures, duplicates, unknown ids, unknown routes, an
    exception thrown while filtering and a failing SQL statement all leave
    the store as it was. *)
Theorem X4_errors_change_nothing :
  (forall t1 t2 m p q d h,
      400 <= status (fst (Memory.serve t1 t2 m p q d h)) ->
      Memory.store (snd (Memory.serve t1 t2 m p q d h)) = Memory.store h)
  /\
  (forall now m p q d db,
      400 <= status (fst (Sqlite.serve now m p q d db)) ->
      snd (Sqlite.serve now m p q d db) = db).
Proof.
  split.
  - exact memory_error_keeps_store.
  - exact sqlite_error_keeps_table.
Qed.

(** X4 on a duplicate isbn and on an unknown id. *)
Lemma X4_errors_change_nothing_witness :
  Memory.store (snd (Memory.serve "t1" "t2" DELETE (BooksId "99") no_query no_draft
                       Memory.initial)) = seed /\
  snd (Sqlite.serve "t1" POST Books no_query hobbit_revised (Sqlite.initial "t0"))
  = Sqlite.initial "t0".
Proof.
  destruct X4_errors_change_nothing as [Hm Hs]. split.
  - apply (Hm "t1" "t2" DELETE (BooksId "99") no_query no_draft Memory.initial).
    vm_compute. discriminate.
  - apply (Hs "t1" POST Books no_query hobbit_revised (Sqlite.initial "t0")).
    vm_compute. discriminate.
Defined.

(* ========================================================================= *)
(** ** Looking a record up and deleting it *)
(* ========================================================================= *)

Lemma find_first_split {A : Type} (p : A -> bool) (l : list A) :
  (exists x, In x l /\ p x = true) ->
  exists l1 b l2, l = l1 ++ b :: l2 /\ p b = true /\
                  (forall x, In x l1 -> p x = false) /\
                  List.find p l = Some b.
Proof.
  induction l as [|y l IH]; intros (x & Hx & Hp); [contradiction|].
  destruct (p y) eqn:Hy.
  - exists [], y, l. simpl. rewrite Hy. intuition.
  - destruct IH as (l1 & b & l2 & -> & Hb & Hl1 & Hf).
    { destruct Hx as [->|Hx]; [congruence|]. now exists x. }
    exists (y :: l1), b, l2. simpl. rewrite Hy. repeat split; try assumption.
    intros z [<-|Hz]; auto.
Qed.

Lemma findIndex_first {A : Type} (p : A -> bool) (l1 l2 : list A) (b : A) :
  (forall x, In x l1 -> p x = false) -> p b = true ->
  findIndex p (l1 ++ b :: l2) = Z.of_nat (List.length l1).
Proof.
  intros Hl1 Hb. induction l1 as [|y l1 IH]; simpl.
  - now rewrite Hb.
  - rewrite (Hl1 y (or_introl eq_refl)), IH by (intros; apply Hl1; now right).
    destruct (Z.ltb_spec (Z.of_nat (List.length l1)) 0); lia.
Qed.

Lemma splice1_at {A : Type} (l1 l2 : list A) (b : A) :
  splice1 (Z.of_nat (List.length l1)) (l1 ++ b :: l2) = l1 ++ l2.
Proof.
  unfold splice1. rewrite Nat2Z.id.
  rewrite firstn_app, Nat.sub_diag, firstn_all, firstn_O, app_nil_r.
  f_equal. change (S (List.length l1)) with (1 + List.length l1)%nat.
  rewrite <- skipn_skipn.
  rewrite skipn_app, Nat.sub_diag, skipn_all. reflexivity.
Qed.

Lemma id_is_num (n : Z) (b : Book) : Memory.id_is (Num n) b = true <-> id b = n.
Proof. simpl. apply Z.eqb_eq. Qed.

(** DELETE /books/:id on the array store when some record has the id. *)
Lemma memory_delete_run (seg : string) (n : Z) (h : Memory.Heap) :
  parseInt seg = Num n ->
  (exists b, In b (Memory.store h) /\ id b = n) ->
  exists l1 b l2,
    Memory.store h = l1 ++ b :: l2 /\ id b = n /\
    (forall x, In x l1 -> id x <> n) /\
    Memory.delete_book seg h =
      (Memory.Ok (json 204 EmptyBody), Memory.mkHeap (l1 ++ l2) (Memory.locals h)).
Proof.
  intros Hn (b0 & Hb0 & Hid0).
  destruct (find_first_split (Memory.id_is (Num n)) (Memory.store h))
    as (l1 & b & l2 & E & Hb & Hl1 & _).
  { exists b0. split; [assumption | now apply id_is_num]. }
  exists l1, b, l2. split; [assumption|]. split; [now apply id_is_num|]. split.
  - intros x Hx Hxn. apply id_is_num in Hxn. rewrite (Hl1 x Hx) in Hxn. discriminate.
  - unfold Memory.delete_book. rewrite Hn.
    unfold Memory.arr_findIndex, Memory.arr_splice1, Memory.read, Memory.ret,
      Memory.write, Memory.books, Memory.bind.
    unfold Memory.store in E. rewrite E.
    rewrite (findIndex_first _ l1 l2 b Hl1 Hb).
    destruct (Z.eqb_spec (Z.of_nat (List.length l1)) (-1)); [lia|].
    now rewrite E, splice1_at.
Qed.

(** X5.  Array store, DELETE /books/:id when some record has the id: the
    answer is 204, exactly the first record with that id is taken out of the
    array, and all the other records stay, in their order.  When ids are
    pairwise distinct, GET and DELETE on the same id are then answered 404. *)
Theorem X5_memory_delete :
  forall (t1 t2 seg : string) (q : Query) (d : Draft) (n : Z) (h : Memory.Heap),
    parseInt seg = Num n ->
    (exists b, In b (Memory.store h) /\ id b = n) ->
    exists l1 b l2,
      Memory.store h = l1 ++ b :: l2 /\ id b = n /\
      (forall x, In x l1 -> id x <> n) /\
      let h' := Memory.mkHeap (l1 ++ l2) (Memory.locals h) in
      Memory.serve t1 t2 DELETE (BooksId seg) q d h
        = (json 204 EmptyBody, h') /\
      (NoDup (map id (Memory.store h)) ->
       Memory.serve t1 t2 GET (BooksId seg) q d h'
         = (not_found (Num n), h') /\
       Memory.serve t1 t2 DELETE (BooksId seg) q d h'
         = (not_found (Num n), h')).
Proof.
  intros t1 t2 seg q d n h Hn Hex.
  destruct (memory_delete_run seg n h Hn Hex) as (l1 & b & l2 & E & Hb & Hl1 & Hrun).
  exists l1, b, l2. repeat (split; [assumption|]). split.
  - unfold Memory.serve, Memory.route, Memory.respond. now rewrite Hrun.
  - intros Hnd. rewrite <- Hn. apply memory_lookup_absent.
    intros x Hx. rewrite Hn. simpl. apply Z.eqb_neq. intros Hxn.
    unfold Memory.store in Hx. simpl in Hx.
    rewrite E, map_app in Hnd. simpl in Hnd.
    apply NoDup_remove_2 in Hnd. apply Hnd.
    rewrite <- map_app. apply in_map_iff. exists x. split; [congruence | assumption].
Qed.

(** X5 on the seed data: deleting record 3. *)
Lemma X5_memory_delete_witness :
  exists l1 b l2,
    seed = l1 ++ b :: l2 /\ id b = 3 /\
    Memory.serve "" "" DELETE (BooksId "3") no_query no_draft Memory.initial
      = (json 204 EmptyBody, Memory.mkHeap (l1 ++ l2) []).
Proof.
  destruct (X5_memory_delete "" "" "3" no_query no_draft 3 Memory.initial eq_refl)
    as (l1 & b & l2 & E & Hb & _ & Hrun & _).
  - exists (nth 2 seed (mkBook 0 "" "" "" None None 0 0 "" "")).
    split; [simpl; auto | reflexivity].
  - exists l1, b, l2. auto.
Defined.

(** DELETE /books/:id in the SQLite variant when some row has the id. *)
Lemma sqlite_delete_run (seg : string) (n : Z) (db : Sqlite.DB) :
  parseInt seg = Num n ->
  (exists r, In r (Sqlite.rows db) /\ id r = n) ->
  Sqlite.delete_book seg db =
    (json 204 EmptyBody,
     Sqlite.mkDB (filter (fun r => negb (id r =? n)) (Sqlite.rows db)) (Sqlite.seq db)).
Proof.
  intros Hn (r & Hr & Hid). unfold Sqlite.delete_book. rewrite Hn.
  cbn [Sqlite.bind_number].
  destruct (Sqlite.select_by_id (Sqlite.SInt n) db) as [e|] eqn:E; [reflexivity|].
  unfold Sqlite.select_by_id in E. apply (find_none _ _ E) in Hr.
  simpl in Hr. apply Z.eqb_neq in Hr. contradiction.
Qed.

(** X6.  SQLite variant, DELETE /books/:id when some row has the id: the
    answer is 204; the rows with that id are gone and every other row stays,
    in table order; the sequence counter is not lowered; GET, PUT and DELETE
    on the same id are then answered 404. *)
Theorem X6_sqlite_delete :
  forall (now seg : string) (q : Query) (d : Draft) (n : Z) (db : Sqlite.DB),
    parseInt seg = Num n ->
    (exists r, In r (Sqlite.rows db) /\ id r = n) ->
    let db' := Sqlite.mkDB (filter (fun r => negb (id r =? n)) (Sqlite.rows db))
                           (Sqlite.seq db) in
    Sqlite.serve now DELETE (BooksId seg) q d db = (json 204 EmptyBody, db') /\
    (forall r, In r (Sqlite.rows db') <-> In r (Sqlite.rows db) /\ id r <> n) /\
    Sqlite.serve now GET (BooksId seg) q d db' = (not_found (Num n), db') /\
    Sqlite.serve now DELETE (BooksId seg) q d db' = (not_found (Num n), db') /\
    (required_present d = true ->
     Sqlite.serve now PUT (BooksId seg) q d db' = (not_found (Num n), db')).
Proof.
  intros now seg q d n db Hn Hex db'.
  assert (Hgone : forall r, In r (Sqlite.rows db') -> id r <> n).
  { intros r Hr. unfold db' in Hr. cbn [Sqlite.rows] in Hr.
    apply filter_In in Hr as [_ Hr]. now apply negb_true_iff, Z.eqb_neq in Hr. }
  split; [|split; [|split; [|split]]].
  - cbn [Sqlite.serve]. now apply sqlite_delete_run.
  - intros r. unfold db'. cbn [Sqlite.rows]. rewrite filter_In, negb_true_iff, Z.eqb_neq.
    reflexivity.
  - rewrite <- Hn. apply sqlite_lookup_absent.
    intros r Hr. rewrite Hn. simpl. apply Z.eqb_neq. now apply Hgone.
  - rewrite <- Hn. apply sqlite_lookup_absent.
    intros r Hr. rewrite Hn. simpl. apply Z.eqb_neq. now apply Hgone.
  - intros Hreq. cbn [Sqlite.serve]. rewrite <- Hn. apply put_book_absent; [assumption|].
    intros r Hr. rewrite Hn. simpl. intros E. injection E as E.
    apply Hgone in Hr. congruence.
Qed.

(** X6 on the seeded table: deleting row 3. *)
Lemma X6_sqlite_delete_witness :
  let db := Sqlite.initial "t0" in
  let db' := Sqlite.mkDB (filter (fun r => negb (id r =? 3)) (Sqlite.rows db)) 5 in
  Sqlite.serve "t1" DELETE (BooksId "3") no_query no_draft db = (json 204 EmptyBody, db') /\
  Sqlite.serve "t1" GET (BooksId "3") no_query no_draft db' = (not_found (Num 3), db').
Proof.
  intros db db'.
  destruct (X6_sqlite_delete "t1" "3" no_query no_draft 3 db eq_refl)
    as (H1 & _ & H2 & _).
  - exists (nth 2 (Sqlite.rows db) (mkBook 0 "" "" "" None None 0 0 "" "")).
    split; [simpl; auto | reflexivity].
  - split; [exact H1 | exact H2].
Defined.

(** X7.  GET /books/:id, both variants: the answer is either 404 or 200
    with a stored record whose id is the number [parseInt] reads from the
    path segment, and the store is left as it was.  When ids are pairwise
    distinct, GET on the decimal text of a stored record's id returns that
    record, provided the id is a safe integer (between -(2^53 - 1) and
    2^53 - 1, so that JavaScript holds it exactly). *)
Theorem X7_get_by_id :
  (forall t1 t2 seg q d h,
      snd (Memory.serve t1 t2 GET (BooksId seg) q d h) = h /\
      (fst (Memory.serve t1 t2 GET (BooksId seg) q d h) = not_found (parseInt seg) \/
       exists b, In b (Memory.store h) /\ parseInt seg = Num (id b) /\
                 fst (Memory.serve t1 t2 GET (BooksId seg) q d h) = json 200 (BookBody b)))
  /\
  (forall now seg q d db,
      snd (Sqlite.serve now GET (BooksId seg) q d db) = db /\
      (fst (Sqlite.serve now GET (BooksId seg) q d db) = not_found (parseInt seg) \/
       exists b, In b (Sqlite.rows db) /\ parseInt seg = Num (id b) /\
                 fst (Sqlite.serve now GET (BooksId seg) q d db) = json 200 (BookBody b)))
  /\
  (forall t1 t2 q d h b,
      NoDup (map id (Memory.store h)) -> In b (Memory.store h) ->
      - MAX_SAFE_INTEGER <= id b <= MAX_SAFE_INTEGER ->
      Memory.serve t1 t2 GET (BooksId (id_to_string (id b))) q d h
      = (json 200 (BookBody b), h))
  /\
  (forall now q d db b,
      NoDup (map id (Sqlite.rows db)) -> In b (Sqlite.rows db) ->
      - MAX_SAFE_INTEGER <= id b <= MAX_SAFE_INTEGER ->
      Sqlite.serve now GET (BooksId (id_to_string (id b))) q d db
      = (json 200 (BookBody b), db)).
Proof.
  split; [|split; [|split]].
  - intros t1 t2 seg q d h.
    unfold Memory.serve, Memory.route, Memory.respond, Memory.get_book,
      Memory.arr_find, Memory.read, Memory.ret, Memory.books, Memory.bind.
    destruct (List.find _ _) as [b|] eqn:E; cbn [fst snd]; split; auto.
    right. exists b. apply find_some in E as [Hin Hp].
    destruct (parseInt seg) as [| |n]; try discriminate.
    apply id_is_num in Hp. subst n. auto.
  - intros now seg q d db. cbn [Sqlite.serve]. unfold Sqlite.get_book, Sqlite.select_by_id.
    destruct (List.find _ _) as [b|] eqn:E; cbn [fst snd]; split; auto.
    right. exists b. apply find_some in E as [Hin Hp].
    destruct (parseInt seg) as [| |n]; try discriminate.
    simpl in Hp. apply Z.eqb_eq in Hp. subst n. auto.
  - intros t1 t2 q d h b Hnd Hb _.
    unfold Memory.serve, Memory.route, Memory.respond, Memory.get_book,
      Memory.arr_find, Memory.read, Memory.ret, Memory.books, Memory.bind.
    rewrite parseInt_id_to_string.
    pose proof (select_by_id_row (Sqlite.mkDB (Memory.store h) 0) b Hnd Hb) as E.
    unfold Sqlite.select_by_id in E. cbn [Sqlite.rows] in E.
    change (Sqlite.id_eq (Sqlite.SInt (id b))) with (Memory.id_is (Num (id b))) in E.
    unfold Memory.store in E. now rewrite E.
  - intros now q d db b Hnd Hb _. cbn [Sqlite.serve]. unfold Sqlite.get_book.
    rewrite parseInt_id_to_string. cbn [Sqlite.bind_number].
    now rewrite (select_by_id_row db b Hnd Hb).
Qed.

(** X7 on the seed data: record 4 under /books/4. *)
Lemma X7_get_by_id_witness :
  let b := nth 3 seed (mkBook 0 "" "" "" None None 0 0 "" "") in
  Memory.serve "t1" "t2" GET (BooksId "4") no_query no_draft Memory.initial
  = (json 200 (BookBody b), Memory.initial).
Proof.
  intros b.
  destruct X7_get_by_id as (_ & _ & Hm & _).
  apply (Hm "t1" "t2" no_query no_draft Memory.initial b).
  - vm_compute. repeat (constructor; [simpl; intuition congruence|]). constructor.
  - simpl. auto 6.
  - vm_compute. split; discriminate.
Defined.

(* ========================================================================= *)
(** ** Invariants over sequences of requests *)
(* ========================================================================= *)

Lemma memory_isbn_preserved t1 t2 m p q d h :
  NoDup (map isbn (Memory.store h)) ->
  NoDup (map isbn (Memory.store (snd (Memory.serve t1 t2 m p q d h)))).
Proof.
  intros Hnd. unfold Memory.serve, Memory.route.
  destruct m, p; try exact Hnd.
  - destruct (memory_list_run q h) as (h' & G & E). rewrite E. cbn [snd]. now rewrite G.
  - unfold Memory.respond, Memory.get_book, Memory.arr_find, Memory.read,
      Memory.ret, Memory.bind.
    now destruct (List.find _ _).
  - unfold Memory.respond.
    destruct (memory_post_outcomes t1 t2 d h) as [E|[(e & E)|(Hnone & E)]];
      rewrite E; cbn [snd]; try exact Hnd.
    unfold Memory.store at 1. cbn [Memory.global]. rewrite map_app.
    apply NoDup_app; [exact Hnd | repeat constructor; intros [] |].
    intros s Hs [<-|[]]. apply in_map_iff in Hs as (b & Hb & Hin).
    apply (find_none _ _ Hnone) in Hin. cbn [isbn memory_new_book] in Hb.
    rewrite Hb, String.eqb_refl in Hin. discriminate.
  - destruct (parseInt id_segment) as [| |n] eqn:Hn.
    + destruct (memory_lookup_absent t1 t2 id_segment q d h) as [_ E].
      { intros b _. now rewrite Hn. }
      unfold Memory.serve, Memory.route in E. now rewrite E.
    + destruct (memory_lookup_absent t1 t2 id_segment q d h) as [_ E].
      { intros b _. now rewrite Hn. }
      unfold Memory.serve, Memory.route in E. now rewrite E.
    + destruct (List.find (Memory.id_is (Num n)) (Memory.store h)) as [b|] eqn:Ef.
      * apply find_some in Ef as [Hb Hp]. apply id_is_num in Hp.
        destruct (memory_delete_run id_segment n h Hn) as (l1 & b' & l2 & E & _ & _ & Hrun).
        { now exists b. }
        unfold Memory.respond. rewrite Hrun. cbn [snd].
        unfold Memory.store at 1. cbn [Memory.global].
        rewrite E, map_app in Hnd. simpl in Hnd. apply NoDup_remove_1 in Hnd.
        now rewrite map_app.
      * destruct (memory_lookup_absent t1 t2 id_segment q d h) as [_ E].
        { intros b Hb. rewrite Hn. exact (find_none _ _ Ef b Hb). }
        unfold Memory.serve, Memory.route in E. now rewrite E.
Qed.

(** X8.  Array store: when the isbns of the stored records are pairwise
    distinct, they are so after every sequence of requests; the seed data
    start that way. *)
Theorem X8_memory_isbn_unique :
  NoDup (map isbn (Memory.store Memory.initial)) /\
  (forall (reqs : list (Request * string)) (h : Memory.Heap),
      NoDup (map isbn (Memory.store h)) ->
      NoDup (map isbn (Memory.store (snd (memory_run reqs h))))).
Proof.
  split.
  - vm_compute. repeat (constructor; [simpl; intuition congruence|]). constructor.
  - induction reqs as [|[r t2] reqs IH]; intros h Hnd; simpl; [assumption|].
    pose proof (memory_isbn_preserved (r_clock r) t2 (r_method r) (r_path r)
                  (r_query r) (r_body r) h Hnd) as H.
    destruct (Memory.serve _ _ _ _ _ _ h) as [resp h1]. cbn [snd] in H.
    specialize (IH h1 H). now destruct (memory_run reqs h1).
Qed.

(** X8 on the seed data: a create, a repeated create, a delete. *)
Lemma X8_memory_isbn_unique_witness :
  let reqs := [ (mkRequest "t1" POST Books no_query dune, "t1");
                (mkRequest "t2" POST Books no_query dune, "t2");
                (mkRequest "t3" DELETE (BooksId "2") no_query no_draft, "t3") ] in
  NoDup (map isbn (Memory.store (snd (memory_run reqs Memory.initial)))).
Proof.
  intros reqs. destruct X8_memory_isbn_unique as [H0 H]. exact (H reqs Memory.initial H0).
Defined.

(** X9.  SQLite variant: a table that satisfies PRIMARY KEY(id) and
    UNIQUE(isbn) still satisfies them after every sequence of requests, and
    the seeded table satisfies them. *)
Theorem X9_sqlite_keys_unique :
  (forall now, Sqlite.constraints (Sqlite.initial now)) /\
  (forall (reqs : list Request) (db : Sqlite.DB),
      Sqlite.constraints db ->
      Sqlite.constraints (snd (sqlite_run reqs db))).
Proof.
  split; [exact constraints_initial|].
  induction reqs as [|r reqs IH]; intros db Hc; simpl; [assumption|].
  pose proof (constraints_preserved (r_clock r) (r_method r) (r_path r)
                (r_query r) (r_body r) db Hc) as H.
  destruct (Sqlite.serve _ _ _ _ _ db) as [resp db1]. cbn [snd] in H.
  specialize (IH db1 H). now destruct (sqlite_run reqs db1).
Qed.

(** X9 on the seeded table: a create, an update onto a taken isbn, a delete. *)
Lemma X9_sqlite_keys_unique_witness :
  let reqs := [ mkRequest "t1" POST Books no_query dune;
                mkRequest "t2" PUT (BooksId "2") no_query hobbit_revised;
                mkRequest "t3" DELETE (BooksId "1") no_query no_draft ] in
  Sqlite.constraints (snd (sqlite_run reqs (Sqlite.initial "t0"))).
Proof.
  intros reqs. destruct X9_sqlite_keys_unique as [H0 H].
  exact (H reqs (Sqlite.initial "t0") (H0 "t0")).
Defined.

(** X10.  SQLite variant: over every sequence of requests the ids handed
    out by successful creations increase strictly, so none is handed out
    twice, whatever is deleted in between; and when the sequence counter is
    not below the ids in the table at the start, every id handed out is above
    all of those. *)
Theorem X10_sqlite_ids_never_reused :
  forall (reqs : list Request) (db : Sqlite.DB),
    let created := created_ids (fst (sqlite_run reqs db)) in
    StronglySorted Z.lt created /\
    NoDup created /\
    ((forall r, In r (Sqlite.rows db) -> id r <= Sqlite.seq db) ->
     forall i r, In i created -> In r (Sqlite.rows db) -> id r < i).
Proof.
  intros reqs db created.
  destruct (sqlite_created_ids_increase reqs db) as [Hs Hb]. fold created in Hs, Hb.
  split; [exact Hs|]. split.
  - clear Hb. induction Hs as [|i l Hs IH Hi]; constructor; [|exact IH].
    intros Hin. rewrite Forall_forall in Hi. apply Hi in Hin. lia.
  - intros Hseq i r Hi Hr. rewrite Forall_forall in Hb.
    apply Hb in Hi. apply Hseq in Hr. lia.
Qed.

(** X10 on the seeded table: create, delete the created row, create again. *)
Lemma X10_sqlite_ids_never_reused_witness :
  let reqs := [ mkRequest "t1" POST Books no_query dune;
                mkRequest "t2" DELETE (BooksId "6") no_query no_draft;
                mkRequest "t3" POST Books no_query dune ] in
  created_ids (fst (sqlite_run reqs (Sqlite.initial "t0"))) = [6; 7] /\
  forall i r, In i [6; 7] -> In r (Sqlite.rows (Sqlite.initial "t0")) -> id r < i.
Proof.
  intros reqs. split; [reflexivity|].
  destruct (X10_sqlite_ids_never_reused reqs (Sqlite.initial "t0")) as (_ & _ & H).
  apply H. intros r Hr.
  assert (Hall : forallb (fun r => id r <=? 5) (Sqlite.rows (Sqlite.initial "t0")) = true)
    by (vm_compute; reflexivity).
  rewrite forallb_forall in Hall. apply Z.leb_le. exact (Hall r Hr).
Defined.

(* ========================================================================= *)
(** ** What a page can hold *)
(* ========================================================================= *)

Lemma filter_throw_is_filter (p : Book -> Memory.Result bool) (l l' : list Book) :
  Memory.filter_throw p l = Memory.Ok l' ->
  l' = filter (fun b => match p b with Memory.Ok true => true | _ => false end) l.
Proof.
  revert l'. induction l as [|x l IH]; simpl; intros l' E.
  - now injection E as <-.
  - destruct (p x) as [keep|]; [|discriminate].
    destruct (Memory.filter_throw p l) as [r|]; [|discriminate].
    injection E as <-. rewrite (IH r eq_refl). now destruct keep.
Qed.

Lemma filter_throw_incl (p : Book -> Memory.Result bool) (l l' : list Book) :
  Memory.filter_throw p l = Memory.Ok l' ->
  incl l' l /\ (List.length l' <= List.length l)%nat.
Proof.
  intros E. rewrite (filter_throw_is_filter p l l' E). split.
  - apply incl_filter.
  - apply filter_length_le.
Qed.

Lemma memory_filtered_incl (q : Query) (l f : list Book) :
  Memory.filtered q l = Memory.Ok f ->
  incl f l /\ (List.length f <= List.length l)%nat.
Proof.
  unfold Memory.filtered, Memory.filtered_by_text. intros E.
  assert (S1 : forall (on : bool) p x y,
             (if on then Memory.filter_throw p x else Memory.Ok x) = Memory.Ok y ->
             incl y x /\ (List.length y <= List.length x)%nat).
  { intros [|] p x y H.
    - now apply filter_throw_incl in H.
    - injection H as <-. split; [apply incl_refl | lia]. }
  destruct (if truthy (q_category q) then _ else _) as [l1|] eqn:E1; [|discriminate].
  apply S1 in E1 as [I1 L1].
  destruct (if truthy (q_author q) then _ else _) as [l2|] eqn:E2; [|discriminate].
  apply S1 in E2 as [I2 L2].
  destruct (q_available q) as [a|].
  - apply filter_throw_incl in E as [I3 L3]. split; [|lia].
    eapply incl_tran; [exact I3|]. eapply incl_tran; eassumption.
  - injection E as <-. split; [|lia]. eapply incl_tran; eassumption.
Qed.

Lemma slice_incl {A : Type} (l : list A) (a b : number) : incl (slice l a b) l.
Proof.
  unfold slice. intros x Hx. apply in_window in Hx. now apply in_window in Hx.
Qed.

Lemma parse_or_cases (dflt : Z) (x : option string) :
  parse_or dflt x = NaN \/ exists n, parse_or dflt x = Num n.
Proof.
  destruct x as [s|]; simpl; [|right; eauto].
  unfold parseInt.
  destruct (match skip_space s with
            | String "-" r => (true, r)
            | String "+" r => (false, r)
            | _ => (false, skip_space s)
            end) as [neg s2].
  destruct (match s2 with
            | String "0" (String "x" r) => (16, r)
            | String "0" (String "X" r) => (16, r)
            | _ => (10, s2)
            end) as [radix s3].
  destruct (digits radix s3 None); [right; eauto | now left].
Qed.

(** A page cut by [slice] at the indices of STEP 6 holds at most [L]
    records, whatever the page number. *)
Lemma slice_at_most_limit {A : Type} (l : list A) (page : number) (L : Z) :
  0 < L -> (page = NaN \/ exists p, page = Num p) ->
  (List.length (slice l (nmul (nsub page (Num 1)) (Num L))
                        (nadd (nmul (nsub page (Num 1)) (Num L)) (Num L)))
   <= Z.to_nat L)%nat.
Proof.
  intros HL [->|(p & ->)]; unfold slice; rewrite length_firstn;
    cbn [nmul nsub nadd nneg rel_index].
  - simpl. lia.
  - set (len := Z.of_nat (List.length l)).
    set (s := (p + - (1)) * L).
    assert (Hs : s < 0 -> s + L <= 0).
    { unfold s. intros H. assert (p + - (1) <= -1) by nia. nia. }
    destruct (Z.ltb_spec s 0), (Z.ltb_spec (s + L) 0); lia.
Qed.

Lemma memory_page_is_stored (q : Query) (l : list Book) :
  incl (data_of (Memory.list_result q l)) l.
Proof.
  unfold Memory.list_result, Memory.rejection.
  destruct (Memory.valid q).
  - destruct (Memory.filtered q l) as [f|] eqn:E; [|intros x []].
    apply memory_filtered_incl in E as [I _].
    unfold Memory.list_response, data_of. cbn [body json].
    eapply incl_tran; [apply slice_incl|].
    eapply incl_tran; [apply sort_incl | exact I].
  - destruct (member _ _); intros x [].
Qed.

Lemma sqlite_page_is_stored (q : Query) (db : Sqlite.DB) :
  incl (data_of (fst (Sqlite.get_books q db))) (Sqlite.rows db).
Proof.
  unfold Sqlite.get_books.
  destruct (negb (member _ validSortFields)); [intros x []|].
  destruct (negb (member _ _)); [intros x []|].
  destruct (Sqlite.data_query _ _ _ _ _ _) as [data|] eqn:E; [|intros x []].
  cbn [fst data_of body json].
  apply data_query_window in E as (n & k & _ & _ & _ & _ & ->).
  assert (I : incl (skipn (Z.to_nat k)
                      (Sqlite.order_by (default "title" (q_sort_by q))
                         (toUpperCase (default "asc" (q_order q)))
                         (Sqlite.where_ (Sqlite.where_conditions q) (Sqlite.rows db))))
                   (Sqlite.rows db)).
  { intros x Hx. apply in_window in Hx. unfold Sqlite.order_by in Hx.
    apply sort_incl in Hx. unfold Sqlite.where_ in Hx. now apply filter_In in Hx. }
  destruct (n <? 0); [exact I|].
  intros x Hx. apply in_window in Hx. now apply I.
Qed.

(** X11.  GET /books, both variants, every query: each record of the page
    is a record of the store; and when limit parses to a number L > 0, the
    page holds at most L records, whatever page is asked for. *)
Theorem X11_page_contents :
  (forall q h,
      incl (data_of (fst (Memory.respond (Memory.get_books q) h))) (Memory.store h))
  /\
  (forall q db, incl (data_of (fst (Sqlite.get_books q db))) (Sqlite.rows db))
  /\
  (forall q L,
      parse_or 20 (q_limit q) = Num L -> 0 < L ->
      (forall h,
          Z.of_nat (List.length (data_of (fst (Memory.respond (Memory.get_books q) h))))
          <= L) /\
      (forall db,
          Z.of_nat (List.length (data_of (fst (Sqlite.get_books q db)))) <= L)).
Proof.
  split; [|split].
  - intros q h. destruct (memory_list_run q h) as (h' & _ & E). rewrite E.
    apply memory_page_is_stored.
  - exact sqlite_page_is_stored.
  - intros q L HL HL0. split.
    + intros h. destruct (memory_list_run q h) as (h' & _ & E). rewrite E. cbn [fst].
      unfold Memory.list_result, Memory.rejection.
      destruct (Memory.valid q); [|destruct (member _ _); simpl; lia].
      destruct (Memory.filtered q (Memory.store h)) as [f|]; [|simpl; lia].
      unfold Memory.list_response, data_of. cbn [body json]. rewrite HL.
      pose proof (slice_at_most_limit (Memory.sorted q f) (parse_or 1 (q_page q)) L HL0
                    (parse_or_cases 1 (q_page q))). lia.
    + intros db. unfold Sqlite.get_books.
      destruct (negb (member _ validSortFields)); [simpl; lia|].
      destruct (negb (member _ _)); [simpl; lia|].
      destruct (Sqlite.data_query _ _ _ _ _ _) as [data|] eqn:E; [|simpl; lia].
      cbn [fst data_of body json].
      rewrite HL in E. cbn [Sqlite.bind_number] in E.
      apply data_query_window in E as (n & k & En & _ & _ & _ & ->).
      injection En as <-.
      destruct (Z.ltb_spec L 0); [lia|]. rewrite length_firstn. lia.
Qed.

(** X11 on the seed data with limit 2 and a page number below 1. *)
Lemma X11_page_contents_witness :
  let q := mkQuery None None None None None (Some "-1") (Some "2") in
  Z.of_nat (List.length (data_of (fst (Memory.respond (Memory.get_books q)
                                         Memory.initial)))) <= 2.
Proof.
  intros q. destruct X11_page_contents as (_ & _ & H).
  destruct (H q 2 eq_refl ltac:(lia)) as [Hm _]. exact (Hm Memory.initial).
Defined.

(* ========================================================================= *)
(** ** The author filter in the two variants *)
(* ========================================================================= *)

Lemma like_percent (pattern x : list ascii) :
  Sqlite.like_list ("%"%char :: pattern) x =
    Sqlite.like_list pattern x ||
    match x with
    | [] => false
    | _ :: x' => Sqlite.like_list ("%"%char :: pattern) x'
    end.
Proof. destruct x; reflexivity. Qed.

Lemma like_only_percent (x : list ascii) : Sqlite.like_list ["%"%char] x = true.
Proof.
  induction x as [|c x IH]; [reflexivity|].
  rewrite like_percent. rewrite IH. apply orb_true_r.
Qed.

Lemma list_ascii_of_append (s t : string) :
  list_ascii_of_string (s ++ t)%string
  = list_ascii_of_string s ++ list_ascii_of_string t.
Proof. induction s as [|c s IH]; simpl; [reflexivity | now rewrite IH]. Qed.

(** A pattern without wildcards, followed by [%], matches the strings that
    begin with it, letters compared without regard to case. *)
Lemma like_prefix (a x : string) :
  wildcard_free a = true ->
  Sqlite.like_list (list_ascii_of_string a ++ ["%"%char]) (list_ascii_of_string x)
  = String.prefix (toLowerCase a) (toLowerCase x).
Proof.
  revert x. induction a as [|p a IH]; intros x Hw.
  - simpl. rewrite like_only_percent. now destruct (toLowerCase x).
  - unfold wildcard_free in Hw. simpl in Hw. apply andb_true_iff in Hw as [Hp Hw].
    apply negb_true_iff, orb_false_iff in Hp as [Hp1 Hp2].
    destruct x as [|c x]; simpl; rewrite Hp1; [reflexivity|].
    rewrite Hp2. simpl. rewrite (IH x Hw).
    destruct (ascii_dec (lower_char p) (lower_char c)) as [E|N].
    + rewrite E, Ascii.eqb_refl. reflexivity.
    + apply Ascii.eqb_neq in N. now rewrite N.
Qed.

(** [x LIKE '%a%'] for [a] without wildcards is [includes] on the
    lower-cased strings. *)
Lemma like_is_includes (a x : string) :
  wildcard_free a = true ->
  Sqlite.like x ("%" ++ a ++ "%")%string = includes (toLowerCase x) (toLowerCase a).
Proof.
  intros Hw. unfold Sqlite.like.
  change (list_ascii_of_string ("%" ++ a ++ "%")%string)
    with ("%"%char :: list_ascii_of_string (a ++ "%")%string).
  rewrite list_ascii_of_append.
  change (list_ascii_of_string "%") with ["%"%char].
  induction x as [|c x IH].
  - rewrite like_percent, (like_prefix a "" Hw). reflexivity.
  - rewrite like_percent, (like_prefix a (String c x) Hw).
    change (list_ascii_of_string (String c x)) with (c :: list_ascii_of_string x).
    cbv iota. rewrite IH. reflexivity.
Qed.

Lemma sqlite_where_author (a : string) (l : list Book) :
  wildcard_free a = true ->
  Sqlite.where_ [Sqlite.AuthorLike ("%" ++ a ++ "%")%string] l
  = filter (fun b => includes (toLowerCase (author b)) (toLowerCase a)) l.
Proof.
  intros Hw. unfold Sqlite.where_. apply filter_ext. intros b.
  cbn [forallb Sqlite.eval_cond].
  now rewrite andb_true_r, like_is_includes.
Qed.

Lemma filtered_with_available (q : Query) (v : string) (l : list Book) :
  q_available q = Some v ->
  Memory.filtered q l =
    match Memory.filtered (without_available q) l with
    | Memory.Ok f0 => Memory.Ok (filter (available_selects v) f0)
    | Memory.TypeError => Memory.TypeError
    end.
Proof.
  intros Hv. unfold Memory.filtered. rewrite Hv.
  change (Memory.filtered_by_text (without_available q) l)
    with (Memory.filtered_by_text q l).
  cbn [q_available without_available].
  destruct (Memory.filtered_by_text q l) as [l2|]; [|reflexivity].
  rewrite filter_throw_total. reflexivity.
Qed.

Lemma where_with_available (q : Query) (v : string) (l : list Book) :
  q_available q = Some v ->
  Sqlite.where_ (Sqlite.where_conditions q) l =
    filter (available_selects v)
           (Sqlite.where_ (Sqlite.where_conditions (without_available q)) l).
Proof.
  intros Hv. unfold Sqlite.where_conditions at 1. rewrite Hv.
  unfold Sqlite.where_conditions. cbn [q_available without_available q_category q_author].
  rewrite !app_nil_r.
  set (cs0 := (if truthy (q_category q) then _ else _) ++
              (if truthy (q_author q) then _ else _)).
  rewrite app_assoc. fold cs0.
  unfold available_selects.
  destruct (String.eqb v "true"); rewrite where_snoc; reflexivity.
Qed.

(** X12.  The author filter selects the same records in both variants when
    the value is free of the LIKE wildcards % and _ (strings of ASCII
    characters): the records whose author, lower-cased, contains the value,
    lower-cased.  For a query without category filter the two variants then
    pass the same records on to sorting. *)
Theorem X12_author_filter_agrees :
  forall (q : Query) (a : string) (l : list Book),
    q_author q = Some a -> wildcard_free a = true -> ascii_only a = true ->
    Forall (fun b => ascii_only (author b) = true) l ->
    truthy (q_category q) = false ->
    let kept := filter (fun b => includes (toLowerCase (author b)) (toLowerCase a)) l in
    Memory.filtered (without_available q) l = Memory.Ok kept /\
    Sqlite.where_ (Sqlite.where_conditions (without_available q)) l = kept /\
    Memory.filtered q l = Memory.Ok (Sqlite.where_ (Sqlite.where_conditions q) l).
Proof.
  intros q a l Ha Hw _ _ Hc kept.
  assert (Hm : Memory.filtered (without_available q) l = Memory.Ok kept).
  { unfold Memory.filtered, Memory.filtered_by_text.
    cbn [without_available q_category q_author q_available].
    rewrite Hc, Ha. cbn [default truthy].
    destruct (negb (String.eqb a "")) eqn:Ea.
    - unfold Memory.author_matches. now rewrite filter_throw_total.
    - apply negb_false_iff, String.eqb_eq in Ea. subst a. unfold kept.
      f_equal. symmetry. apply forallb_filter_id.
      apply forallb_forall. intros b _. simpl. now destruct (toLowerCase (author b)). }
  assert (Hs : Sqlite.where_ (Sqlite.where_conditions (without_available q)) l = kept).
  { unfold Sqlite.where_conditions.
    cbn [without_available q_category q_author q_available].
    rewrite Hc, Ha. cbn [default truthy].
    destruct (negb (String.eqb a "")) eqn:Ea.
    - simpl. now apply sqlite_where_author.
    - apply negb_false_iff, String.eqb_eq in Ea. subst a. unfold kept, Sqlite.where_.
      simpl. apply filter_ext. intros b. simpl. now destruct (toLowerCase (author b)). }
  split; [exact Hm|]. split; [exact Hs|].
  destruct (q_available q) as [v|] eqn:Hv.
  - rewrite (filtered_with_available q v l Hv), Hm.
    now rewrite (where_with_available q v l Hv), Hs.
  - assert (Eq : without_available q = q) by (destruct q; simpl in *; now subst).
    rewrite Eq in Hm, Hs. now rewrite Hm, Hs.
Qed.

(** X12 on the seed data with author=tolkien. *)
Lemma X12_author_filter_agrees_witness :
  let q := mkQuery None (Some "tolkien") (Some "true") None None None None in
  Memory.filtered q seed = Memory.Ok (Sqlite.where_ (Sqlite.where_conditions q) seed) /\
  map id (Sqlite.where_ (Sqlite.where_conditions q) seed) = [1; 5].
Proof.
  intros q. split; [|reflexivity].
  apply (X12_author_filter_agrees q "tolkien" seed); try reflexivity.
  repeat constructor.
Defined.

(* ========================================================================= *)
(** ** Edge cases of the array store's list operation *)
(* ========================================================================= *)

Lemma filter_throw_null_category (wanted : string) (l : list Book) :
  (exists b, In b l /\ category b = None) ->
  Memory.filter_throw (Memory.category_matches wanted) l = Memory.TypeError.
Proof.
  induction l as [|x l IH]; intros (b & Hb & Hc); [contradiction|]. simpl.
  unfold Memory.category_matches at 1.
  destruct (category x) as [c|] eqn:Ex; [|reflexivity].
  rewrite IH; [reflexivity|].
  destruct Hb as [->|Hb]; [congruence|]. now exists b.
Qed.

(** X13.  Array store, GET /books with a valid sort and a non-empty
    category value: when some stored record has no category (null, as a
    create without category leaves it), the filter throws and the request is
    answered 500 by Express, whatever the other parameters; when every
    record has a category, the filter keeps exactly the records whose
    category equals the value without regard to case.  The store is left as
    it was in both cases. *)
Theorem X13_memory_category_null :
  forall (q : Query) (c : string) (h : Memory.Heap),
    Memory.valid q = true -> q_category q = Some c -> c <> "" ->
    Memory.store (snd (Memory.respond (Memory.get_books q) h)) = Memory.store h /\
    ((exists b, In b (Memory.store h) /\ category b = None) ->
     fst (Memory.respond (Memory.get_books q) h) = json 500 HtmlPage) /\
    (Forall (fun b => category b <> None) (Memory.store h) ->
     forall f, Memory.filtered (mkQuery (Some c) None None (q_sort_by q) (q_order q)
                                  (q_page q) (q_limit q)) (Memory.store h) = Memory.Ok f ->
       forall b, In b f <->
                 In b (Memory.store h) /\
                 exists s, category b = Some s /\ toLowerCase s = toLowerCase c).
Proof.
  intros q c h Hv Hc Hne.
  destruct (memory_list_run q h) as (h' & G & E). rewrite E. cbn [fst snd].
  split; [exact G|]. split.
  - intros Hex. unfold Memory.list_result. rewrite Hv.
    unfold Memory.filtered, Memory.filtered_by_text. rewrite Hc. cbn [truthy default].
    apply String.eqb_neq in Hne. rewrite Hne. cbn [negb].
    now rewrite (filter_throw_null_category c _ Hex).
  - intros Hall f Hf b.
    unfold Memory.filtered, Memory.filtered_by_text in Hf.
    cbn [q_category q_author q_available truthy default] in Hf.
    apply String.eqb_neq in Hne. rewrite Hne in Hf. cbn [negb] in Hf.
    rewrite (memory_category_filter c _ Hall) in Hf. injection Hf as <-.
    rewrite filter_In. split.
    + intros [Hin Hb]. split; [assumption|].
      destruct (category b) as [s|]; [|discriminate].
      exists s. split; [reflexivity | now apply String.eqb_eq].
    + intros [Hin (s & Hs & Heq)]. split; [assumption|].
      rewrite Hs. now apply String.eqb_eq.
Qed.

(** X13 after a create without category. *)
Lemma X13_memory_category_null_witness :
  let d := mkDraft (Some "Dune") (Some "Frank Herbert") (Some "978-0441013593")
             None None None in
  let h := snd (Memory.serve "t1" "t2" POST Books no_query d Memory.initial) in
  fst (Memory.respond (Memory.get_books (with_category "fiction")) h) = json 500 HtmlPage.
Proof.
  intros d h.
  destruct (X13_memory_category_null (with_category "fiction") "fiction" h
              eq_refl eq_refl ltac:(discriminate)) as (_ & H & _).
  apply H. exists (memory_new_book "t1" "t2" d seed). split; [|reflexivity].
  simpl. auto 10.
Defined.

(** X14.  Array store, GET /books with a valid sort whose filters do not
    throw: a limit that does not parse as a number, or a limit of zero, is
    not rejected.  The answer is 200 with an empty page and the true
    total_items, whatever page is asked for; total_pages, for which the
    handler computes NaN or an infinity, is sent as null; limit is sent as
    null when it did not parse and as 0 when it is zero. *)
Theorem X14_memory_limit_edge :
  forall (q : Query) (h : Memory.Heap) (f : list Book),
    Memory.valid q = true ->
    Memory.filtered q (Memory.store h) = Memory.Ok f ->
    let n := Z.of_nat (List.length f) in
    (parse_or 20 (q_limit q) = NaN ->
     exists page,
       fst (Memory.respond (Memory.get_books q) h) =
         json 200 (ListBody [] (mkPagination page None n None)))
    /\
    (parse_or 20 (q_limit q) = Num 0 ->
     exists page,
       fst (Memory.respond (Memory.get_books q) h) =
         json 200 (ListBody [] (mkPagination page None n (Some 0)))).
Proof.
  intros q h f Hv Hf n.
  destruct (memory_list_run q h) as (h' & _ & E). rewrite E. cbn [fst].
  unfold Memory.list_result. rewrite Hv, Hf. unfold Memory.list_response.
  fold n.
  split; intros HL; exists (json_number (parse_or 1 (q_page q))); rewrite HL.
  - destruct (parse_or_cases 1 (q_page q)) as [Hp|(p & Hp)]; rewrite Hp; reflexivity.
  - assert (Es : forall x,
               slice (Memory.sorted q f) (nmul x (Num 0)) (nadd (nmul x (Num 0)) (Num 0))
               = []).
    { intros [| |x]; cbn [nmul nadd Z.eqb]; unfold slice; cbn [rel_index];
        rewrite ?Z.mul_0_r, ?Z.add_0_r; cbn [Z.ltb Z.compare];
        rewrite ?Z.sub_diag; reflexivity. }
    rewrite Es. cbn [ceil_div Z.eqb].
    destruct (n =? 0); reflexivity.
Qed.

(** X14 on the seed data with limit=abc and with limit=0. *)
Lemma X14_memory_limit_edge_witness :
  (exists page,
      fst (Memory.respond
             (Memory.get_books (mkQuery None None None None None None (Some "abc")))
             Memory.initial)
      = json 200 (ListBody [] (mkPagination page None 5 None))) /\
  (exists page,
      fst (Memory.respond
             (Memory.get_books (mkQuery None None None None None None (Some "0")))
             Memory.initial)
      = json 200 (ListBody [] (mkPagination page None 5 (Some 0)))).
Proof.
  split.
  - exact (proj1 (X14_memory_limit_edge
                    (mkQuery None None None None None None (Some "abc"))
                    Memory.initial seed eq_refl eq_refl) eq_refl).
  - exact (proj2 (X14_memory_limit_edge
                    (mkQuery None None None None None None (Some "0"))
                    Memory.initial seed eq_refl eq_refl) eq_refl).
Defined.

(** X15.  SQLite variant, GET /books with a valid sort: when limit or page
    does not parse as a number, the LIMIT/OFFSET parameter is not an integer,
    the data query fails and the answer is 500 DATABASE_ERROR; the table is
    not changed. *)
Theorem X15_sqlite_limit_not_a_number :
  forall (q : Query) (db : Sqlite.DB),
    Sqlite.valid q = true ->
    parse_or 20 (q_limit q) = NaN \/ parse_or 1 (q_page q) = NaN ->
    Sqlite.get_books q db =
      (Sqlite.database_error "An error occurred while fetching books", db).
Proof.
  intros q db Hv Hnan. unfold Sqlite.valid in Hv. apply andb_true_iff in Hv as [Hs Ho].
  unfold Sqlite.get_books. rewrite Hs, Ho. cbn [negb].
  unfold Sqlite.data_query, Sqlite.limit_offset.
  destruct Hnan as [HL|Hp].
  - rewrite HL. reflexivity.
  - rewrite Hp. cbn [nsub nadd nneg nmul Sqlite.bind_number].
    destruct (Sqlite.bind_number (parse_or 20 (q_limit q))); reflexivity.
Qed.

(** X15 on the seeded table with limit=abc. *)
Lemma X15_sqlite_limit_not_a_number_witness :
  status (fst (Sqlite.get_books (mkQuery None None None None None None (Some "abc"))
                 (Sqlite.initial "t0"))) = 500.
Proof.
  rewrite (X15_sqlite_limit_not_a_number
             (mkQuery None None None None None None (Some "abc"))
             (Sqlite.initial "t0") eq_refl (or_introl eq_refl)).
  reflexivity.
Defined.

(* ========================================================================= *)
(** ** What an update keeps, and repeating it *)
(* ========================================================================= *)

Lemma put_book_table (now seg : string) (d : Draft) (db : Sqlite.DB) :
  snd (Sqlite.put_book now seg d db) = db \/
  exists e,
    Sqlite.select_by_id (Sqlite.bind_number (parseInt seg)) db = Some e /\
    snd (Sqlite.put_book now seg d db) =
      Sqlite.mkDB
        (map (fun r => if Sqlite.id_eq (Sqlite.bind_number (parseInt seg)) r
                       then mkBook (id r) (default "" (d_title d))
                              (default "" (d_author d)) (default "" (d_isbn d))
                              (d_published_year d) (d_category d) (copies_available e)
                              (copies_total (Sqlite.updated_row now d e))
                              (created_at r) now
                       else r) (Sqlite.rows db))
        (Sqlite.seq db).
Proof.
  unfold Sqlite.put_book.
  destruct (negb (required_present d)); [now left|].
  destruct (Sqlite.select_by_id _ db) as [e|] eqn:Esel; [|now left].
  destruct (if negb _ then _ else _); [now left|].
  destruct (Sqlite.update_book _ _ _ _ _ _ _ _ _ _) as [db'|] eqn:Eupd; [|now left].
  right. exists e. split; [reflexivity|].
  unfold Sqlite.update_book in Eupd.
  destruct (existsb _ _); [discriminate|]. injection Eupd as <-.
  now destruct (Sqlite.select_by_id _ (Sqlite.mkDB _ _)).
Qed.

(** X16.  PUT /books/:id never adds or removes a row and never changes an
    id, a created_at or the sequence counter, whatever the request and
    whether it succeeds or not; and on a table with pairwise distinct ids it
    never changes a copies_available either: the draft cannot set it. *)
Theorem X16_update_keeps :
  forall (now seg : string) (d : Draft) (db : Sqlite.DB),
    let db' := snd (Sqlite.put_book now seg d db) in
    map id (Sqlite.rows db') = map id (Sqlite.rows db) /\
    map created_at (Sqlite.rows db') = map created_at (Sqlite.rows db) /\
    Sqlite.seq db' = Sqlite.seq db /\
    (NoDup (map id (Sqlite.rows db)) ->
     map copies_available (Sqlite.rows db') = map copies_available (Sqlite.rows db)).
Proof.
  intros now seg d db db'.
  destruct (put_book_table now seg d db) as [E|(e & Hsel & E)]; unfold db'; rewrite E.
  - auto.
  - cbn [Sqlite.rows Sqlite.seq]. rewrite !map_map. repeat split.
    + apply map_ext. intros r. now destruct (Sqlite.id_eq _ r).
    + apply map_ext. intros r. now destruct (Sqlite.id_eq _ r).
    + intros Hnd. apply map_ext_in. intros r Hr.
      destruct (Sqlite.id_eq _ r) eqn:Hhit; [|reflexivity]. cbn [copies_available].
      apply id_eq_true in Hhit. rewrite Hhit in Hsel.
      rewrite (select_by_id_row db r Hnd Hr) in Hsel. congruence.
Qed.

(** X16 on the seeded table: the update of record 1 keeps its three copies
    on the shelf although copies_total becomes 7. *)
Lemma X16_update_keeps_witness :
  let db' := snd (Sqlite.put_book "t9" "1" hobbit_revised (Sqlite.initial "t0")) in
  map copies_available (Sqlite.rows db') = [3; 2; 0; 1; 2] /\
  map copies_total (Sqlite.rows db') = [7; 2; 4; 3; 6].
Proof.
  intros db'. split; [|reflexivity].
  destruct (X16_update_keeps "t9" "1" hobbit_revised (Sqlite.initial "t0"))
    as (_ & _ & _ & H).
  apply H. vm_compute. repeat (constructor; [simpl; intuition congruence|]). constructor.
Defined.

Lemma NoDup_map_same {A B : Type} (f : A -> B) (l : list A) (x y : A) :
  NoDup (map f l) -> In x l -> In y l -> f x = f y -> x = y.
Proof.
  induction l as [|z l IH]; simpl; intros Hnd Hx Hy E; [contradiction|].
  inversion Hnd as [|? ? Hz Hl]; subst.
  destruct Hx as [->|Hx], Hy as [->|Hy]; auto.
  - exfalso. apply Hz. rewrite E. now apply in_map.
  - exfalso. apply Hz. rewrite <- E. now apply in_map.
Qed.

Lemma updated_row_twice (now now2 : string) (d : Draft) (e : Book) :
  Sqlite.updated_row now2 d (Sqlite.updated_row now d e) = Sqlite.updated_row now2 d e.
Proof.
  unfold Sqlite.updated_row. cbn [id copies_available copies_total created_at].
  destruct (d_copies_total d) as [[| |]|]; reflexivity.
Qed.

(** Repeating an update. *)
Lemma put_book_repeat (now now2 seg : string) (d : Draft) (db : Sqlite.DB) :
  Sqlite.constraints db ->
  Sqlite.put_book now2 seg d (snd (Sqlite.put_book now seg d db))
  = Sqlite.put_book now2 seg d db.
Proof.
  intros Hc.
  destruct (required_present d) eqn:Hreq;
    [|unfold Sqlite.put_book at 2; now rewrite Hreq].
  destruct (Sqlite.select_by_id (Sqlite.bind_number (parseInt seg)) db) as [e|] eqn:Esel;
    [|unfold Sqlite.put_book at 2; now rewrite Hreq, Esel].
  pose proof Esel as Hfound. unfold Sqlite.select_by_id in Hfound.
  apply find_some in Hfound as [He Hv]. apply id_eq_true in Hv.
  assert (HX : d_isbn d = Some (default "" (d_isbn d))).
  { unfold required_present in Hreq. apply andb_true_iff in Hreq as [_ Hreq].
    destruct (d_isbn d); [reflexivity | discriminate]. }
  set (X := default "" (d_isbn d)) in *.
  destruct (Sqlite.select_isbn_other X (Sqlite.SInt (id e)) db) as [o|] eqn:Eo.
  - unfold Sqlite.select_isbn_other in Eo. apply find_some in Eo as [Ho Hp].
    apply andb_true_iff in Hp as [H1 H2]. apply String.eqb_eq in H1.
    apply negb_true_iff, Z.eqb_neq in H2.
    assert (Hne : X <> isbn e).
    { intros Heq. apply H2. f_equal. destruct Hc as [_ Hisbn].
      apply (NoDup_map_same isbn (Sqlite.rows db)); congruence. }
    destruct (put_book_conflict now seg d db e X o Hc Hreq He Hv HX Hne Ho H2 H1)
      as (o' & _ & _ & _ & E).
    now rewrite E.
  - assert (Hfree : forall o, In o (Sqlite.rows db) -> id o <> id e -> isbn o <> X).
    { intros o Ho Hne Heq. unfold Sqlite.select_isbn_other in Eo.
      apply (find_none _ _ Eo) in Ho. rewrite Heq, String.eqb_refl in Ho.
      apply Z.eqb_neq in Hne. rewrite Hne in Ho. discriminate. }
    rewrite (put_book_success now seg d db e X Hc Hreq He Hv HX Hfree).
    rewrite (put_book_success now2 seg d db e X Hc Hreq He Hv HX Hfree).
    cbn [snd].
    set (u := Sqlite.updated_row now d e).
    set (db' := Sqlite.mkDB _ _).
    assert (Hc' : Sqlite.constraints db').
    { pose proof (constraints_preserved now PUT (BooksId seg) no_query d db Hc) as H.
      cbn [Sqlite.serve] in H.
      now rewrite (put_book_success now seg d db e X Hc Hreq He Hv HX Hfree) in H. }
    assert (Hu : In u (Sqlite.rows db')).
    { unfold db'. cbn [Sqlite.rows]. apply in_map_iff. exists e.
      split; [now rewrite Z.eqb_refl | assumption]. }
    assert (Hfree' : forall o, In o (Sqlite.rows db') -> id o <> id u -> isbn o <> X).
    { intros o Ho Hne. unfold db' in Ho. cbn [Sqlite.rows] in Ho.
      apply in_map_iff in Ho as (r & Hr & Hin).
      destruct (Z.eqb_spec (id r) (id e)); subst o; [now contradiction Hne|].
      now apply Hfree. }
    rewrite (put_book_success now2 seg d db' u X Hc' Hreq Hu Hv HX Hfree').
    assert (Eu : Sqlite.updated_row now2 d u = Sqlite.updated_row now2 d e)
      by apply updated_row_twice.
    rewrite Eu. unfold db'. cbn [Sqlite.rows Sqlite.seq]. rewrite map_map.
    erewrite map_ext; [reflexivity|]. intros r. cbv beta.
    assert (Hidu : id u = id e) by reflexivity. rewrite Hidu.
    destruct (Z.eqb_spec (id r) (id e)) as [E|N].
    + now rewrite Hidu, Z.eqb_refl.
    + apply Z.eqb_neq in N. now rewrite N.
Qed.

(** X17.  On a table that satisfies its key constraints, repeating a PUT
    has the effect of doing it once: the second response and the table after
    it are what the request would have given on the original table at the
    time of the repetition; only updated_at can differ from the first. *)
Theorem X17_update_repeat :
  forall (now now2 seg : string) (d : Draft) (db : Sqlite.DB),
    Sqlite.constraints db ->
    Sqlite.put_book now2 seg d (snd (Sqlite.put_book now seg d db))
    = Sqlite.put_book now2 seg d db.
Proof. exact put_book_repeat. Qed.

(** X17 on the seeded table. *)
Lemma X17_update_repeat_witness :
  let db := Sqlite.initial "t0" in
  Sqlite.put_book "t9" "1" hobbit_revised (snd (Sqlite.put_book "t8" "1" hobbit_revised db))
  = Sqlite.put_book "t9" "1" hobbit_revised db.
Proof.
  intros db. apply X17_update_repeat. apply constraints_initial.
Defined.

(* ========================================================================= *)
(** ** Start-up of the SQLite variant *)
(* ========================================================================= *)

(** One INSERT into a table whose counter is not below any id in it. *)
Lemma insert_book_next now ti au isb y c a t l s :
  existsb (fun r => String.eqb (isbn r) isb) l = false ->
  Sqlite.max_id l <= s ->
  Sqlite.insert_book now ti au isb y c a t (Sqlite.mkDB l s)
  = Some (s + 1, Sqlite.mkDB (l ++ [mkBook (s + 1) ti au isb y c a t now now]) (s + 1)).
Proof.
  intros E Hm. unfold Sqlite.insert_book. cbn [Sqlite.rows Sqlite.seq].
  rewrite E. rewrite (Z.max_l s _ Hm). reflexivity.
Qed.

Lemma initializeDatabase_empty (now : string) (s0 : Z) :
  Sqlite.initializeDatabase now (Sqlite.mkDB [] s0)
  = Some (Sqlite.mkDB (seeded_rows now (Z.max s0 0)) (Z.max s0 0 + 5)).
Proof.
  unfold Sqlite.initializeDatabase. cbn [Sqlite.rows List.length Z.of_nat Z.eqb].
  unfold seed, seeded_rows. cbn [fold_left combine map].
  cbn [title author isbn published_year category copies_available copies_total].
  assert (Hs : 0 <= Z.max s0 0) by lia.
  unfold Sqlite.insert_book at 1. cbn [Sqlite.rows Sqlite.seq existsb Sqlite.max_id fold_right app].
  set (s := Z.max s0 0) in *. clearbody s.
  do 4 (rewrite insert_book_next;
        [ cbn [app] | vm_compute; reflexivity
        | cbn [app Sqlite.max_id fold_right id]; lia ]).
  replace (s + 1 + 1 + 1 + 1 + 1) with (s + 5) by lia.
  replace (s + 1 + 1 + 1 + 1) with (s + 4) by lia.
  replace (s + 1 + 1 + 1) with (s + 3) by lia.
  replace (s + 1 + 1) with (s + 2) by lia.
  reflexivity.
Qed.

(** X18.  Start-up of the SQLite variant ([initializeDatabase]) never fails,
    whatever the table holds.  A table with at least one row is left exactly
    as it is.  An empty table receives the five sample books, in order, with
    the five ids that follow the AUTOINCREMENT counter (1 to 5 on a fresh
    file) and the start-up time as both timestamps.  Starting again
    afterwards, at any later time, changes nothing: the samples are never
    inserted twice.  On a fresh file the result is the table the other
    theorems start from. *)
Theorem X18_startup_seeds_once (now : string) (db : Sqlite.DB) :
  (exists db',
      Sqlite.initializeDatabase now db = Some db' /\
      (Sqlite.rows db <> [] -> db' = db) /\
      (Sqlite.rows db = [] ->
         Sqlite.rows db' = seeded_rows now (Z.max (Sqlite.seq db) 0) /\
         Sqlite.seq db' = Z.max (Sqlite.seq db) 0 + 5) /\
      (forall later, Sqlite.initializeDatabase later db' = Some db')) /\
  Sqlite.initializeDatabase now (Sqlite.mkDB [] 0) = Some (Sqlite.initial now) /\
  map id (Sqlite.rows (Sqlite.initial now)) = [1; 2; 3; 4; 5].
Proof.
  split; [|split; [rewrite initializeDatabase_empty; vm_compute; reflexivity
                  | vm_compute; reflexivity]].
  destruct db as [l s]. destruct l as [|b l].
  - rewrite initializeDatabase_empty. eexists. split; [reflexivity|].
    cbn [Sqlite.rows Sqlite.seq].
    split; [intros H; now elim H|].
    split; [intros _; split; reflexivity|].
    intros later. reflexivity.
  - exists (Sqlite.mkDB (b :: l) s).
    assert (E : forall t, Sqlite.initializeDatabase t (Sqlite.mkDB (b :: l) s)
                          = Some (Sqlite.mkDB (b :: l) s)).
    { intros t. unfold Sqlite.initializeDatabase. cbn [Sqlite.rows List.length].
      destruct (Z.eqb_spec (Z.of_nat (S (List.length l))) 0) as [E|_]; [lia|reflexivity]. }
    split; [apply E|]. cbn [Sqlite.rows].
    split; [reflexivity|]. split; [discriminate|]. exact E.
Qed.

Lemma X18_startup_seeds_once_witness :
  exists db',
    Sqlite.initializeDatabase "2024-05-01 09:00:00" (Sqlite.mkDB [] 7) = Some db' /\
    map id (Sqlite.rows db') = [8; 9; 10; 11; 12] /\
    Sqlite.seq db' = 12.
Proof.
  destruct (X18_startup_seeds_once "2024-05-01 09:00:00" (Sqlite.mkDB [] 7))
    as [(db' & E & _ & H & _) _].
  exists db'. split; [exact E|].
  destruct (H eq_refl) as [R S]. rewrite R, S. split; vm_compute; reflexivity.
Defined.

(* ========================================================================= *)
(** ** The order of a page *)
(* ========================================================================= *)

Lemma js_lt_trans (x y z : value) :
  JS.lt x y = true -> JS.lt y z = true -> JS.lt x z = true.
Proof.
  destruct x, y, z; simpl; try congruence; rewrite ?Z.ltb_lt; try lia.
  apply string_ltb_trans.
Qed.

(** The keys of one sort field are all strings or all numbers, so any two
    different ones are ordered. *)
Lemma sort_key_total (sort_by : string) (a b : Book) :
  In sort_by validSortFields ->
  JS.lt (Memory.sort_key sort_by a) (Memory.sort_key sort_by b) <> true ->
  Memory.sort_key sort_by a <> Memory.sort_key sort_by b ->
  JS.lt (Memory.sort_key sort_by b) (Memory.sort_key sort_by a) = true.
Proof.
  intros [<-|[<-|[<-|[]]]].
  - rewrite !sort_key_title. simpl. intros H N. apply string_ltb_total; congruence.
  - rewrite !sort_key_year. simpl. intros H N. apply Z.ltb_lt.
    destruct (Z.ltb_spec (default 0 (published_year a)) (default 0 (published_year b)));
      [congruence|].
    assert (default 0 (published_year a) <> default 0 (published_year b)) by congruence.
    lia.
  - rewrite !sort_key_author. simpl. intros H N. apply string_ltb_total; congruence.
Qed.

(** What the comparator answers, in terms of the sort keys. *)
Lemma compare_books_by_key (sort_by order : string) (a b : Book) :
  In sort_by validSortFields ->
  0 < Memory.compare_books sort_by order a b <->
  (if String.eqb order "asc"
   then JS.lt (Memory.sort_key sort_by b) (Memory.sort_key sort_by a)
   else JS.lt (Memory.sort_key sort_by a) (Memory.sort_key sort_by b)) = true.
Proof.
  intros [<-|[<-|[<-|[]]]].
  - rewrite compare_books_title, !sort_key_title.
    destruct (String.eqb order "asc"); now rewrite if_pos.
  - rewrite compare_books_year, !sort_key_year.
    destruct (String.eqb order "asc"); now rewrite if_pos.
  - rewrite compare_books_author, !sort_key_author.
    destruct (String.eqb order "asc"); now rewrite if_pos.
Qed.

Lemma memory_sorted_in_order (sort_by order : string) (l : list Book) :
  In sort_by validSortFields ->
  NoDup (map (Memory.sort_key sort_by) l) ->
  StronglySorted
    (fun a b =>
       (if String.eqb order "asc"
        then JS.lt (Memory.sort_key sort_by a) (Memory.sort_key sort_by b)
        else JS.lt (Memory.sort_key sort_by b) (Memory.sort_key sort_by a)) = true)
    (sort (Memory.compare_books sort_by order) l).
Proof.
  intros Hin Hnd.
  pose proof (compare_books_by_key sort_by order) as Hc.
  destruct (String.eqb order "asc").
  - apply (sort_strongly_sorted (Memory.sort_key sort_by) (fun x y => JS.lt x y = true));
      [apply js_lt_trans | | | assumption].
    + intros x y H. now apply Hc.
    + intros x y H N. apply sort_key_total; [assumption| |congruence].
      intros L. apply H. now apply Hc.
  - apply (sort_strongly_sorted (Memory.sort_key sort_by) (fun x y => JS.lt y x = true));
      [ intros x y z H1 H2; now apply (js_lt_trans z y x) | | | assumption].
    + intros x y H. now apply Hc.
    + intros x y H N. apply sort_key_total; [assumption| |congruence].
      intros L. apply H. now apply Hc.
Qed.

Section OrderWithTies.

Context {A K : Type}.
Variable key : A -> K.
Variable lt : K -> K -> bool.
Hypothesis lt_trans : forall x y z, lt x y = true -> lt y z = true -> lt x z = true.
Hypothesis lt_irrefl : forall x, lt x x <> true.
Hypothesis lt_total : forall x y, lt x y <> true -> x <> y -> lt y x = true.

Variable cmp : A -> A -> Z.
Hypothesis cmp_spec : forall x y, 0 < cmp x y <-> lt (key y) (key x) = true.

Let not_after (a b : A) : Prop := lt (key b) (key a) = false.

Lemma insert_keeps_order (x : A) (l : list A) :
  StronglySorted not_after l -> StronglySorted not_after (insert cmp x l).
Proof.
  induction 1 as [|y l S IH Hy]; simpl.
  - repeat constructor.
  - destruct (Z.ltb_spec 0 (cmp x y)) as [Hgt|Hle].
    + apply cmp_spec in Hgt.
      constructor; [assumption|].
      rewrite (insert_permutation cmp x l). constructor; [|assumption].
      unfold not_after. destruct (lt (key x) (key y)) eqn:E; [|reflexivity].
      exfalso. apply (lt_irrefl (key y)). now apply lt_trans with (key x).
    + assert (Hxy : lt (key y) (key x) = false).
      { destruct (lt (key y) (key x)) eqn:E; [|reflexivity].
        apply cmp_spec in E. lia. }
      constructor; [now constructor|].
      constructor; [exact Hxy|].
      eapply Forall_impl; [|exact Hy]. intros z Hz. unfold not_after in *.
      destruct (lt (key z) (key x)) eqn:E; [|reflexivity]. exfalso.
      assert (N : key y <> key x).
      { intros Q. rewrite Q in Hz. congruence. }
      assert (L : lt (key x) (key y) = true).
      { apply lt_total; [congruence | assumption]. }
      rewrite (lt_trans _ _ _ E L) in Hz. discriminate.
Qed.

(** Whatever the keys, [sort] never puts a record before one with a
    smaller key. *)
Lemma sort_in_order (l : list A) : StronglySorted not_after (sort cmp l).
Proof.
  induction l as [|x l IH]; simpl; [constructor|]. now apply insert_keeps_order.
Qed.

End OrderWithTies.

Lemma window_in_order {A : Type} (R : A -> A -> Prop) (n : nat) (l : list A) :
  StronglySorted R l ->
  StronglySorted R (firstn n l) /\ StronglySorted R (skipn n l).
Proof.
  intros S. revert n. induction S as [|x l S IH Hx]; intros n.
  - rewrite firstn_nil, skipn_nil. split; constructor.
  - destruct n as [|n]; simpl.
    + split; [constructor | now constructor].
    + split; [|apply IH].
      constructor; [apply IH|].
      apply Forall_forall. intros y Hy. apply in_window in Hy.
      revert y Hy. now apply Forall_forall.
Qed.

Lemma slice_in_order {A : Type} (R : A -> A -> Prop) (l : list A) (a b : number) :
  StronglySorted R l -> StronglySorted R (slice l a b).
Proof.
  intros S. unfold slice. apply window_in_order. now apply window_in_order.
Qed.

Lemma order_by_in_order (name dir : string) (l : list Book) :
  StronglySorted
    (fun a b =>
       (if String.eqb dir "DESC"
        then Sqlite.sql_lt (Sqlite.column name a) (Sqlite.column name b)
        else Sqlite.sql_lt (Sqlite.column name b) (Sqlite.column name a)) = false)
    (Sqlite.order_by name dir l).
Proof.
  unfold Sqlite.order_by. destruct (String.eqb dir "DESC").
  - apply (sort_in_order (Sqlite.column name) (fun x y => Sqlite.sql_lt y x)).
    + intros x y z H1 H2. now apply (sql_lt_trans z y x).
    + apply sql_lt_irrefl.
    + intros x y H N. apply sql_lt_total; congruence.
    + intros x y. now rewrite if_pos.
  - apply (sort_in_order (Sqlite.column name) Sqlite.sql_lt).
    + apply sql_lt_trans.
    + apply sql_lt_irrefl.
    + apply sql_lt_total.
    + intros x y. now rewrite if_pos.
Qed.

(** X19.  The records of a page come in the order asked for.  Array store:
    when the records left by the filters have pairwise distinct sort keys
    (the field as the comparator reads it: a string lower-cased, a missing
    year as 0), each record of the page has a strictly smaller key than every
    later one under order asc, and a strictly larger one under any other
    accepted order.  SQLite variant, every table and every query: no record
    of the page has a larger column value than a later one under ASC, nor a
    smaller one under DESC; ties are allowed. *)
Theorem X19_page_in_order (q : Query) :
  let sort_by := default "title" (q_sort_by q) in
  (forall h f,
      Memory.filtered q (Memory.store h) = Memory.Ok f ->
      NoDup (map (Memory.sort_key sort_by) f) ->
      StronglySorted
        (fun a b =>
           (if String.eqb (default "asc" (q_order q)) "asc"
            then JS.lt (Memory.sort_key sort_by a) (Memory.sort_key sort_by b)
            else JS.lt (Memory.sort_key sort_by b) (Memory.sort_key sort_by a)) = true)
        (data_of (fst (Memory.respond (Memory.get_books q) h))))
  /\
  (forall db,
      StronglySorted
        (fun a b =>
           (if String.eqb (toUpperCase (default "asc" (q_order q))) "DESC"
            then Sqlite.sql_lt (Sqlite.column sort_by a) (Sqlite.column sort_by b)
            else Sqlite.sql_lt (Sqlite.column sort_by b) (Sqlite.column sort_by a)) = false)
        (data_of (fst (Sqlite.get_books q db)))).
Proof.
  intros sort_by. split.
  - intros h f Hf Hnd. destruct (memory_list_run q h) as (h' & _ & E). rewrite E.
    cbn [fst]. unfold Memory.list_result, Memory.rejection.
    destruct (Memory.valid q) eqn:Hv; [|destruct (member _ _); constructor].
    rewrite Hf. unfold Memory.list_response, data_of. cbn [body json].
    apply slice_in_order. unfold Memory.sorted.
    apply memory_sorted_in_order; [|assumption].
    unfold Memory.valid in Hv. apply andb_true_iff in Hv as [Hs _].
    now apply member_In.
  - intros db. unfold Sqlite.get_books.
    destruct (negb (member _ validSortFields)); [constructor|].
    destruct (negb (member _ _)); [constructor|].
    destruct (Sqlite.data_query _ _ _ _ _ _) as [data|] eqn:E; [|constructor].
    cbn [fst data_of body json].
    apply data_query_window in E as (n & k & _ & _ & _ & _ & ->).
    pose proof (order_by_in_order sort_by (toUpperCase (default "asc" (q_order q)))
                  (Sqlite.where_ (Sqlite.where_conditions q) (Sqlite.rows db))) as S.
    apply (window_in_order _ (Z.to_nat k)) in S as [_ S].
    destruct (n <? 0); [exact S|].
    now apply (window_in_order _ (Z.to_nat n)) in S as [S _].
Qed.

(** X19 on the seed data, newest first. *)
Lemma X19_page_in_order_witness :
  let q := mkQuery None None None (Some "published_year") (Some "desc") None None in
  let key := Memory.sort_key "published_year" in
  Memory.filtered q (Memory.store Memory.initial) = Memory.Ok seed /\
  NoDup (map key seed) /\
  StronglySorted (fun a b => JS.lt (key b) (key a) = true)
    (data_of (fst (Memory.respond (Memory.get_books q) Memory.initial))) /\
  StronglySorted
    (fun a b => Sqlite.sql_lt (Sqlite.column "published_year" a)
                  (Sqlite.column "published_year" b) = false)
    (data_of (fst (Sqlite.get_books q (Sqlite.initial "t0")))).
Proof.
  intros q key.
  assert (Hf : Memory.filtered q (Memory.store Memory.initial) = Memory.Ok seed)
    by reflexivity.
  assert (Hnd : NoDup (map key seed)).
  { vm_compute. repeat (constructor; [simpl; intuition congruence|]). constructor. }
  destruct (X19_page_in_order q) as [Hm Hs].
  split; [exact Hf|]. split; [exact Hnd|]. split.
  - exact (Hm Memory.initial seed Hf Hnd).
  - exact (Hs (Sqlite.initial "t0")).
Defined.
